(** * bottgmetro: the report wizard, its state store and the broadcast loop

    A shallow embedding of the Python sources
    ([utils.py], [database.py], [state_manager.py], [bot.py],
    [admin/gong.py], [admin/trains.py], [admin/ban.py]) and the
    properties of the specification that are checked against them.

    Layout: Python values and string primitives, the SQLite store,
    the handler monad (store + transport + clock), the handlers, the
    vocabulary of the properties, and then the theorems.

    A handler is modelled as it runs on its own: the lock of [Database]
    serialises the statements, a statement fails only where an integer
    read from a text does not fit the 64 bits of SQLite, and what the
    transport does with each call of the Bot API is an input of the run.
    Time is counted in milliseconds. *)

From Stdlib Require Import ZArith Lia List Ascii String.
From stdpp Require Import gmap strings list fin_maps pretty sorting.

Local Open Scope Z_scope.

(* ===================================================================== *)
(** ** Python strings *)
(* ===================================================================== *)

(** A Python [str] is a sequence of Unicode code points; [len] counts code
    points, and [isdigit], [isspace], [int] are defined per code point.
    Rocq string literals are byte strings, so literals of the sources are
    written as UTF-8 literals and decoded with [py]. *)
Module Py.

Definition pystr := list Z.

Fixpoint utf8 (bs : list Z) : pystr :=
  match bs with
  | [] => []
  | b0 :: t0 =>
      if b0 <? 128 then b0 :: utf8 t0
      else if b0 <? 224 then
        match t0 with
        | b1 :: t1 => ((b0 - 192) * 64 + (b1 - 128)) :: utf8 t1
        | _ => []
        end
      else if b0 <? 240 then
        match t0 with
        | b1 :: b2 :: t2 =>
            ((b0 - 224) * 4096 + (b1 - 128) * 64 + (b2 - 128)) :: utf8 t2
        | _ => []
        end
      else
        match t0 with
        | b1 :: b2 :: b3 :: t3 =>
            ((b0 - 240) * 262144 + (b1 - 128) * 4096 + (b2 - 128) * 64
             + (b3 - 128)) :: utf8 t3
        | _ => []
        end
  end.

Definition bytes_of (s : string) : list Z :=
  map (fun a => Z.of_N (N_of_ascii a)) (list_ascii_of_string s).

Definition py (s : string) : pystr := utf8 (bytes_of s).
Arguments py : simpl never.

(** Ranges of code points, closed on both sides. *)
Definition in_ranges (rs : list (Z * Z)) (c : Z) : bool :=
  existsb (fun r => (fst r <=? c) && (c <=? snd r)) rs.

(** [str.isspace] per code point (CPython 3.11, Unicode 14.0). *)
Definition space_ranges : list (Z * Z) :=
  [(9, 13); (28, 32); (133, 133); (160, 160); (5760, 5760); (8192, 8202);
   (8232, 8233); (8239, 8239); (8287, 8287); (12288, 12288)].

Definition isspace_char : Z -> bool := in_ranges space_ranges.

(** Code points of category Nd ([str.isdecimal]); in every range the
    decimal value of [c] is [(c - lo) mod 10]. *)
Definition decimal_ranges : list (Z * Z) :=
  [(48, 57); (1632, 1641); (1776, 1785); (1984, 1993); (2406, 2415);
   (2534, 2543); (2662, 2671); (2790, 2799); (2918, 2927); (3046, 3055);
   (3174, 3183); (3302, 3311); (3430, 3439); (3558, 3567); (3664, 3673);
   (3792, 3801); (3872, 3881); (4160, 4169); (4240, 4249); (6112, 6121);
   (6160, 6169); (6470, 6479); (6608, 6617); (6784, 6793); (6800, 6809);
   (6992, 7001); (7088, 7097); (7232, 7241); (7248, 7257); (42528, 42537);
   (43216, 43225); (43264, 43273); (43472, 43481); (43504, 43513);
   (43600, 43609); (44016, 44025); (65296, 65305); (66720, 66729);
   (68912, 68921); (69734, 69743); (69872, 69881); (69942, 69951);
   (70096, 70105); (70384, 70393); (70736, 70745); (70864, 70873);
   (71248, 71257); (71360, 71369); (71472, 71481); (71904, 71913);
   (72016, 72025); (72784, 72793); (73040, 73049); (73120, 73129);
   (92768, 92777); (92864, 92873); (93008, 93017); (120782, 120831);
   (123200, 123209); (123632, 123641); (125264, 125273); (130032, 130041)].

(** Code points with a digit value ([str.isdigit]): Nd together with the
    superscripts, subscripts, circled and other compatibility digits. *)
Definition digit_ranges : list (Z * Z) :=
  [(48, 57); (178, 179); (185, 185); (1632, 1641); (1776, 1785);
   (1984, 1993); (2406, 2415); (2534, 2543); (2662, 2671); (2790, 2799);
   (2918, 2927); (3046, 3055); (3174, 3183); (3302, 3311); (3430, 3439);
   (3558, 3567); (3664, 3673); (3792, 3801); (3872, 3881); (4160, 4169);
   (4240, 4249); (4969, 4977); (6112, 6121); (6160, 6169); (6470, 6479);
   (6608, 6618); (6784, 6793); (6800, 6809); (6992, 7001); (7088, 7097);
   (7232, 7241); (7248, 7257); (8304, 8304); (8308, 8313); (8320, 8329);
   (9312, 9320); (9332, 9340); (9352, 9360); (9450, 9450); (9461, 9469);
   (9471, 9471); (10102, 10110); (10112, 10120); (10122, 10130);
   (42528, 42537); (43216, 43225); (43264, 43273); (43472, 43481);
   (43504, 43513); (43600, 43609); (44016, 44025); (65296, 65305);
   (66720, 66729); (68160, 68163); (68912, 68921); (69216, 69224);
   (69714, 69722); (69734, 69743); (69872, 69881); (69942, 69951);
   (70096, 70105); (70384, 70393); (70736, 70745); (70864, 70873);
   (71248, 71257); (71360, 71369); (71472, 71481); (71904, 71913);
   (72016, 72025); (72784, 72793); (73040, 73049); (73120, 73129);
   (92768, 92777); (92864, 92873); (93008, 93017); (120782, 120831);
   (123200, 123209); (123632, 123641); (125264, 125273); (127232, 127242);
   (130032, 130041)].

Definition isdigit_char : Z -> bool := in_ranges digit_ranges.

Definition ascii_digit (c : Z) : bool := (48 <=? c) && (c <=? 57).

(** [s.isdigit()]: every character is a digit and there is at least one. *)
Definition isdigit (s : pystr) : bool :=
  negb (bool_decide (s = [])) && forallb isdigit_char s.

(** [len(s)] *)
Definition len (s : pystr) : Z := Z.of_nat (length s).

(** [s.strip()] *)
Fixpoint lstrip (s : pystr) : pystr :=
  match s with
  | [] => []
  | c :: t => if isspace_char c then lstrip t else s
  end.

Definition rstrip (s : pystr) : pystr := rev (lstrip (rev s)).

Definition strip (s : pystr) : pystr := rstrip (lstrip s).

(** [s.startswith(p)] *)
Fixpoint startswith (p s : pystr) : bool :=
  match p, s with
  | [], _ => true
  | a :: p', b :: s' => (a =? b) && startswith p' s'
  | _ :: _, [] => false
  end.

(** [s.split()] and [s.split(maxsplit=n)]: runs of whitespace separate
    the words; once [n] splits are made the rest of the string (without
    its leading whitespace) is the last word.  [cur] holds the word being
    read, reversed. *)
Fixpoint split_ws (budget : option nat) (cur : pystr) (s : pystr)
  : list pystr :=
  match s with
  | [] => match cur with [] => [] | _ => [rev cur] end
  | c :: t =>
      match cur with
      | [] =>
          if isspace_char c then split_ws budget [] t
          else match budget with
               | Some O => [s]
               | _ => split_ws budget [c] t
               end
      | _ =>
          if isspace_char c then rev cur :: split_ws (pred <$> budget) [] t
          else split_ws budget (c :: cur) t
      end
  end.

Definition split (s : pystr) : list pystr := split_ws None [] s.
Definition split_max (n : nat) (s : pystr) : list pystr :=
  split_ws (Some n) [] s.

(** [s.split(sep)] and [s.split(sep, n)] for a one-character separator. *)
Fixpoint split_sep (sep : Z) (budget : option nat) (cur : pystr) (s : pystr)
  : list pystr :=
  match s with
  | [] => [rev cur]
  | c :: t =>
      if (c =? sep) && negb (bool_decide (budget = Some O))
      then rev cur :: split_sep sep (pred <$> budget) [] t
      else split_sep sep budget (c :: cur) t
  end.

Definition split_on (sep : Z) (s : pystr) : list pystr :=
  split_sep sep None [] s.
Definition split_on_max (sep : Z) (n : nat) (s : pystr) : list pystr :=
  split_sep sep (Some n) [] s.

(** [sep.join(l)] *)
Fixpoint join (sep : pystr) (l : list pystr) : pystr :=
  match l with
  | [] => []
  | [x] => x
  | x :: t => x ++ sep ++ join sep t
  end.

(** [str(n)] for an [int], as f-strings insert it. *)
Definition str_of_int (n : Z) : pystr := bytes_of (pretty n).
Arguments str_of_int : simpl never.

(** [int(s)] for a [str], base 10 (CPython 3.11): white space around the
    numeral is skipped, then one optional sign, then decimal digits of any
    script, single underscores allowed between digits.  [None] stands for
    [ValueError].

    The white space of [int] is not that of [str.isspace]: a character
    below 127 is read as it is, and of these only tab to carriage return
    and the space are skipped, so the separators U+001C to U+001F count
    as white space for [strip] and [split] and as garbage for [int];
    above, every white-space character is read as a space. *)
Definition int_space (c : Z) : bool :=
  if c <? 127 then in_ranges [(9, 13); (32, 32)] c else isspace_char c.

Fixpoint skip_spaces (s : pystr) : pystr :=
  match s with
  | [] => []
  | c :: t => if int_space c then skip_spaces t else s
  end.

Definition numeral_of (s : pystr) : pystr :=
  rev (skip_spaces (rev (skip_spaces s))).

Definition decimal_value (c : Z) : option Z :=
  (fun r => (c - fst r) mod 10) <$>
    find (fun r => (fst r <=? c) && (c <=? snd r)) decimal_ranges.

Fixpoint parse_digits (acc : Z) (after_digit : bool) (s : pystr)
  : option Z :=
  match s with
  | [] => if after_digit then Some acc else None
  | c :: t =>
      if c =? 95 then
        if after_digit then parse_digits acc false t else None
      else
        match decimal_value c with
        | Some d => parse_digits (acc * 10 + d) true t
        | None => None
        end
  end.

(** A numeral of more than [max_str_digits] digits is refused
    ([sys.int_info.default_max_str_digits]); underscores are not
    counted. *)
Definition max_str_digits : Z := 4300.

Definition count_digits (s : pystr) : Z :=
  Z.of_nat (length (filter (fun c => c ≠ 95) s)).

Definition digits_value (s : pystr) : option Z :=
  match parse_digits 0 false s with
  | Some n => if max_str_digits <? count_digits s then None else Some n
  | None => None
  end.

Definition int_of_str (s : pystr) : option Z :=
  match numeral_of s with
  | 43 :: t => digits_value t
  | 45 :: t => Z.opp <$> digits_value t
  | t => digits_value t
  end.

End Py.
Export Py.

(* ===================================================================== *)
(** ** Python values, exceptions, configuration *)
(* ===================================================================== *)

(** The values that travel through [json.dumps]/[json.loads] in the state
    table.  A record is a dictionary with string keys; the answers kept
    under its ['data'] key are strings and message ids, the only values the
    handlers ever pass to [set_data]/[update_data].  On these values the
    JSON round trip is the identity, so the table holds the value. *)
Inductive scalar :=
| SInt (z : Z)
| SStr (s : pystr).

Inductive pyval :=
| VInt (z : Z)
| VStr (s : pystr)
| VDict (d : gmap pystr scalar).

#[global] Instance scalar_eq_dec : EqDecision scalar.
Proof. solve_decision. Defined.

#[global] Instance pyval_eq_dec : EqDecision pyval.
Proof. solve_decision. Defined.

Definition of_scalar (v : scalar) : pyval :=
  match v with
  | SInt z => VInt z
  | SStr s => VStr s
  end.

(** Truth value of an object in a condition ([if msg_id:]). *)
Definition truthy (v : pyval) : bool :=
  match v with
  | VInt z => negb (z =? 0)
  | VStr s => negb (bool_decide (s = []))
  | VDict d => negb (bool_decide (dom d = ∅))
  end.

(** [str(v)] *)
Definition str_of_scalar (v : scalar) : pystr :=
  match v with
  | SInt z => str_of_int z
  | SStr s => s
  end.

Inductive exn :=
| ValueError | IndexError | KeyError | TypeError | AttributeError
| OverflowError | ApiException.

Inductive result (A : Type) :=
| Ok (a : A)
| Raise (e : exn).
Arguments Ok {A} a.
Arguments Raise {A} e.

(** [config.py] is not part of the sources at hand: its constants are the
    fields of [config], and the development is parametric in them. *)
Record states := {
  IDLE : Z; LINE : Z; TRAIN : Z; TRAIN_MANUAL : Z; STATION : Z;
  DIRECTION : Z; TIME : Z; ROUTE_CHOICE : Z; ROUTE_MANUAL : Z;
  COMMENT : Z; CONFIRM : Z
}.

Record config := {
  ADMINS : list Z;
  LINES : list (pystr * pystr);
  LINE_EMOJI : gmap pystr pystr;
  STATIONS : gmap pystr (list pystr);
  TIMES : list pystr;
  MAX_COMMENT_LENGTH : Z;
  MAX_TRAIN_NAME_LENGTH : Z;
  MAX_GONG_TEXT_LENGTH : Z;
  CHANNEL_ID : Z;
  GONG_RATE_LIMIT : Z;
  GONG_DELAY : Z;
  STATE_TIMEOUT : Z;
  States : states
}.

(** Dictionary keys used by the sources. *)
Definition k_state : pystr := Eval vm_compute in py "state".
Definition k_data : pystr := Eval vm_compute in py "data".
Definition k_last_msg : pystr := Eval vm_compute in py "last_msg".
Definition k_line : pystr := Eval vm_compute in py "line".
Definition k_train : pystr := Eval vm_compute in py "train".
Definition k_station : pystr := Eval vm_compute in py "station".
Definition k_direction : pystr := Eval vm_compute in py "direction".
Definition k_time : pystr := Eval vm_compute in py "time".
Definition k_route : pystr := Eval vm_compute in py "route".
Definition k_comment : pystr := Eval vm_compute in py "comment".

(* ===================================================================== *)
(** ** database.py *)
(* ===================================================================== *)

(** The four tables.  Timestamps ([CURRENT_TIMESTAMP], [datetime('now')])
    are whole seconds of UTC.  [trains] keeps its rows in rowid order with
    the AUTOINCREMENT counter beside it; the other tables are keyed by
    their INTEGER PRIMARY KEY. *)
Record user_row := {
  username : option pystr;
  first_name : option pystr;
  created_at : Z
}.

Record ban_row := { reason : pystr; banned_at : Z }.

Record state_row := { state_data : gmap pystr pyval; updated_at : Z }.

Record database := {
  users : gmap Z user_row;
  banned_users : gmap Z ban_row;
  user_states : gmap Z state_row;
  trains : list (Z * pystr);
  trains_seq : Z
}.

Module Database.

Definition with_users (f : gmap Z user_row -> gmap Z user_row)
  (db : database) : database :=
  {| users := f (users db); banned_users := banned_users db;
     user_states := user_states db; trains := trains db;
     trains_seq := trains_seq db |}.

Definition with_banned (f : gmap Z ban_row -> gmap Z ban_row)
  (db : database) : database :=
  {| users := users db; banned_users := f (banned_users db);
     user_states := user_states db; trains := trains db;
     trains_seq := trains_seq db |}.

Definition with_states (f : gmap Z state_row -> gmap Z state_row)
  (db : database) : database :=
  {| users := users db; banned_users := banned_users db;
     user_states := f (user_states db); trains := trains db;
     trains_seq := trains_seq db |}.

(** Rows of a table keyed by rowid, in rowid order (a table scan). *)
Definition rowid_le {A} (a b : Z * A) : Prop := fst a ≤ fst b.

#[global] Instance rowid_le_dec {A} : RelDecision (@rowid_le A).
Proof. intros a b. unfold rowid_le. apply _. Defined.

Definition scan {A} (t : gmap Z A) : list (Z * A) :=
  merge_sort rowid_le (map_to_list t).

(** INSERT OR REPLACE INTO users (user_id, username, first_name) *)
Definition add_user (now : Z) (user_id : Z) (uname fname : option pystr)
  (db : database) : database :=
  with_users
    (insert user_id
       {| username := uname; first_name := fname; created_at := now |}) db.

(** SELECT user_id FROM users *)
Definition get_all_user_ids (db : database) : list Z :=
  map fst (scan (users db)).

(** An INTEGER of SQLite has 64 bits, and [sqlite3] refuses to bind a
    Python [int] outside that range: [execute] raises OverflowError and
    the statement does not run.  The two methods below are the ones that
    receive an id read from a text ([/ban], [/unban], the payload of a
    button); the ids passed to the other methods are those of Telegram
    or come from the tables. *)
Definition int64 (n : Z) : bool := (- 2 ^ 63 <=? n) && (n <? 2 ^ 63).

(** INSERT OR REPLACE INTO banned_users (user_id, reason) *)
Definition ban_user (now : Z) (user_id : Z) (why : pystr)
  (db : database) : result database :=
  if int64 user_id then
    Ok (with_banned (insert user_id {| reason := why; banned_at := now |})
          db)
  else Raise OverflowError.

(** DELETE FROM banned_users WHERE user_id = ? *)
Definition unban_user (user_id : Z) (db : database) : result database :=
  if int64 user_id then Ok (with_banned (delete user_id) db)
  else Raise OverflowError.

(** SELECT 1 FROM banned_users WHERE user_id = ? *)
Definition is_banned (user_id : Z) (db : database) : bool :=
  bool_decide (is_Some (banned_users db !! user_id)).

(** COLLATE NOCASE folds the 26 ASCII capitals only. *)
Definition nocase_char (c : Z) : Z :=
  if (65 <=? c) && (c <=? 90) then c + 32 else c.

Definition nocase_eq (a b : pystr) : bool :=
  bool_decide (map nocase_char a = map nocase_char b).

(** SELECT user_id FROM users WHERE username = ? COLLATE NOCASE, first row *)
Definition get_user_id_by_username (uname : pystr) (db : database)
  : option Z :=
  fst <$>
    find (fun r => match username (snd r) with
                   | Some u => nocase_eq u uname
                   | None => false
                   end) (scan (users db)).

(** SELECT user_id, username, first_name FROM users WHERE user_id = ? *)
Definition get_user_info (user_id : Z) (db : database) : option user_row :=
  users db !! user_id.

(** SELECT ... FROM banned_users b JOIN users u ON b.user_id = u.user_id
    ORDER BY b.banned_at DESC: the ids listed by /banlist, the latest ban
    first.  The statement does not fix the order among bans of the same
    second. *)
Definition later_ban (a b : Z * ban_row) : Prop :=
  banned_at (snd b) ≤ banned_at (snd a).

#[global] Instance later_ban_dec : RelDecision later_ban.
Proof. intros a b. unfold later_ban. apply _. Defined.

Definition get_banned_users_detailed (db : database) : list Z :=
  map fst
    (merge_sort later_ban
       (filter (fun r => is_Some (users db !! fst r))
          (scan (banned_users db)))).

(** INSERT OR REPLACE INTO user_states (user_id, state_data, updated_at)
    VALUES (?, ?, CURRENT_TIMESTAMP) *)
Definition set_user_state (now : Z) (user_id : Z)
  (sd : gmap pystr pyval) (db : database) : database :=
  with_states (insert user_id {| state_data := sd; updated_at := now |}) db.

(** SELECT state_data FROM user_states WHERE user_id = ? *)
Definition get_user_state (user_id : Z) (db : database)
  : option (gmap pystr pyval) :=
  state_data <$> user_states db !! user_id.

(** DELETE FROM user_states WHERE user_id = ? *)
Definition clear_user_state (user_id : Z) (db : database) : database :=
  with_states (delete user_id) db.

(** DELETE FROM user_states
    WHERE datetime(updated_at) < datetime('now', '-{minutes} minutes').
    For a negative [minutes] the f-string yields a doubled sign, which is
    not a modifier: [datetime] is NULL, the comparison holds for no row. *)
Definition cleanup_old_states (now : Z) (minutes : Z) (db : database)
  : database :=
  if minutes <? 0 then db
  else
    with_states
      (filter (fun kv => ¬ (updated_at (snd kv) < now - minutes * 60))) db.

(** Binary collation: code point order, the order of the UTF-8 bytes. *)
Fixpoint str_leb (a b : pystr) : bool :=
  match a, b with
  | [], _ => true
  | _ :: _, [] => false
  | x :: a', y :: b' => (x <? y) || ((x =? y) && str_leb a' b')
  end.

Definition str_le (a b : pystr) : Prop := Is_true (str_leb a b).

#[global] Instance str_le_dec : RelDecision str_le.
Proof. intros a b. unfold str_le. apply _. Defined.

(** SELECT name FROM trains ORDER BY name *)
Definition get_trains (db : database) : list pystr :=
  merge_sort str_le (map snd (trains db)).

(** INSERT OR IGNORE INTO trains (name) VALUES (?).  The id is drawn from
    the AUTOINCREMENT counter before the UNIQUE constraint is looked at,
    so an insert that is ignored uses up an id all the same. *)
Definition insert_train (db : database) (name : pystr) : database :=
  if bool_decide (name ∈ map snd (trains db)) then
    {| users := users db; banned_users := banned_users db;
       user_states := user_states db; trains := trains db;
       trains_seq := trains_seq db + 1 |}
  else
    {| users := users db; banned_users := banned_users db;
       user_states := user_states db;
       trains := trains db ++ [(trains_seq db + 1, name)];
       trains_seq := trains_seq db + 1 |}.

(** DELETE FROM trains, then one INSERT OR IGNORE per entry. *)
Definition set_trains (l : list pystr) (db : database) : database :=
  fold_left insert_train l
    {| users := users db; banned_users := banned_users db;
       user_states := user_states db; trains := [];
       trains_seq := trains_seq db |}.

End Database.

(* ===================================================================== *)
(** ** state_manager.py *)
(* ===================================================================== *)

(** A dictionary is true in a condition when it has a key. *)
Definition nonempty {V} (d : gmap pystr V) : bool :=
  negb (bool_decide (dom d = ∅)).

(** [x or {...}] on the result of [get_user_state]: a missing row and an
    empty dictionary both give the alternative. *)
Definition or_dict (o : option (gmap pystr pyval)) (alt : gmap pystr pyval)
  : gmap pystr pyval :=
  match o with
  | Some d => if nonempty d then d else alt
  | None => alt
  end.

Module StateManager.
Import Database.

Section WithConfig.
Context (cfg : config).

Definition get_state (user_id : Z) (db : database) : pyval :=
  match get_user_state user_id db with
  | Some state_data =>
      if nonempty state_data
      then default (VInt (IDLE (States cfg))) (state_data !! k_state)
      else VInt (IDLE (States cfg))
  | None => VInt (IDLE (States cfg))
  end.

Definition set_state (now : Z) (user_id : Z) (state : Z) (db : database)
  : database :=
  let current_data := or_dict (get_user_state user_id db) ∅ in
  set_user_state now user_id (<[k_state := VInt state]> current_data) db.

Definition get_data (user_id : Z) (db : database) : pyval :=
  match get_user_state user_id db with
  | Some state_data =>
      if nonempty state_data
      then default (VDict ∅) (state_data !! k_data)
      else VDict ∅
  | None => VDict ∅
  end.

(** The record a missing row is replaced by in [set_data]/[update_data]. *)
Definition fresh_record : gmap pystr pyval :=
  <[k_data := VDict ∅]> (<[k_state := VInt (IDLE (States cfg))]> ∅).

(** [if 'data' not in state_data: state_data['data'] = {}] *)
Definition ensure_data (state_data : gmap pystr pyval) : gmap pystr pyval :=
  match state_data !! k_data with
  | Some _ => state_data
  | None => <[k_data := VDict ∅]> state_data
  end.

Definition set_data (now : Z) (user_id : Z) (key : pystr) (value : scalar)
  (db : database) : result database :=
  let state_data := ensure_data (or_dict (get_user_state user_id db)
                                         fresh_record) in
  match state_data !! k_data with
  | Some (VDict d) =>
      Ok (set_user_state now user_id
            (<[k_data := VDict (<[key := value]> d)]> state_data) db)
  | _ => Raise TypeError
  end.

Definition update_data (now : Z) (user_id : Z) (updates : gmap pystr scalar)
  (db : database) : result database :=
  let state_data := ensure_data (or_dict (get_user_state user_id db)
                                         fresh_record) in
  match state_data !! k_data with
  | Some (VDict d) =>
      Ok (set_user_state now user_id
            (<[k_data := VDict (updates ∪ d)]> state_data) db)
  | _ => Raise AttributeError
  end.

Definition clear_state (user_id : Z) (db : database) : database :=
  clear_user_state user_id db.

Definition reset_state (now : Z) (user_id : Z) (db : database) : database :=
  set_state now user_id (IDLE (States cfg)) db.

End WithConfig.
End StateManager.

(* ===================================================================== *)
(** ** The handler monad: store, transport, clock *)
(* ===================================================================== *)

(** Keyboards attached to outgoing messages.  Every [markup.add] of the
    sources passes at most [row_width] buttons, so each call adds one row. *)
Inductive markup :=
| ReplyKeyboardMarkup (rows : list (list pystr))
| InlineKeyboardMarkup (row_width : Z) (rows : list (list (pystr * pystr)))
| ReplyKeyboardRemove.

(** Calls of the Bot API made by the handlers. *)
Inductive api_call :=
| SendMessage (chat_id : Z) (text : pystr) (reply_markup : option markup)
              (parse_mode : option pystr)
| ReplyTo (chat_id message_id : Z) (text : pystr)
          (reply_markup : option markup)
| EditMessageText (text : pystr) (chat_id message_id : Z)
| DeleteMessage (chat_id : Z) (message_id : scalar)
| ForwardMessage (chat_id from_chat_id message_id : Z)
| AnswerCallbackQuery (callback_query_id : pystr) (text : option pystr).

(** What the transport does with one call: it fails (the call raises) or
    succeeds, after some time, and a successful call yields a message (its
    id, and for a forward the text of the copy). *)
Record reply := {
  r_ok : bool;
  r_took : Z;
  r_message_id : Z;
  r_text : option pystr
}.

Definition default_reply : reply :=
  {| r_ok := true; r_took := 0; r_message_id := 0; r_text := None |}.

(** The observable history: API calls with their outcome, and sleeps. *)
Inductive event :=
| Call (c : api_call) (ok : bool)
| Sleep (ms : Z).

(** [utils.RateLimiter] objects have mutable fields. *)
Record RateLimiter := {
  messages_per_period : Z;
  period_seconds : Z;
  message_count : Z;
  period_start : Z
}.

(** The state a handler runs in.  Time is counted in milliseconds
    ([time.time()], [time.sleep] and the periods are scaled by 1000);
    [clock] is UTC since 0001-01-01 00:00, the origin of [datetime].
    [net] lists the transport's replies to the calls to come; when it is
    used up, calls succeed at once. *)
Record world := {
  db : database;
  clock : Z;
  utc_offset : Z;
  net : list reply;
  trace : list event;
  rate_limiter : RateLimiter;
  waiting_for_text : gset Z;
  editing_users : gset Z
}.

Definition M (A : Type) : Type := world -> result A * world.

Definition ret {A} (a : A) : M A := fun w => (Ok a, w).

Definition raise {A} (e : exn) : M A := fun w => (Raise e, w).

Definition bind {A B} (m : M A) (k : A -> M B) : M B :=
  fun w =>
    match m w with
    | (Ok a, w') => k a w'
    | (Raise e, w') => (Raise e, w')
    end.

(** [try: m  except ...: h e] — the effects of [m] up to the raise stay. *)
Definition try_except {A} (m : M A) (h : exn -> M A) : M A :=
  fun w =>
    match m w with
    | (Ok a, w') => (Ok a, w')
    | (Raise e, w') => h e w'
    end.

Declare Scope py_scope.
Delimit Scope py_scope with py.
Notation "x <- c ;; k" := (bind c (fun x => k))
  (at level 100, c at next level, k at level 200, right associativity)
  : py_scope.
Notation "c ;;; k" := (bind c (fun _ => k))
  (at level 100, k at level 200, right associativity) : py_scope.
Local Open Scope py_scope.

(** [pass] *)
Definition pass : M unit := ret tt.

(** [for x in l: body x] *)
Fixpoint for_each {A} (l : list A) (body : A -> M unit) : M unit :=
  match l with
  | [] => pass
  | x :: t => body x ;;; for_each t body
  end.

Definition set_db (d : database) (w : world) : world :=
  {| db := d; clock := clock w; utc_offset := utc_offset w; net := net w;
     trace := trace w; rate_limiter := rate_limiter w;
     waiting_for_text := waiting_for_text w;
     editing_users := editing_users w |}.

(** [CURRENT_TIMESTAMP] *)
Definition current_timestamp (w : world) : Z := clock w / 1000.

Definition db_read {A} (f : database -> A) : M A :=
  fun w => (Ok (f (db w)), w).

Definition db_write (f : Z -> database -> database) : M unit :=
  fun w => (Ok tt, set_db (f (current_timestamp w) (db w)) w).

Definition db_try (f : Z -> database -> result database) : M unit :=
  fun w =>
    match f (current_timestamp w) (db w) with
    | Ok d => (Ok tt, set_db d w)
    | Raise e => (Raise e, w)
    end.

(** [time.time()] *)
Definition time_time : M Z := fun w => (Ok (clock w), w).

(** [time.sleep(ms)] *)
Definition time_sleep (ms : Z) : M unit :=
  fun w =>
    if ms <? 0 then (Raise ValueError, w)
    else
      (Ok tt,
       {| db := db w; clock := clock w + ms; utc_offset := utc_offset w;
          net := net w; trace := trace w ++ [Sleep ms];
          rate_limiter := rate_limiter w;
          waiting_for_text := waiting_for_text w;
          editing_users := editing_users w |}).

(** One call of the Bot API: the next reply of the transport decides. *)
Definition api (c : api_call) : M reply :=
  fun w =>
    let r := hd default_reply (net w) in
    let w' :=
      {| db := db w; clock := clock w + Z.max 0 (r_took r);
         utc_offset := utc_offset w; net := tl (net w);
         trace := trace w ++ [Call c (r_ok r)];
         rate_limiter := rate_limiter w;
         waiting_for_text := waiting_for_text w;
         editing_users := editing_users w |} in
    if r_ok r then (Ok r, w') else (Raise ApiException, w').

Module Bot.
Definition send_message (chat_id : Z) (text : pystr)
  (reply_markup : option markup) (parse_mode : option pystr) : M Z :=
  r <- api (SendMessage chat_id text reply_markup parse_mode) ;;
  ret (r_message_id r).
Definition reply_to (chat_id message_id : Z) (text : pystr)
  (reply_markup : option markup) : M unit :=
  api (ReplyTo chat_id message_id text reply_markup) ;;; pass.
Definition edit_message_text (text : pystr) (chat_id message_id : Z)
  : M unit :=
  api (EditMessageText text chat_id message_id) ;;; pass.
Definition delete_message (chat_id : Z) (message_id : scalar) : M unit :=
  api (DeleteMessage chat_id message_id) ;;; pass.
Definition forward_message (chat_id from_chat_id message_id : Z) : M reply :=
  api (ForwardMessage chat_id from_chat_id message_id).
Definition answer_callback_query (id : pystr) (text : option pystr)
  : M unit :=
  api (AnswerCallbackQuery id text) ;;; pass.
End Bot.

(** Incoming updates. *)
Record tg_user := {
  u_id : Z;
  u_username : option pystr;
  u_first_name : option pystr
}.

Record message := {
  m_from_user : tg_user;
  m_chat_id : Z;
  m_message_id : Z;
  m_text : pystr
}.

Record callback_query := {
  c_id : pystr;
  c_from_user : tg_user;
  c_data : pystr;
  c_message : option message
}.

Definition lift {A} (r : result A) : M A := fun w => (r, w).

(** [d[k]] on what should be a dictionary; [d.get(k)]. *)
Definition subscript (v : pyval) (k : pystr) : result scalar :=
  match v with
  | VDict d => match d !! k with Some x => Ok x | None => Raise KeyError end
  | _ => Raise TypeError
  end.

Definition dict_get (v : pyval) (k : pystr) : result (option scalar) :=
  match v with
  | VDict d => Ok (d !! k)
  | _ => Raise AttributeError
  end.

(** [l[i]] on a list. *)
Definition index {A} (l : list A) (i : nat) : result A :=
  match l !! i with
  | Some x => Ok x
  | None => Raise IndexError
  end.

(** [range(n)] *)
Definition range (n : Z) : list Z := map Z.of_nat (seq 0 (Z.to_nat n)).

(* ===================================================================== *)
(** ** utils.py *)
(* ===================================================================== *)

Module Utils.

(** [retry_on_error(max_retries, delay)(func)]: the loop over
    [range(max_retries)] with [last_exception] carried along.  A call that
    returns ends the loop; [raise last_exception] with [None] is a
    [TypeError]. *)
Fixpoint retry_loop {A} (max_retries delay : Z) (func : M A)
  (attempts : list Z) (last_exception : option exn) : M A :=
  match attempts with
  | [] =>
      match last_exception with
      | Some e => raise e
      | None => raise TypeError
      end
  | attempt :: rest =>
      r <- try_except (a <- func ;; ret (inl a))
             (fun e =>
                (if attempt <? max_retries - 1
                 then time_sleep (delay * 2 ^ attempt)
                 else pass) ;;;
                ret (inr e)) ;;
      match r with
      | inl a => ret a
      | inr e => retry_loop max_retries delay func rest (Some e)
      end
  end.

Definition retry_on_error {A} (max_retries delay : Z) (func : M A) : M A :=
  retry_loop max_retries delay func (range max_retries) None.

(** [html.escape(s)], character by character. *)
Definition escape_char (c : Z) : pystr :=
  if c =? 38 then py "&amp;"
  else if c =? 60 then py "&lt;"
  else if c =? 62 then py "&gt;"
  else if c =? 34 then py "&quot;"
  else if c =? 39 then py "&#x27;"
  else [c].

Definition html_escape (s : pystr) : pystr := concat (map escape_char s).

Definition safe_html (text : scalar) : pystr :=
  if truthy (of_scalar text) then html_escape (str_of_scalar text) else [].

Definition format_user_link (user_id : Z) (uname fname : option pystr)
  : pystr :=
  match uname with
  | Some (c :: u) => py "@" ++ (c :: u)
  | _ =>
      let name := match fname with
                  | Some (c :: f) => safe_html (SStr (c :: f))
                  | _ => py "Пользователь"
                  end in
      py "<a href=" ++ [34] ++ py "tg://user?id=" ++ str_of_int user_id
        ++ [34] ++ py ">" ++ name ++ py "</a>"
  end.

Definition validate_text_length (text : pystr) (max_length : Z)
  (field_name : pystr) : bool * option pystr :=
  if bool_decide (text = []) || bool_decide (strip text = []) then
    (false, Some (py "❗️ " ++ field_name ++ py " не может быть пустым"))
  else if max_length <? len text then
    (false, Some (py "❗️ " ++ field_name ++ py " слишком длинный (макс. "
                  ++ str_of_int max_length ++ py " символов)"))
  else (true, None).

Definition validate_route_number (route : pystr) : bool * option pystr :=
  if negb (isdigit route) then
    (false, Some (py "❗️ Маршрут должен содержать только цифры"))
  else if negb (len route =? 3) then
    (false, Some (py "❗️ Маршрут должен быть трёхзначным"))
  else (true, None).

(** [int(time_str.split()[0])], with the exceptions it can raise. *)
Definition first_word_int (time_str : pystr) : result Z :=
  match index (split time_str) 0 with
  | Ok word =>
      match int_of_str word with
      | Some n => Ok n
      | None => Raise ValueError
      end
  | Raise e => Raise e
  end.

(** [parse_time_ago]: the [except (ValueError, IndexError)] clause lets any
    other exception through. *)
Definition parse_time_ago (time_str : pystr) : result Z :=
  if bool_decide (time_str = py "Сейчас") then Ok 0
  else
    match first_word_int time_str with
    | Ok n => Ok n
    | Raise ValueError | Raise IndexError => Ok 0
    | Raise e => Raise e
    end.

Definition set_rate_limiter (rl : RateLimiter) : M unit :=
  fun w =>
    (Ok tt,
     {| db := db w; clock := clock w; utc_offset := utc_offset w;
        net := net w; trace := trace w; rate_limiter := rl;
        waiting_for_text := waiting_for_text w;
        editing_users := editing_users w |}).

Definition get_rate_limiter : M RateLimiter :=
  fun w => (Ok (rate_limiter w), w).

(** [RateLimiter(messages_per_period, period_seconds)] *)
Definition RateLimiter_init (per_period period : Z) : M unit :=
  now <- time_time ;;
  set_rate_limiter
    {| messages_per_period := per_period; period_seconds := period;
       message_count := 0; period_start := now |}.

(** [RateLimiter.wait_if_needed] *)
Definition wait_if_needed : M unit :=
  self <- get_rate_limiter ;;
  let self :=
    {| messages_per_period := messages_per_period self;
       period_seconds := period_seconds self;
       message_count := message_count self + 1;
       period_start := period_start self |} in
  set_rate_limiter self ;;;
  if messages_per_period self <=? message_count self then
    now <- time_time ;;
    let elapsed := now - period_start self in
    (if elapsed <? period_seconds self
     then time_sleep (period_seconds self - elapsed)
     else pass) ;;;
    now' <- time_time ;;
    set_rate_limiter
      {| messages_per_period := messages_per_period self;
         period_seconds := period_seconds self;
         message_count := 0;
         period_start := now' |}
  else pass.

End Utils.

Definition nl : pystr := [10].

(** [s.replace(old, "")] for a non-empty [old]: [skip] counts the
    characters of a match still to be dropped. *)
Fixpoint remove_all (old : pystr) (skip : nat) (s : pystr) : pystr :=
  match s with
  | [] => []
  | c :: t =>
      match skip with
      | S k => remove_all old k t
      | O =>
          if startswith old s then remove_all old (length old - 1) t
          else c :: remove_all old O t
      end
  end.

(** [message.from_user.id not in ADMINS] and the like *)
Definition is_admin (cfg : config) (user_id : Z) : bool :=
  bool_decide (user_id ∈ ADMINS cfg).

(** [call.message.<field>] raises when the callback carries no message. *)
Definition the_message (call : callback_query) : M message :=
  match c_message call with
  | Some m => ret m
  | None => raise AttributeError
  end.

(* ===================================================================== *)
(** ** admin/ban.py *)
(* ===================================================================== *)

Module BanManager.
Section WithConfig.
Context (cfg : config).

Definition is_banned (user_id : Z) : M bool :=
  db_read (Database.is_banned user_id).

Definition ban_usage : pystr :=
  py "❗️ Использование:" ++ nl ++ nl
  ++ py "• /ban <user_id> [причина]" ++ nl
  ++ py "• /ban @username [причина]" ++ nl
  ++ py "• /recent — показать последних пользователей".

Definition reply (message : message) (text : pystr) : M unit :=
  Bot.reply_to (m_chat_id message) (m_message_id message) text None.

Definition _handle_ban (message : message) : M unit :=
  try_except
    (if negb (is_admin cfg (u_id (m_from_user message))) then pass
     else
       let args := split_max 2 (m_text message) in
       match args with
       | _ :: user_identifier :: rest =>
           let reason := match rest with r :: _ => r | [] => py "-" end in
           if startswith (py "@") user_identifier then
             let username := drop 1 user_identifier in
             found <- db_read (Database.get_user_id_by_username username) ;;
             match found with
             | Some user_id =>
                 if negb (user_id =? 0) then
                   db_try (fun now =>
                             Database.ban_user now user_id reason) ;;;
                   reply message
                     (py "✅ Пользователь @" ++ username ++ py " (ID: "
                      ++ str_of_int user_id ++ py ") забанен" ++ nl
                      ++ py "Причина: " ++ reason)
                 else
                   reply message
                     (py "❌ Пользователь @" ++ username
                      ++ py " не найден в базе")
             | None =>
                 reply message
                   (py "❌ Пользователь @" ++ username
                    ++ py " не найден в базе")
             end
           else
             match int_of_str user_identifier with
             | None =>
                 reply message
                   (py "❌ Неверный формат. Используйте ID или @username")
             | Some user_id =>
                 db_try (fun now =>
                           Database.ban_user now user_id reason) ;;;
                 reply message
                   (py "✅ Пользователь " ++ str_of_int user_id
                    ++ py " забанен" ++ nl ++ py "Причина: " ++ reason)
             end
       | _ => reply message ban_usage
       end)
    (fun _ => reply message (py "❌ Ошибка при бане")).

Definition unban_usage : pystr :=
  py "❗️ Использование: /unban <user_id> или /unban @username".

Definition _handle_unban (message : message) : M unit :=
  try_except
    (if negb (is_admin cfg (u_id (m_from_user message))) then pass
     else
       let args := split (m_text message) in
       match args with
       | _ :: user_identifier :: _ =>
           if startswith (py "@") user_identifier then
             let username := drop 1 user_identifier in
             found <- db_read (Database.get_user_id_by_username username) ;;
             match found with
             | Some user_id =>
                 if negb (user_id =? 0) then
                   db_try (fun _ => Database.unban_user user_id) ;;;
                   reply message
                     (py "✅ Пользователь @" ++ username ++ py " (ID: "
                      ++ str_of_int user_id ++ py ") разбанен")
                 else
                   reply message
                     (py "❌ Пользователь @" ++ username
                      ++ py " не найден в базе")
             | None =>
                 reply message
                   (py "❌ Пользователь @" ++ username
                    ++ py " не найден в базе")
             end
           else
             match int_of_str user_identifier with
             | None =>
                 reply message
                   (py "❌ Неверный формат. Используйте ID или @username")
             | Some user_id =>
                 db_try (fun _ => Database.unban_user user_id) ;;;
                 reply message
                   (py "✅ Пользователь " ++ str_of_int user_id
                    ++ py " разбанен")
             end
       | _ => reply message unban_usage
       end)
    (fun _ => reply message (py "❌ Ошибка при разбане")).

(** [int(call.data.split("_")[2])] *)
Definition button_user_id (call : callback_query) : result Z :=
  match index (split_on 95 (c_data call)) 2 with
  | Ok word =>
      match int_of_str word with
      | Some n => Ok n
      | None => Raise ValueError
      end
  | Raise e => Raise e
  end.

(** [str(x)] of a column that may be NULL, as an f-string inserts it. *)
Definition str_of_column (x : option pystr) : pystr :=
  match x with
  | Some s => s
  | None => py "None"
  end.

(** The name and the handle shown by the buttons, from
    [get_user_info(user_id)]. *)
Definition shown_first_name (user_info : option user_row) : pystr :=
  match user_info with
  | Some row => str_of_column (first_name row)
  | None => py "Пользователь"
  end.

Definition shown_username (user_info : option user_row) : pystr :=
  match user_info with
  | Some row =>
      match username row with
      | Some (c :: u) => py "@" ++ (c :: u)
      | _ => []
      end
  | None => []
  end.

Definition button_reason : pystr := py "Забанен через кнопку админом".

Definition _callback_ban_user (call : callback_query) : M unit :=
  try_except
    (if negb (is_admin cfg (u_id (c_from_user call))) then
       Bot.answer_callback_query (c_id call) (Some (py "❌ Нет доступа"))
     else
       user_id <- lift (button_user_id call) ;;
       db_try (fun now => Database.ban_user now user_id button_reason) ;;;
       user_info <- db_read (Database.get_user_info user_id) ;;
       let first_name := shown_first_name user_info in
       let username_str := shown_username user_info in
       Bot.answer_callback_query (c_id call)
         (Some (py "✅ " ++ first_name ++ py " забанен")) ;;;
       m <- the_message call ;;
       Bot.edit_message_text
         (py "✅ Пользователь " ++ first_name ++ py " " ++ username_str
          ++ py " (ID: " ++ str_of_int user_id ++ py ") забанен" ++ nl ++ nl
          ++ py "Используйте /recent для обновления списка")
         (m_chat_id m) (m_message_id m))
    (fun _ => Bot.answer_callback_query (c_id call) (Some (py "❌ Ошибка"))).

Definition _callback_unban_user (call : callback_query) : M unit :=
  try_except
    (if negb (is_admin cfg (u_id (c_from_user call))) then
       Bot.answer_callback_query (c_id call) (Some (py "❌ Нет доступа"))
     else
       user_id <- lift (button_user_id call) ;;
       db_try (fun _ => Database.unban_user user_id) ;;;
       user_info <- db_read (Database.get_user_info user_id) ;;
       let first_name := shown_first_name user_info in
       let username_str := shown_username user_info in
       Bot.answer_callback_query (c_id call)
         (Some (py "✅ " ++ first_name ++ py " разбанен")) ;;;
       m <- the_message call ;;
       Bot.edit_message_text
         (py "✅ Пользователь " ++ first_name ++ py " " ++ username_str
          ++ py " (ID: " ++ str_of_int user_id ++ py ") разбанен" ++ nl ++ nl
          ++ py "Используйте /recent для обновления списка")
         (m_chat_id m) (m_message_id m))
    (fun _ => Bot.answer_callback_query (c_id call) (Some (py "❌ Ошибка"))).

End WithConfig.
End BanManager.

(* ===================================================================== *)
(** ** admin/trains.py *)
(* ===================================================================== *)

Module TrainsManager.
Section WithConfig.
Context (cfg : config).

Definition discard_editing (user_id : Z) : M unit :=
  fun w =>
    (Ok tt,
     {| db := db w; clock := clock w; utc_offset := utc_offset w;
        net := net w; trace := trace w; rate_limiter := rate_limiter w;
        waiting_for_text := waiting_for_text w;
        editing_users := editing_users w ∖ {[user_id]} |}).

(** The parsing loop: stripped lines, without the empty ones and the
    commands. *)
Fixpoint parse_lines (lines : list pystr) : list pystr :=
  match lines with
  | [] => []
  | line :: rest =>
      let line := strip line in
      if negb (bool_decide (line = [])) && negb (startswith (py "/") line)
      then line :: parse_lines rest
      else parse_lines rest
  end.

(** The de-duplication loop with its [seen] set. *)
Fixpoint unique_loop (seen : gset pystr) (trains : list pystr)
  : list pystr :=
  match trains with
  | [] => []
  | train :: rest =>
      if bool_decide (train ∈ seen) then unique_loop seen rest
      else train :: unique_loop ({[train]} ∪ seen) rest
  end.

Definition edit_result_text (trains unique_trains : list pystr) : pystr :=
  py "✅ Список составов обновлен!" ++ nl ++ nl
  ++ py "📊 Добавлено: " ++ str_of_int (Z.of_nat (length unique_trains))
  ++ py " составов" ++ nl
  ++ py "🔁 Удалено дубликатов: "
  ++ str_of_int (Z.of_nat (length trains) - Z.of_nat (length unique_trains))
  ++ nl ++ nl ++ py "Используйте /trains для просмотра.".

Definition _handle_edit (message : message) : M unit :=
  try_except
    (let user_id := u_id (m_from_user message) in
     if negb (is_admin cfg user_id) then pass
     else
       discard_editing user_id ;;;
       let lines := split_on 10 (strip (m_text message)) in
       let trains := parse_lines lines in
       if bool_decide (trains = []) then
         Bot.reply_to (m_chat_id message) (m_message_id message)
           (py "❗️ Список не может быть пустым. Попробуйте /edittrains снова.")
           (Some ReplyKeyboardRemove)
       else
         let unique_trains := unique_loop ∅ trains in
         db_write (fun _ => Database.set_trains unique_trains) ;;;
         Bot.reply_to (m_chat_id message) (m_message_id message)
           (edit_result_text trains unique_trains)
           (Some ReplyKeyboardRemove))
    (fun _ =>
       Bot.reply_to (m_chat_id message) (m_message_id message)
         (py "❌ Ошибка сохранения списка") None).

Definition add_editing (user_id : Z) : M unit :=
  fun w =>
    (Ok tt,
     {| db := db w; clock := clock w; utc_offset := utc_offset w;
        net := net w; trace := trace w; rate_limiter := rate_limiter w;
        waiting_for_text := waiting_for_text w;
        editing_users := {[user_id]} ∪ editing_users w |}).

(** The numbered lines of the list, [enumerate(trains, 1)]. *)
Fixpoint numbered (i : Z) (trains : list pystr) : pystr :=
  match trains with
  | [] => []
  | train :: rest =>
      str_of_int i ++ py ". " ++ train ++ nl ++ numbered (i + 1) rest
  end.

Definition _show_trains (message : message) : M unit :=
  try_except
    (if negb (is_admin cfg (u_id (m_from_user message))) then pass
     else
       trains <- db_read Database.get_trains ;;
       if bool_decide (trains = []) then
         Bot.reply_to (m_chat_id message) (m_message_id message)
           (py "📋 Список составов пуст") None
       else
         Bot.reply_to (m_chat_id message) (m_message_id message)
           (py "📋 Список составов ("
            ++ str_of_int (Z.of_nat (length trains)) ++ py " шт.):"
            ++ nl ++ nl ++ numbered 1 trains)
           None)
    (fun _ =>
       Bot.reply_to (m_chat_id message) (m_message_id message)
         (py "❌ Ошибка получения списка") None).

Definition cancel_button : pystr := py "❌ Отменить".

Definition instructions (current_text : pystr) : pystr :=
  py "✏️ Редактирование списка составов" ++ nl ++ nl
  ++ py "Отправьте новый список (каждый состав с новой строки)." ++ nl
  ++ py "Пустые строки будут удалены." ++ nl ++ nl
  ++ py "📋 Текущий список:" ++ nl
  ++ (if bool_decide (current_text = []) then py "(пусто)"
      else current_text) ++ nl ++ nl
  ++ py "Или нажмите «❌ Отменить» для отмены редактирования.".

Definition _start_edit (message : message) : M unit :=
  try_except
    (if negb (is_admin cfg (u_id (m_from_user message))) then pass
     else
       current_trains <- db_read Database.get_trains ;;
       let current_text :=
         if bool_decide (current_trains = []) then []
         else join nl current_trains in
       add_editing (u_id (m_from_user message)) ;;;
       Bot.reply_to (m_chat_id message) (m_message_id message)
         (instructions current_text)
         (Some (ReplyKeyboardMarkup [[cancel_button]])))
    (fun _ =>
       Bot.reply_to (m_chat_id message) (m_message_id message)
         (py "❌ Ошибка запуска редактирования") None).

Definition _cancel_edit (message : message) : M unit :=
  try_except
    (let user_id := u_id (m_from_user message) in
     if negb (is_admin cfg user_id) then pass
     else
       discard_editing user_id ;;;
       Bot.reply_to (m_chat_id message) (m_message_id message)
         (py "❌ Редактирование отменено") (Some ReplyKeyboardRemove))
    (fun _ => pass).

End WithConfig.
End TrainsManager.

(* ===================================================================== *)
(** ** admin/gong.py *)
(* ===================================================================== *)

Module GongManager.
Import Utils.
Section WithConfig.
Context (cfg : config).

Definition gong_prefix (msg_id : Z) : pystr :=
  py "_gong_text_" ++ str_of_int msg_id ++ py "_".

(** The search for the stored text, [for i in range(1, 20)].  The result
    of one round is the value of [text] after it and whether the loop was
    left by [break]; an assignment made before a raise stays. *)
Definition find_text_round (call : callback_query) (msg_id : Z) (i : Z)
  (text : option pystr) : M (option pystr * bool) :=
  try_except
    (m <- the_message call ;;
     let uid := u_id (c_from_user call) in
     msg <- Bot.forward_message uid uid (m_message_id m - i) ;;
     match r_text msg with
     | Some (c :: t) =>
         if startswith (gong_prefix msg_id) (c :: t) then
           let text' := Some (remove_all (gong_prefix msg_id) O (c :: t)) in
           try_except
             (Bot.delete_message uid (SInt (r_message_id msg)) ;;;
              ret (text', true))
             (fun _ => ret (text', false))
         else ret (text, false)
     | _ => ret (text, false)
     end)
    (fun _ => ret (text, false)).

Fixpoint find_text (call : callback_query) (msg_id : Z) (l : list Z)
  (text : option pystr) : M (option pystr) :=
  match l with
  | [] => ret text
  | i :: rest =>
      r <- find_text_round call msg_id i text ;;
      if snd r then ret (fst r) else find_text call msg_id rest (fst r)
  end.

(** [if not text:] *)
Definition no_text (text : option pystr) : bool :=
  match text with
  | Some (_ :: _) => false
  | _ => true
  end.

(** The fallback: the lines of the confirmation between the first and the
    last two, [lines[1:-2]]. *)
Definition fallback_text (confirmation : pystr) : option pystr :=
  let lines := split_on 10 confirmation in
  if (3 <=? length lines)%nat
  then Some (join nl (take (length lines - 3) (drop 1 lines)))
  else None.

Definition progress_text (i total success_count fail_count : Z) : pystr :=
  py "🔄 Прогресс: " ++ str_of_int i ++ py "/" ++ str_of_int total
  ++ py " (" ++ str_of_int success_count ++ py " успешно, "
  ++ str_of_int fail_count ++ py " ошибок)".

(** One round of [for i, user_id in enumerate(all_users, 1)], on the
    counters [(success_count, fail_count)]. *)
Definition gong_round (m : message) (text : pystr) (total : Z)
  (i user_id : Z) (counts : Z * Z) : M (Z * Z) :=
  let success_count := fst counts in
  let fail_count := snd counts in
  try_except
    (wait_if_needed ;;;
     Bot.send_message user_id text None None ;;;
     let success_count := success_count + 1 in
     (if i mod 50 =? 0 then
        try_except
          (Bot.edit_message_text
             (progress_text i total success_count fail_count)
             (m_chat_id m) (m_message_id m))
          (fun _ => pass)
      else pass) ;;;
     ret (success_count, fail_count))
    (fun _ => ret (success_count, fail_count + 1)).

Fixpoint gong_loop (m : message) (text : pystr) (total : Z)
  (all_users : list Z) (i : Z) (counts : Z * Z) : M (Z * Z) :=
  match all_users with
  | [] => ret counts
  | user_id :: rest =>
      counts' <- gong_round m text total i user_id counts ;;
      gong_loop m text total rest (i + 1) counts'
  end.

Definition result_text (total success_count fail_count : Z) : pystr :=
  py "✅ Рассылка завершена!" ++ nl ++ nl
  ++ py "📊 Статистика:" ++ nl
  ++ py "• Всего пользователей: " ++ str_of_int total ++ nl
  ++ py "• Успешно: " ++ str_of_int success_count ++ nl
  ++ py "• Ошибок: " ++ str_of_int fail_count.

(** The broadcast proper: the rate limiter, the loop over the recipients,
    the final report.  Returns the counters of the report. *)
Definition dispatch (m : message) (text : pystr) (all_users : list Z)
  : M (Z * Z) :=
  let total := Z.of_nat (length all_users) in
  RateLimiter_init (GONG_RATE_LIMIT cfg) (GONG_DELAY cfg) ;;;
  counts <- gong_loop m text total all_users 1 (0, 0) ;;
  Bot.edit_message_text (result_text total (fst counts) (snd counts))
    (m_chat_id m) (m_message_id m) ;;;
  ret counts.

Definition _execute_gong (call : callback_query) : M unit :=
  try_except
    (if negb (is_admin cfg (u_id (c_from_user call))) then
       Bot.answer_callback_query (c_id call) (Some (py "❌ Нет доступа"))
     else
       word <- lift (index (split_on 95 (c_data call)) 2) ;;
       msg_id <- lift (match int_of_str word with
                       | Some n => Ok n
                       | None => Raise ValueError
                       end) ;;
       text <- find_text call msg_id (map (Z.add 1) (range 19)) None ;;
       text <- (if no_text text then
                  m <- the_message call ;;
                  match fallback_text (m_text m) with
                  | Some t => ret (Some t)
                  | None => ret text
                  end
                else ret text) ;;
       match text with
       | Some (c :: t) =>
           all_users <- db_read Database.get_all_user_ids ;;
           Bot.answer_callback_query (c_id call)
             (Some (py "🔄 Рассылка началась...")) ;;;
           m <- the_message call ;;
           Bot.edit_message_text (py "🔄 Рассылка в процессе...")
             (m_chat_id m) (m_message_id m) ;;;
           dispatch m (c :: t) all_users ;;; pass
       | _ =>
           Bot.answer_callback_query (c_id call)
             (Some (py "❌ Текст не найден"))
       end)
    (fun _ =>
       Bot.answer_callback_query (c_id call) (Some (py "❌ Ошибка рассылки"))).

Definition add_waiting (user_id : Z) : M unit :=
  fun w =>
    (Ok tt,
     {| db := db w; clock := clock w; utc_offset := utc_offset w;
        net := net w; trace := trace w; rate_limiter := rate_limiter w;
        waiting_for_text := {[user_id]} ∪ waiting_for_text w;
        editing_users := editing_users w |}).

Definition discard_waiting (user_id : Z) : M unit :=
  fun w =>
    (Ok tt,
     {| db := db w; clock := clock w; utc_offset := utc_offset w;
        net := net w; trace := trace w; rate_limiter := rate_limiter w;
        waiting_for_text := waiting_for_text w ∖ {[user_id]};
        editing_users := editing_users w |}).

Definition _start_gong (message : message) : M unit :=
  try_except
    (if negb (is_admin cfg (u_id (m_from_user message))) then pass
     else
       add_waiting (u_id (m_from_user message)) ;;;
       Bot.reply_to (m_chat_id message) (m_message_id message)
         (py "📢 Отправьте текст для рассылки:") None)
    (fun _ =>
       Bot.reply_to (m_chat_id message) (m_message_id message)
         (py "❌ Ошибка запуска рассылки") None).

Definition confirm_text (recipients : Z) (text : pystr) : pystr :=
  py "📢 Рассылка для " ++ str_of_int recipients ++ py " пользователей:"
  ++ nl ++ nl ++ text ++ nl ++ nl ++ py "❓ Подтвердите рассылку:".

Definition _handle_gong_text (message : message) : M unit :=
  try_except
    (let user_id := u_id (m_from_user message) in
     if negb (is_admin cfg user_id) then pass
     else
       discard_waiting user_id ;;;
       let text := strip (m_text message) in
       match validate_text_length text (MAX_GONG_TEXT_LENGTH cfg)
               (py "Текст рассылки") with
       | (false, error) =>
           Bot.reply_to (m_chat_id message) (m_message_id message)
             (default [] error) None
       | (true, _) =>
           all_users <- db_read Database.get_all_user_ids ;;
           if bool_decide (all_users = []) then
             Bot.reply_to (m_chat_id message) (m_message_id message)
               (py "❗️ Нет пользователей для рассылки") None
           else
             Bot.reply_to (m_chat_id message) (m_message_id message)
               (confirm_text (Z.of_nat (length all_users)) text)
               (Some (InlineKeyboardMarkup 3
                        [[(py "✅ Да",
                           py "gong_confirm_"
                           ++ str_of_int (m_message_id message));
                          (py "❌ Нет", py "gong_cancel")]])) ;;;
             Bot.send_message user_id
               (gong_prefix (m_message_id message) ++ text) None None ;;;
             pass
       end)
    (fun _ =>
       Bot.reply_to (m_chat_id message) (m_message_id message)
         (py "❌ Ошибка обработки текста") None).

Definition _cancel_gong (call : callback_query) : M unit :=
  try_except
    (if negb (is_admin cfg (u_id (c_from_user call))) then
       Bot.answer_callback_query (c_id call) (Some (py "❌ Нет доступа"))
     else
       m <- the_message call ;;
       Bot.edit_message_text (py "❌ Рассылка отменена")
         (m_chat_id m) (m_message_id m) ;;;
       Bot.answer_callback_query (c_id call) (Some (py "Отменено")))
    (fun _ => pass).

End WithConfig.
End GongManager.

(* ===================================================================== *)
(** ** datetime *)
(* ===================================================================== *)

(** A naive [datetime] is its distance from [datetime.min] in milliseconds
    and a [timedelta] a signed number of milliseconds; both types have a
    range, and leaving it is an [OverflowError]. *)
Module Datetime.

Definition ms_per_day : Z := 86400000.
Definition max_days : Z := 3652059.
Definition max_delta_days : Z := 999999999.

(** [datetime.now()]: local wall-clock time *)
Definition now : M Z := fun w => (Ok (clock w + utc_offset w), w).

(** [timedelta(minutes=n)] *)
Definition timedelta_minutes (n : Z) : result Z :=
  let ms := n * 60000 in
  if (- max_delta_days * ms_per_day <=? ms)
     && (ms <? (max_delta_days + 1) * ms_per_day)
  then Ok ms else Raise OverflowError.

(** [d - delta] *)
Definition sub (d delta : Z) : result Z :=
  let r := d - delta in
  if (0 <=? r) && (r <? max_days * ms_per_day) then Ok r
  else Raise OverflowError.

Definition two_digits (n : Z) : pystr :=
  if n <? 10 then py "0" ++ str_of_int n else str_of_int n.

(** [d.strftime("%H:%M")] *)
Definition strftime_HM (d : Z) : pystr :=
  two_digits ((d / 3600000) mod 24) ++ py ":"
  ++ two_digits ((d / 60000) mod 60).

End Datetime.

(* ===================================================================== *)
(** ** bot.py *)
(* ===================================================================== *)

Module ReportBot.
Import Utils.
Section WithConfig.
Context (cfg : config).

Definition St := States cfg.

(** The [state_mgr] methods, on the store of the running handler. *)
Definition get_state (user_id : Z) : M pyval :=
  db_read (StateManager.get_state cfg user_id).
Definition set_state (user_id state : Z) : M unit :=
  db_write (fun now => StateManager.set_state now user_id state).
Definition get_data (user_id : Z) : M pyval :=
  db_read (StateManager.get_data user_id).
Definition set_data (user_id : Z) (key : pystr) (value : scalar) : M unit :=
  db_try (fun now => StateManager.set_data cfg now user_id key value).
Definition clear_state (user_id : Z) : M unit :=
  db_write (fun _ => StateManager.clear_state user_id).

Definition blocked_text : pystr :=
  py "❌ Вы заблокированы и не можете использовать бота.".

Definition report_button : pystr := py "📨 Сообщить о вагоне".

Definition error_text : pystr := py "❗️ Ошибка. Попробуйте /start".

Definition _error_msg (chat_id : Z) : M unit :=
  try_except
    (Bot.send_message chat_id error_text None None ;;; pass)
    (fun _ => pass).

Definition _handle_start (message : message) : M unit :=
  try_except
    (let user := m_from_user message in
     banned <- BanManager.is_banned (u_id user) ;;
     if banned then
       Bot.send_message (m_chat_id message) blocked_text None None ;;; pass
     else
       db_write (fun now =>
                   Database.add_user now (u_id user) (u_username user)
                     (u_first_name user)) ;;;
       Bot.send_message (m_chat_id message)
         (py "👋🏻 Здравствуйте! Здесь вы можете сообщить о необычном вагоне/составе.")
         (Some (ReplyKeyboardMarkup [[report_button]])) None ;;;
       pass)
    (fun _ => pass).

(** The buttons of the line keyboard; [LINE_EMOJI[line_id]] may raise. *)
Fixpoint line_buttons (lines : list (pystr * pystr))
  : result (list (list (pystr * pystr))) :=
  match lines with
  | [] => Ok []
  | (line_id, line_name) :: rest =>
      match LINE_EMOJI cfg !! line_id with
      | None => Raise KeyError
      | Some emoji =>
          match line_buttons rest with
          | Ok rows =>
              Ok ([(emoji ++ py " " ++ line_name ++ py " (" ++ line_id
                    ++ py ") " ++ emoji,
                    py "line_" ++ line_id)] :: rows)
          | Raise e => Raise e
          end
      end
  end.

Definition _start_report (message : message) : M unit :=
  try_except
    (let user_id := u_id (m_from_user message) in
     banned <- BanManager.is_banned user_id ;;
     if banned then
       Bot.send_message (m_chat_id message) blocked_text None None ;;; pass
     else
       clear_state user_id ;;;
       set_state user_id (LINE St) ;;;
       rows <- lift (line_buttons (LINES cfg)) ;;
       msg <- Bot.send_message (m_chat_id message) (py "1️⃣ Выберите линию:")
                (Some (InlineKeyboardMarkup 1 rows)) None ;;
       set_data user_id k_last_msg (SInt msg))
    (fun _ => _error_msg (m_chat_id message)).

Definition _check_state (call : callback_query) (expected : Z) : M bool :=
  match c_message call with
  | None =>
      Bot.answer_callback_query (c_id call) (Some (py "❌ Устарело")) ;;;
      ret false
  | Some _ =>
      st <- get_state (u_id (c_from_user call)) ;;
      if negb (bool_decide (st = VInt expected)) then
        Bot.answer_callback_query (c_id call)
          (Some (py "❌ Начните с /start")) ;;;
        ret false
      else ret true
  end.

Definition _delete_msg (user_id chat_id : Z) : M unit :=
  try_except
    (d <- get_data user_id ;;
     msg_id <- lift (dict_get d k_last_msg) ;;
     match msg_id with
     | Some v =>
         if truthy (of_scalar v) then Bot.delete_message chat_id v else pass
     | None => pass
     end)
    (fun _ => pass).

Definition _ask_route (user_id chat_id : Z) : M unit :=
  try_except
    (msg <- Bot.send_message chat_id
              (py "6️⃣ Маршрут (трёхзначное число) или пропустить:")
              (Some (ReplyKeyboardMarkup
                       [[py "Указать маршрут"; py "Пропустить"]])) None ;;
     set_data user_id k_last_msg (SInt msg))
    (fun _ => _error_msg chat_id).

Definition _select_time (call : callback_query) : M unit :=
  try_except
    (ok <- _check_state call (TIME St) ;;
     if negb ok then pass
     else
       let user_id := u_id (c_from_user call) in
       time_str <- lift (index (split_on_max 95 1 (c_data call)) 1) ;;
       minutes_ago <- lift (parse_time_ago time_str) ;;
       now <- Datetime.now ;;
       delta <- lift (Datetime.timedelta_minutes minutes_ago) ;;
       moment <- lift (Datetime.sub now delta) ;;
       let real_time := Datetime.strftime_HM moment in
       set_data user_id k_time (SStr real_time) ;;;
       set_state user_id (ROUTE_CHOICE St) ;;;
       m <- the_message call ;;
       _delete_msg user_id (m_chat_id m) ;;;
       _ask_route user_id (m_chat_id m) ;;;
       Bot.answer_callback_query (c_id call) None)
    (fun _ => Bot.answer_callback_query (c_id call) (Some (py "❌ Ошибка"))).

Definition _ask_comment (user_id chat_id : Z) : M unit :=
  try_except
    (msg <- Bot.send_message chat_id
              (py "7️⃣ Комментарий или «Без комментария»:")
              (Some (ReplyKeyboardMarkup [[py "Без комментария"]])) None ;;
     set_data user_id k_last_msg (SInt msg))
    (fun _ => _error_msg chat_id).

Definition skip_sentinel : pystr := py "-".

Definition _route_choice (message : message) : M unit :=
  try_except
    (let user_id := u_id (m_from_user message) in
     let choice := strip (m_text message) in
     if bool_decide (choice = py "Пропустить") then
       set_data user_id k_route (SStr skip_sentinel) ;;;
       set_state user_id (COMMENT St) ;;;
       _ask_comment user_id (m_chat_id message)
     else if bool_decide (choice = py "Указать маршрут") then
       set_state user_id (ROUTE_MANUAL St) ;;;
       msg <- Bot.send_message (m_chat_id message)
                (py "✍️ Введите маршрут (трёхзначное число):") None None ;;
       set_data user_id k_last_msg (SInt msg)
     else
       msg <- Bot.send_message (m_chat_id message) (py "❗️ Выберите кнопку")
                None None ;;
       set_data user_id k_last_msg (SInt msg))
    (fun _ => _error_msg (m_chat_id message)).

Definition _manual_route (message : message) : M unit :=
  try_except
    (let user_id := u_id (m_from_user message) in
     let route := strip (m_text message) in
     match validate_route_number route with
     | (false, error) =>
         msg <- Bot.send_message (m_chat_id message) (default [] error)
                  None None ;;
         set_data user_id k_last_msg (SInt msg)
     | (true, _) =>
         set_data user_id k_route (SStr route) ;;;
         set_state user_id (COMMENT St) ;;;
         _ask_comment user_id (m_chat_id message)
     end)
    (fun _ => _error_msg (m_chat_id message)).

(** [LINE_EMOJI.get(data['line'], "")] *)
Definition line_emoji (line : scalar) : pystr :=
  match line with
  | SStr s => default [] (LINE_EMOJI cfg !! s)
  | SInt _ => []
  end.

Definition report_text (user : tg_user) (d : pyval) : result pystr :=
  let user_link :=
    format_user_link (u_id user) (u_username user) (u_first_name user) in
  match subscript d k_line, subscript d k_train, subscript d k_station,
        subscript d k_direction, subscript d k_time, subscript d k_comment,
        subscript d k_route with
  | Ok line, Ok train, Ok station, Ok direction, Ok time, Ok comment,
    Ok route =>
      let emoji := line_emoji line in
      Ok (py "🚇 Линия: " ++ emoji ++ py " " ++ str_of_scalar line ++ py " "
          ++ emoji ++ nl
          ++ py "🚆 Состав: " ++ safe_html train ++ nl
          ++ py "📍 Станция: " ++ safe_html station ++ nl
          ++ py "⬆️ Направление: " ++ safe_html direction ++ nl
          ++ py "🕐 Время: " ++ str_of_scalar time ++ nl
          ++ py "💬 Комментарий: " ++ safe_html comment ++ nl
          ++ py "🔁 Маршрут: " ++ str_of_scalar route ++ nl
          ++ py "📫 Прислал: " ++ user_link ++ nl
          ++ nl ++ py "Предложка: @vagon_pred_bot")
  | Raise e, _, _, _, _, _, _ => Raise e
  | _, Raise e, _, _, _, _, _ => Raise e
  | _, _, Raise e, _, _, _, _ => Raise e
  | _, _, _, Raise e, _, _, _ => Raise e
  | _, _, _, _, Raise e, _, _ => Raise e
  | _, _, _, _, _, Raise e, _ => Raise e
  | _, _, _, _, _, _, Raise e => Raise e
  end.

(** The body of [_publish], before the decorator is applied. *)
Definition _publish_body (user_id chat_id : Z) (user : tg_user) : M bool :=
  try_except
    (d <- get_data user_id ;;
     text <- lift (report_text user d) ;;
     Bot.send_message (CHANNEL_ID cfg) text None (Some (py "HTML")) ;;;
     ret true)
    (fun _ => ret false).

(** [@retry_on_error(max_retries=3, delay=1.0)] *)
Definition _publish (user_id chat_id : Z) (user : tg_user) : M bool :=
  retry_on_error 3 1000 (_publish_body user_id chat_id user).

Definition published_text : pystr := py "✅ Опубликовано!".
Definition publish_failed_text : pystr := py "❌ Ошибка публикации".

Definition _confirm_action (call : callback_query) : M unit :=
  try_except
    (ok <- _check_state call (CONFIRM St) ;;
     if negb ok then pass
     else
       let user_id := u_id (c_from_user call) in
       m <- the_message call ;;
       (if bool_decide (c_data call = py "confirm_publish") then
          success <- _publish user_id (m_chat_id m) (c_from_user call) ;;
          if success then
            Bot.send_message (m_chat_id m) published_text
              (Some (ReplyKeyboardMarkup [[report_button]])) None ;;; pass
          else
            Bot.send_message (m_chat_id m) publish_failed_text None None
            ;;; pass
        else
          Bot.send_message (m_chat_id m)
            (py "❌ Отменено. Используйте /start для новой попытки.")
            None None ;;; pass) ;;;
       try_except
         (Bot.delete_message (m_chat_id m) (SInt (m_message_id m)))
         (fun _ => pass) ;;;
       clear_state user_id ;;;
       Bot.answer_callback_query (c_id call) None)
    (fun _ => Bot.answer_callback_query (c_id call) (Some (py "❌ Ошибка"))).

Definition update_data (user_id : Z) (updates : gmap pystr scalar)
  : M unit :=
  db_try (fun now => StateManager.update_data cfg now user_id updates).

(** [STATIONS[line_id]] behind the guard
    [if not line_id or line_id not in STATIONS]: [None] when the guard
    fires.  The keys of [STATIONS] are strings, so no integer is among
    them. *)
Definition stations_of (line_id : option scalar) : option (list pystr) :=
  match line_id with
  | Some (SStr s) =>
      if negb (truthy (VStr s)) then None else STATIONS cfg !! s
  | Some (SInt _) => None
  | None => None
  end.

(** One button per [markup.add]. *)
Definition button_rows (prefix : pystr) (labels : list pystr)
  : list (list (pystr * pystr)) :=
  map (fun label => [(label, prefix ++ label)]) labels.

Definition _ask_station (user_id chat_id : Z) : M unit :=
  try_except
    (d <- get_data user_id ;;
     line_id <- lift (dict_get d k_line) ;;
     match stations_of line_id with
     | None => _error_msg chat_id
     | Some stations =>
         msg <- Bot.send_message chat_id (py "3️⃣ Станция обнаружения:")
                  (Some (InlineKeyboardMarkup 2
                           (button_rows (py "station_") stations))) None ;;
         set_data user_id k_last_msg (SInt msg)
     end)
    (fun _ => _error_msg chat_id).

Definition _ask_direction (user_id chat_id : Z) : M unit :=
  try_except
    (d <- get_data user_id ;;
     line_id <- lift (dict_get d k_line) ;;
     match stations_of line_id with
     | None => _error_msg chat_id
     | Some stations =>
         msg <- Bot.send_message chat_id (py "4️⃣ Направление/конечная:")
                  (Some (InlineKeyboardMarkup 2
                           (button_rows (py "direction_") stations))) None ;;
         set_data user_id k_last_msg (SInt msg)
     end)
    (fun _ => _error_msg chat_id).

Definition _ask_time (user_id chat_id : Z) : M unit :=
  try_except
    (msg <- Bot.send_message chat_id (py "5️⃣ Время обнаружения:")
              (Some (InlineKeyboardMarkup 3
                       (button_rows (py "time_") (TIMES cfg)))) None ;;
     set_data user_id k_last_msg (SInt msg))
    (fun _ => _error_msg chat_id).

(** The list offered when the table of trains is empty. *)
Definition default_trains : list pystr :=
  [ py "9050-9051 (Голубая смерть)"; py "10222-10221 (Боинг)";
    py "🟣 Балтиец 🟣"; py "🔴 Балтиец 🔴"; py "🔵 Балтиец 🔵";
    py "🟤 Балтиец 🟤"; py "Темат 320 лет"; py "Темат 70 лет";
    py "Темат 25 состав"; py "НВЛ (мойка)"; py "7128-6973";
    py "7144-6977"; py "Ретросостав"; py "Перегонка"; py "Обкатка";
    py "ЭКА"; py "Лаборатория"; py "Неизвестен" ].

Definition _select_line (call : callback_query) : M unit :=
  try_except
    (ok <- _check_state call (LINE St) ;;
     if negb ok then pass
     else
       let user_id := u_id (c_from_user call) in
       line_id <- lift (index (split_on 95 (c_data call)) 1) ;;
       if negb (bool_decide (line_id ∈ map fst (LINES cfg))) then
         Bot.answer_callback_query (c_id call) (Some (py "❌ Неверная линия"))
       else
         update_data user_id {[ k_line := SStr line_id ]} ;;;
         set_state user_id (TRAIN St) ;;;
         m <- the_message call ;;
         _delete_msg user_id (m_chat_id m) ;;;
         trains <- db_read Database.get_trains ;;
         let trains :=
           if bool_decide (trains = []) then default_trains else trains in
         msg <- Bot.send_message (m_chat_id m) (py "2️⃣ Выберите состав:")
                  (Some (InlineKeyboardMarkup 2
                           (button_rows (py "train_") trains
                            ++ [[(py "✍️ Ввести вручную",
                                  py "train_manual")]]))) None ;;
         set_data user_id k_last_msg (SInt msg) ;;;
         Bot.answer_callback_query (c_id call) None)
    (fun _ => Bot.answer_callback_query (c_id call) (Some (py "❌ Ошибка"))).

Definition _select_train (call : callback_query) : M unit :=
  try_except
    (ok <- _check_state call (TRAIN St) ;;
     if negb ok then pass
     else
       let user_id := u_id (c_from_user call) in
       data <- lift (index (split_on_max 95 1 (c_data call)) 1) ;;
       (if bool_decide (data = py "manual") then
          set_state user_id (TRAIN_MANUAL St) ;;;
          m <- the_message call ;;
          _delete_msg user_id (m_chat_id m) ;;;
          msg <- Bot.send_message (m_chat_id m)
                   (py "✍️ Введите название состава:") None None ;;
          set_data user_id k_last_msg (SInt msg)
        else
          set_data user_id k_train (SStr data) ;;;
          set_state user_id (STATION St) ;;;
          m <- the_message call ;;
          _delete_msg user_id (m_chat_id m) ;;;
          _ask_station user_id (m_chat_id m)) ;;;
       Bot.answer_callback_query (c_id call) None)
    (fun _ => Bot.answer_callback_query (c_id call) (Some (py "❌ Ошибка"))).

Definition _manual_train (message : message) : M unit :=
  try_except
    (let user_id := u_id (m_from_user message) in
     let train := strip (m_text message) in
     match validate_text_length train (MAX_TRAIN_NAME_LENGTH cfg)
             (py "Название") with
     | (false, error) =>
         _delete_msg user_id (m_chat_id message) ;;;
         msg <- Bot.send_message (m_chat_id message) (default [] error)
                  None None ;;
         set_data user_id k_last_msg (SInt msg)
     | (true, _) =>
         set_data user_id k_train (SStr train) ;;;
         set_state user_id (STATION St) ;;;
         _delete_msg user_id (m_chat_id message) ;;;
         _ask_station user_id (m_chat_id message)
     end)
    (fun _ => _error_msg (m_chat_id message)).

Definition _select_station (call : callback_query) : M unit :=
  try_except
    (ok <- _check_state call (STATION St) ;;
     if negb ok then pass
     else
       let user_id := u_id (c_from_user call) in
       station <- lift (index (split_on_max 95 1 (c_data call)) 1) ;;
       set_data user_id k_station (SStr station) ;;;
       set_state user_id (DIRECTION St) ;;;
       m <- the_message call ;;
       _delete_msg user_id (m_chat_id m) ;;;
       _ask_direction user_id (m_chat_id m) ;;;
       Bot.answer_callback_query (c_id call) None)
    (fun _ => Bot.answer_callback_query (c_id call) (Some (py "❌ Ошибка"))).

Definition _select_direction (call : callback_query) : M unit :=
  try_except
    (ok <- _check_state call (DIRECTION St) ;;
     if negb ok then pass
     else
       let user_id := u_id (c_from_user call) in
       direction <- lift (index (split_on_max 95 1 (c_data call)) 1) ;;
       set_data user_id k_direction (SStr direction) ;;;
       set_state user_id (TIME St) ;;;
       m <- the_message call ;;
       _delete_msg user_id (m_chat_id m) ;;;
       _ask_time user_id (m_chat_id m) ;;;
       Bot.answer_callback_query (c_id call) None)
    (fun _ => Bot.answer_callback_query (c_id call) (Some (py "❌ Ошибка"))).

(** [k in data]: a key of a dictionary, a substring of a string; an
    integer is not a container. *)
Fixpoint infix_of (k s : pystr) : bool :=
  startswith k s
  || match s with
     | [] => false
     | _ :: t => infix_of k t
     end.

Definition contains (d : pyval) (k : pystr) : result bool :=
  match d with
  | VDict dict => Ok (bool_decide (is_Some (dict !! k)))
  | VStr s => Ok (infix_of k s)
  | VInt _ => Raise TypeError
  end.

(** [all(k in data for k in required)] stops at the first miss. *)
Fixpoint all_in (d : pyval) (required : list pystr) : result bool :=
  match required with
  | [] => Ok true
  | k :: rest =>
      match contains d k with
      | Ok true => all_in d rest
      | Ok false => Ok false
      | Raise e => Raise e
      end
  end.

Definition required : list pystr :=
  [k_line; k_train; k_station; k_direction; k_time; k_route; k_comment].

Definition _show_confirm (user_id chat_id : Z) (user : tg_user) : M unit :=
  try_except
    (d <- get_data user_id ;;
     complete <- lift (all_in d required) ;;
     if negb complete then
       _error_msg chat_id ;;;
       clear_state user_id
     else
       body <- lift (report_text user d) ;;
       let text := py "8️⃣ Проверьте перед публикацией:" ++ nl ++ nl ++ body in
       msg <- Bot.send_message chat_id text
                (Some (InlineKeyboardMarkup 2
                         [[(py "✅ Опубликовать", py "confirm_publish");
                           (py "❌ Отменить", py "confirm_cancel")]]))
                (Some (py "HTML")) ;;
       set_data user_id k_last_msg (SInt msg))
    (fun _ => _error_msg chat_id).

End WithConfig.
End ReportBot.

(** [MetroBot._cleanup_task] / [_keepalive_task]: one run of the sweep. *)
Definition sweep (cfg : config) : M unit :=
  db_write (fun now => Database.cleanup_old_states now (STATE_TIMEOUT cfg)).

(** [MetroBot.run]: the loop around [infinity_polling]. *)
Module MetroBot.

(** One call of [infinity_polling]: it comes back, or it raises. *)
Inductive polling := Returned | Failed.

#[global] Instance polling_eq_dec : EqDecision polling.
Proof. solve_decision. Defined.

Definition max_retries : Z := 10.

(** [min(5 * (2 ** (retry_count - 1)), 60)], in seconds *)
Definition wait_time (retry_count : Z) : Z :=
  Z.min (5 * 2 ^ (retry_count - 1)) 60.

(** [while self.running and retry_count < max_retries], over the outcomes
    of the calls of [infinity_polling] still to come; the result is the
    final [retry_count] and the outcomes that were not asked for.
    [self.running] stays set while the loop runs: the signal handler that
    clears it ends the process.  When the outcomes are used up the last
    call is still polling. *)
Fixpoint run_loop (outcomes : list polling) (retry_count : Z)
  : M (Z * list polling) :=
  match outcomes with
  | [] => ret (retry_count, [])
  | outcome :: rest =>
      if negb (retry_count <? max_retries) then ret (retry_count, outcomes)
      else
        match outcome with
        | Returned => run_loop rest retry_count
        | Failed =>
            let retry_count := retry_count + 1 in
            let wait_time := wait_time retry_count in
            if retry_count <? max_retries then
              time_sleep (wait_time * 1000) ;;;
              run_loop rest retry_count
            else ret (retry_count, rest)
        end
  end.

End MetroBot.

(* ===================================================================== *)
(** * Vocabulary of the properties *)
(* ===================================================================== *)

(** The specification's words: every entry once, at the place of its
    first occurrence. *)
Fixpoint first_occurrences (l : list pystr) : list pystr :=
  match l with
  | [] => []
  | x :: t => x :: filter (fun y => y ≠ x) (first_occurrences t)
  end.

(** The invariant of the data model: a ban record refers to a user. *)
Definition ban_implies_user (d : database) : Prop :=
  ∀ u, is_Some (banned_users d !! u) → is_Some (users d !! u).

(** The record [set_data] and [update_data] work on. *)
Definition working_record (cfg : config) (user_id : Z) (d : database)
  : gmap pystr pyval :=
  StateManager.ensure_data
    (or_dict (Database.get_user_state user_id d)
       (StateManager.fresh_record cfg)).

(** What the wizard has recorded for a user under [key]. *)
Definition answer (user_id : Z) (key : pystr) (d : database)
  : option scalar :=
  match StateManager.get_data user_id d with
  | VDict dict => dict !! key
  | _ => None
  end.

(** An answer and the step of a user, as the handlers leave them. *)
Definition kept (cfg : config) (user_id : Z) (key : pystr)
  (a : option scalar) (s : pyval) (d : database) : Prop :=
  answer user_id key d = a ∧ StateManager.get_state cfg user_id d = s.

(** [db_inv P m]: running [m] keeps the property [P] of the store,
    whether [m] returns or raises. *)
Definition db_inv {A} (P : database → Prop) (m : M A) : Prop :=
  ∀ w, P (db w) → P (db (snd (m w))).

(** [grows m]: [m] only appends to the history. *)
Definition grows {A} (m : M A) : Prop :=
  ∀ w, ∃ evs, trace (snd (m w)) = trace w ++ evs.

(** What the retry wrapper leaves in the history around a call that fails
    by raising: the outcomes of up to three attempts, with the waits
    between them. *)
Definition retry_history (c : api_call) (ok1 ok2 ok3 : bool) : list event :=
  if ok1 then [Call c true]
  else Call c false :: Sleep 1000
       :: (if ok2 then [Call c true]
           else Call c false :: Sleep 2000 :: [Call c ok3]).

Definition next_ok (w : world) : bool := r_ok (hd default_reply (net w)).

(** The send attempts of a history, with their outcome. *)
Definition send_of (ev : event) : option (Z * bool) :=
  match ev with
  | Call (SendMessage chat _ _ _) ok => Some (chat, ok)
  | _ => None
  end.

Definition sends (evs : list event) : list (Z * bool) := omap send_of evs.

Definition count_ok (b : bool) (l : list (Z * bool)) : Z :=
  Z.of_nat (length (filter (fun x => snd x = b) l)).

Definition is_sleep (ev : event) : bool :=
  match ev with
  | Sleep _ => true
  | _ => false
  end.

(** A record is well formed when what it keeps under ['data'] is a
    dictionary; a store is, when all its records are. *)
Definition wf_record (sd : gmap pystr pyval) : Prop :=
  ∀ v, sd !! k_data = Some v → ∃ dict, v = VDict dict.

Definition wf_db (d : database) : Prop :=
  ∀ u sd, Database.get_user_state u d = Some sd → wf_record sd.

(** The operations on the state table: the methods of [StateManager] and
    the sweep; a history of them, each at its time. *)
Inductive engine_op :=
| OpSetState (user_id state : Z)
| OpSetData (user_id : Z) (key : pystr) (value : scalar)
| OpUpdateData (user_id : Z) (updates : gmap pystr scalar)
| OpClearState (user_id : Z)
| OpResetState (user_id : Z)
| OpSweep (minutes : Z).

Definition run_op (cfg : config) (now : Z) (op : engine_op) (d : database)
  : result database :=
  match op with
  | OpSetState u s => Ok (StateManager.set_state now u s d)
  | OpSetData u k v => StateManager.set_data cfg now u k v d
  | OpUpdateData u m => StateManager.update_data cfg now u m d
  | OpClearState u => Ok (StateManager.clear_state u d)
  | OpResetState u => Ok (StateManager.reset_state cfg now u d)
  | OpSweep minutes => Ok (Database.cleanup_old_states now minutes d)
  end.

Fixpoint run_ops (cfg : config) (ops : list (Z * engine_op)) (d : database)
  : result database :=
  match ops with
  | [] => Ok d
  | (now, op) :: rest =>
      match run_op cfg now op d with
      | Ok d' => run_ops cfg rest d'
      | Raise e => Raise e
      end
  end.

(** What one failed attempt under [retry_on_error] leaves in the history:
    the call, and the wait that follows it unless it was the last. *)
Definition attempt_events (c : api_call) (max_retries delay : Z)
  (attempt : Z) : list event :=
  Call c false
  :: (if attempt <? max_retries - 1 then [Sleep (delay * 2 ^ attempt)]
      else []).

Definition backoff_history (c : api_call) (max_retries delay : Z)
  : list event :=
  flat_map (attempt_events c max_retries delay) (range max_retries).

(** The time slept in a history. *)
Fixpoint slept (evs : list event) : Z :=
  match evs with
  | [] => 0
  | Sleep ms :: rest => ms + slept rest
  | _ :: rest => slept rest
  end.

(** A run of a thread that owns a rate limiter: [limited_run n w w'] when
    [w'] is reached from [w] by [n] calls of [wait_if_needed] and, between
    them, by anything that leaves the limiter alone and does not set the
    clock back. *)
Inductive limited_run : nat → world → world → Prop :=
| limited_start w : limited_run 0 w w
| limited_wait n w w1 w2 :
    limited_run n w w1 → Utils.wait_if_needed w1 = (Ok tt, w2) →
    limited_run (S n) w w2
| limited_other n w w1 w2 :
    limited_run n w w1 → rate_limiter w2 = rate_limiter w1 →
    clock w1 ≤ clock w2 → limited_run n w w2.

(** The characters that open or close markup: [<], [>] and the quotes. *)
Definition markup_char (c : Z) : Prop := c = 60 ∨ c = 62 ∨ c = 34 ∨ c = 39.

(** Answers to a pressed button, in a history. *)
Definition is_answer (ev : event) : bool :=
  match ev with
  | Call (AnswerCallbackQuery _ _) _ => true
  | _ => false
  end.

(** A pressed button is refused with [reason]: the outcome [out] of the
    handler, run in [w], shows an answer with that text and otherwise only
    further answers (none when the first is delivered); the store and the
    modes of the administrators are as before. *)
Definition refused (call : callback_query) (reason : pystr) (w : world)
  (out : result unit * world) : Prop :=
  db (snd out) = db w
  ∧ waiting_for_text (snd out) = waiting_for_text w
  ∧ editing_users (snd out) = editing_users w
  ∧ ∃ evs,
      trace (snd out)
      = trace w
        ++ Call (AnswerCallbackQuery (c_id call) (Some reason)) (next_ok w)
           :: evs
      ∧ forallb is_answer evs = true
      ∧ (next_ok w = true → fst out = Ok tt ∧ evs = []).

(** The handlers behind the administrators' commands and buttons, and the
    buttons of the report conversation with the step each belongs to. *)
Definition admin_commands (cfg : config) : list (message → M unit) :=
  [ BanManager._handle_ban cfg; BanManager._handle_unban cfg;
    TrainsManager._show_trains cfg; TrainsManager._start_edit cfg;
    TrainsManager._cancel_edit cfg; TrainsManager._handle_edit cfg;
    GongManager._start_gong cfg; GongManager._handle_gong_text cfg ].

Definition admin_buttons (cfg : config) : list (callback_query → M unit) :=
  [ BanManager._callback_ban_user cfg; BanManager._callback_unban_user cfg;
    GongManager._execute_gong cfg; GongManager._cancel_gong cfg ].

Definition wizard_buttons (cfg : config)
  : list (Z * (callback_query → M unit)) :=
  let St := States cfg in
  [ (LINE St, ReportBot._select_line cfg);
    (TRAIN St, ReportBot._select_train cfg);
    (STATION St, ReportBot._select_station cfg);
    (DIRECTION St, ReportBot._select_direction cfg);
    (TIME St, ReportBot._select_time cfg);
    (CONFIRM St, ReportBot._confirm_action cfg) ].

(** The characters of a printed integer. *)
Definition digit_or_minus (c : Z) : Prop := 48 ≤ c ≤ 57 ∨ c = 45.

(** [w_inv Q m]: running [m] keeps the property [Q] of the whole state,
    whether [m] returns or raises. *)
Definition w_inv {A} (Q : world → Prop) (m : M A) : Prop :=
  ∀ w, Q w → Q (snd (m w)).

(** The recipients of the messages of a history are all [user_id]. *)
Definition only_to (user_id : Z) (evs : list event) : Prop :=
  Forall (fun s => fst s = user_id) (sends evs).

(** What a mode handler may touch besides the mode of its user: nothing
    of the store, nobody else's mode, and no chat but the sender's. *)
Definition aside (user_id : Z) (w w' : world) : Prop :=
  db w' = db w
  ∧ (∀ other, other ≠ user_id →
       (other ∈ editing_users w' ↔ other ∈ editing_users w)
       ∧ (other ∈ waiting_for_text w' ↔ other ∈ waiting_for_text w))
  ∧ ∃ evs, trace w' = trace w ++ evs ∧ only_to user_id evs.

Definition to_sender (user_id : Z) (c : api_call) : Prop :=
  match c with
  | SendMessage chat _ _ _ => chat = user_id
  | _ => True
  end.

(** The failures among the outcomes of polling, and the waits after the
    failures [from + 1 .. from + n]. *)
Definition failures (outcomes : list MetroBot.polling) : Z :=
  Z.of_nat (length (filter (fun o => o = MetroBot.Failed) outcomes)).

Definition restart_waits (from : Z) (n : nat) : list event :=
  map (fun i => Sleep (MetroBot.wait_time (from + 1 + Z.of_nat i) * 1000))
    (seq 0 n).

(** A name that the parsing of [_handle_edit] leaves as it is: not empty,
    no white space at either end, no line break inside, and not a
    command. *)
Definition clean_name (x : pystr) : Prop :=
  (∃ c, head x = Some c ∧ isspace_char c = false ∧ c ≠ 47)
  ∧ (∃ c, last x = Some c ∧ isspace_char c = false)
  ∧ 10 ∉ x.

(** The moment [n] minutes before [now] can be computed: the interval
    fits a [timedelta] and the result is a date of the years 1 to 9999. *)
Definition in_datetime_range (now n : Z) : Prop :=
  (- Datetime.max_delta_days * Datetime.ms_per_day ≤ n * 60000
   ∧ n * 60000 < (Datetime.max_delta_days + 1) * Datetime.ms_per_day)
  ∧ (0 ≤ now - n * 60000
     ∧ now - n * 60000 < Datetime.max_days * Datetime.ms_per_day).

(* --------------------------------------------------------------------- *)
(** ** Concrete stores, transports and updates *)
(* --------------------------------------------------------------------- *)

(** Modelled from the spec: [config.py] is missing; a small configuration
    with the defaults the specification mentions (30 minutes of
    staleness) to run the handlers on concrete inputs. *)
Definition sample_states : states :=
  {| IDLE := 0; LINE := 1; TRAIN := 2; TRAIN_MANUAL := 3; STATION := 4;
     DIRECTION := 5; TIME := 6; ROUTE_CHOICE := 7; ROUTE_MANUAL := 8;
     COMMENT := 9; CONFIRM := 10 |}.

Definition sample_config : config :=
  {| ADMINS := [1];
     LINES := [(py "1", py "Кировско-Выборгская")];
     LINE_EMOJI := {[ py "1" := py "🔴" ]};
     STATIONS := {[ py "1" := [py "Автово"; py "Девяткино"] ]};
     TIMES := [py "Сейчас"; py "5 минут назад"];
     MAX_COMMENT_LENGTH := 500;
     MAX_TRAIN_NAME_LENGTH := 100;
     MAX_GONG_TEXT_LENGTH := 4000;
     CHANNEL_ID := -1001;
     GONG_RATE_LIMIT := 2;
     GONG_DELAY := 1000;
     STATE_TIMEOUT := 30;
     States := sample_states |}.

Definition empty_db : database :=
  {| users := ∅; banned_users := ∅; user_states := ∅; trains := [];
     trains_seq := 0 |}.

Definition idle_limiter : RateLimiter :=
  {| messages_per_period := 0; period_seconds := 0; message_count := 0;
     period_start := 0 |}.

(** A world at 12:00 UTC of 2024-01-01, local time 15:00, over a given
    store and transport. *)
Definition world_of (d : database) (replies : list reply) : world :=
  {| db := d; clock := 63839707200000; utc_offset := 10800000;
     net := replies; trace := []; rate_limiter := idle_limiter;
     waiting_for_text := ∅; editing_users := ∅ |}.

Definition delivered (ms : Z) : reply :=
  {| r_ok := true; r_took := ms; r_message_id := 100; r_text := None |}.

Definition failed (ms : Z) : reply :=
  {| r_ok := false; r_took := ms; r_message_id := 0; r_text := None |}.

(** Two records, one touched 31 minutes and one 30 minutes before the
    sweep. *)
Definition sweep_db : database :=
  Database.set_user_state 1860 2 {[ k_state := VInt 6 ]}
    (Database.set_user_state 1800 1 {[ k_state := VInt 6 ]} empty_db).

Definition edit_ABA : message :=
  {| m_from_user := {| u_id := 1; u_username := None; u_first_name := None |};
     m_chat_id := 1; m_message_id := 50;
     m_text := py "A" ++ nl ++ py "B" ++ nl ++ py "A" |}.

Definition edit_BAB : message :=
  {| m_from_user := {| u_id := 1; u_username := None; u_first_name := None |};
     m_chat_id := 1; m_message_id := 51;
     m_text := py "B" ++ nl ++ py "A" ++ nl ++ py "B" |}.

Definition ban_unseen : message :=
  {| m_from_user := {| u_id := 1; u_username := None; u_first_name := None |};
     m_chat_id := 1; m_message_id := 60;
     m_text := py "/ban 12345 spam" |}.

Definition from_7 (t : pystr) : message :=
  {| m_from_user :=
       {| u_id := 7; u_username := Some (py "rider");
          u_first_name := Some (py "Иван") |};
     m_chat_id := 7; m_message_id := 70; m_text := t |}.

Definition press_7 (payload : pystr) : callback_query :=
  {| c_id := py "cb1";
     c_from_user :=
       {| u_id := 7; u_username := Some (py "rider");
          u_first_name := Some (py "Иван") |};
     c_data := payload;
     c_message := Some (from_7 (py "5️⃣ Время обнаружения:")) |}.

Definition banned_db : database :=
  match Database.ban_user 50 7 (py "spam")
          (Database.add_user 10 7 (Some (py "rider")) (Some (py "Иван"))
             empty_db)
  with
  | Ok d => d
  | Raise _ => empty_db
  end.

(** User 7 at the confirmation step with all seven answers. *)
Definition confirm_db : database :=
  Database.set_user_state 0 7
    {[ k_state := VInt 10;
       k_data :=
         VDict {[ k_line := SStr (py "1"); k_train := SStr (py "Ретросостав");
                  k_station := SStr (py "Автово");
                  k_direction := SStr (py "Девяткино");
                  k_time := SStr (py "14:55"); k_route := SStr (py "-");
                  k_comment := SStr (py "-"); k_last_msg := SInt 70 ]} ]}
    empty_db.

Definition confirm_7 : callback_query := press_7 (py "confirm_publish").

Definition gong_prompt : message :=
  {| m_from_user := {| u_id := 1; u_username := None; u_first_name := None |};
     m_chat_id := 1; m_message_id := 80;
     m_text := py "📢 Рассылка" |}.

(** User 7 at the station step, the line and the train chosen. *)
Definition station_db : database :=
  Database.set_user_state 0 7
    {[ k_state := VInt 4;
       k_data :=
         VDict {[ k_line := SStr (py "1");
                  k_train := SStr (py "Ретросостав");
                  k_last_msg := SInt 70 ]} ]}
    empty_db.

(** User 7 at the time step. *)
Definition time_db : database :=
  Database.set_user_state 0 7
    {[ k_state := VInt 6;
       k_data := VDict {[ k_line := SStr (py "1"); k_last_msg := SInt 70 ]} ]}
    empty_db.

(** A button pressed by the administrator. *)
Definition press_1 (payload : pystr) : callback_query :=
  {| c_id := py "cb2";
     c_from_user := {| u_id := 1; u_username := None; u_first_name := None |};
     c_data := payload;
     c_message := Some gong_prompt |}.

Definition from_1 (t : pystr) : message :=
  {| m_from_user := {| u_id := 1; u_username := None; u_first_name := None |};
     m_chat_id := 1; m_message_id := 90; m_text := t |}.

(** User 7 entering the name of a train by hand. *)
Definition manual_db : database :=
  Database.set_user_state 0 7
    {[ k_state := VInt 3;
       k_data := VDict {[ k_line := SStr (py "1"); k_last_msg := SInt 70 ]} ]}
    empty_db.

(** User 7 at the line step. *)
Definition line_db : database :=
  Database.set_user_state 0 7
    {[ k_state := VInt 1; k_data := VDict {[ k_last_msg := SInt 70 ]} ]}
    empty_db.

(** The table after the administrator sent the names B and A. *)
Definition trains_db : database :=
  Database.set_trains [py "B 1"; py "A"] empty_db.

(* ===================================================================== *)
(** * Properties *)
(* ===================================================================== *)

(* --------------------------------------------------------------------- *)
(** ** The string primitives on the inputs of the handlers *)
(* --------------------------------------------------------------------- *)

Example py_now : py "Сейчас" = [1057; 1077; 1081; 1095; 1072; 1089].
Proof. reflexivity. Qed.

Example split_ban : split_max 2 (py "  /ban  42  spam  bot  ")
                    = [py "/ban"; py "42"; py "spam  bot  "].
Proof. reflexivity. Qed.

Example split_cb : split_on_max 95 1 (py "time_5_min") = [py "time"; py "5_min"].
Proof. reflexivity. Qed.

Example int_examples :
  map int_of_str [py "+5"; py "-5"; py "1_0"; py "_1"; py "1__0"; py "1_";
                  [1635]; [178]; py "0x10"; py "0012"; py "+ 5"; py "";
                  py "-0"; py " 7 "]
  = [Some 5; Some (-5); Some 10; None; None; None; Some 3; None; None;
     Some 12; None; None; Some 0; Some 7].
Proof. reflexivity. Qed.

(** What [int] takes for white space, and the limit on the digits. *)
Example int_white_space :
  map int_of_str [[9] ++ py "5" ++ [10]; [160] ++ py "5"; [8195] ++ py "5";
                  [28] ++ py "5"; py "5" ++ [31]]
  = [Some 5; Some 5; Some 5; None; None]
  ∧ map split [py "5" ++ [28] ++ py "6"] = [[py "5"; py "6"]].
Proof. split; reflexivity. Qed.

Example int_digit_limit :
  int_of_str (replicate 4300 49) ≠ None
  ∧ int_of_str (replicate 4301 49) = None
  ∧ int_of_str (replicate 4301 48) = None.
Proof. split_and!; by vm_compute. Qed.

(* --------------------------------------------------------------------- *)
(** ** The state engine (C3, C10) *)
(* --------------------------------------------------------------------- *)

Section StateEngine.
Import Database StateManager.
Context (cfg : config).

Lemma key_state_ne_data : k_state ≠ k_data.
Proof. discriminate. Qed.

Lemma nonempty_false {V} (d : gmap pystr V) : nonempty d = false → d = ∅.
Proof.
  unfold nonempty. intros H. apply negb_false_iff, bool_decide_eq_true in H.
  by apply dom_empty_inv_L.
Qed.

Lemma nonempty_insert {V} (k : pystr) (v : V) (d : gmap pystr V) :
  nonempty (<[k := v]> d) = true.
Proof.
  unfold nonempty. apply negb_true_iff, bool_decide_eq_false.
  rewrite dom_insert_L. set_solver.
Qed.

Lemma or_dict_empty o : or_dict o ∅ = default ∅ o.
Proof.
  destruct o as [d|]; simpl; [|done].
  destruct (nonempty d) eqn:E; [done|]. by rewrite (nonempty_false _ E).
Qed.

Lemma get_user_state_set now user_id sd db :
  get_user_state user_id (set_user_state now user_id sd db) = Some sd.
Proof. unfold get_user_state, set_user_state. simpl. by rewrite lookup_insert_eq. Qed.

Lemma get_user_state_set_ne now user_id other sd db :
  user_id ≠ other →
  get_user_state other (set_user_state now user_id sd db)
  = get_user_state other db.
Proof.
  intros. unfold get_user_state, set_user_state. simpl.
  by rewrite lookup_insert_ne.
Qed.

(** The record a call of [set_state] leaves behind. *)
Lemma set_state_record now user_id state db :
  get_user_state user_id (set_state now user_id state db)
  = Some (<[k_state := VInt state]> (default ∅ (get_user_state user_id db))).
Proof. unfold set_state. by rewrite get_user_state_set, or_dict_empty. Qed.

Lemma get_data_unfold user_id db :
  get_data user_id db
  = default (VDict ∅) (get_user_state user_id db ≫= (.!! k_data)).
Proof.
  unfold get_data. destruct (get_user_state user_id db) as [sd|]; simpl; [|done].
  destruct (nonempty sd) eqn:E; [done|].
  by rewrite (nonempty_false _ E), lookup_empty.
Qed.

Lemma get_state_unfold user_id db :
  get_state cfg user_id db
  = default (VInt (IDLE (States cfg)))
      (get_user_state user_id db ≫= (.!! k_state)).
Proof.
  unfold get_state. destruct (get_user_state user_id db) as [sd|]; simpl; [|done].
  destruct (nonempty sd) eqn:E; [done|].
  by rewrite (nonempty_false _ E), lookup_empty.
Qed.

Lemma set_state_data_entry now user_id state db :
  get_user_state user_id (set_state now user_id state db) ≫= (.!! k_data)
  = get_user_state user_id db ≫= (.!! k_data).
Proof.
  rewrite set_state_record. simpl.
  rewrite lookup_insert_ne by apply key_state_ne_data.
  destruct (get_user_state user_id db); simpl; [done|]. apply lookup_empty.
Qed.

Lemma get_data_set_state now user_id state db :
  get_data user_id (set_state now user_id state db) = get_data user_id db.
Proof. by rewrite !get_data_unfold, set_state_data_entry. Qed.

Lemma get_state_set_state now user_id state db :
  get_state cfg user_id (set_state now user_id state db) = VInt state.
Proof.
  rewrite get_state_unfold, set_state_record. simpl.
  by rewrite lookup_insert_eq.
Qed.

(** C3. [set_state] is an idempotent overwrite that preserves the
    accumulated data: a second call with the same value leaves the same
    record (hence the same data mapping) as the first, and a single call
    changes neither the data mapping read back by [get_data] nor the
    ['data'] entry of the stored record. *)
Theorem set_state_idempotent_preserves_data
  (now now' user_id state : Z) (db : database) :
  let once := set_state now user_id state db in
  let twice := set_state now' user_id state once in
  get_user_state user_id twice = get_user_state user_id once
  ∧ get_data user_id twice = get_data user_id once
  ∧ get_data user_id once = get_data user_id db
  ∧ get_user_state user_id once ≫= (.!! k_data)
    = get_user_state user_id db ≫= (.!! k_data).
Proof.
  intros once twice. subst once twice. split_and!.
  - rewrite !set_state_record. simpl. by rewrite insert_insert_eq.
  - by rewrite get_data_set_state.
  - apply get_data_set_state.
  - apply set_state_data_entry.
Qed.

(** C10. Reads are total on partially formed records.  For a user without
    a record [set_state] stores a record with the ['state'] key only;
    [get_data] then returns the empty mapping and [get_state] the value
    set.  In general a record without ['data'] reads as the empty
    mapping, and a record without ['state'] as [IDLE]. *)
Theorem reads_total_on_partial_records
  (now user_id state : Z) (db : database) :
  get_user_state user_id db = None →
  let db' := set_state now user_id state db in
  get_user_state user_id db' = Some {[ k_state := VInt state ]}
  ∧ ({[ k_state := VInt state ]} : gmap pystr pyval) !! k_data = None
  ∧ get_data user_id db' = VDict ∅
  ∧ get_state cfg user_id db' = VInt state
  ∧ (∀ u d, get_user_state u d ≫= (.!! k_data) = None →
            get_data u d = VDict ∅)
  ∧ (∀ u d, get_user_state u d ≫= (.!! k_state) = None →
            get_state cfg u d = VInt (IDLE (States cfg))).
Proof.
  intros Hnone db'. subst db'. split_and!.
  - by rewrite set_state_record, Hnone.
  - done.
  - by rewrite get_data_set_state, get_data_unfold, Hnone.
  - apply get_state_set_state.
  - intros u d H. by rewrite get_data_unfold, H.
  - intros u d H. by rewrite get_state_unfold, H.
Qed.

End StateEngine.

Lemma reads_total_on_partial_records_witness :
  Database.get_user_state 7 empty_db = None
  ∧ StateManager.get_data 7 (StateManager.set_state 0 7 6 empty_db) = VDict ∅
  ∧ StateManager.get_state sample_config 7
      (StateManager.set_state 0 7 6 empty_db) = VInt 6.
Proof.
  split; [reflexivity|].
  pose proof (reads_total_on_partial_records sample_config 0 7 6 empty_db
                eq_refl) as H.
  simpl in H. destruct H as (_ & _ & Hd & Hs & _). split; [exact Hd|exact Hs].
Defined.

(* --------------------------------------------------------------------- *)
(** ** The staleness sweep (C9) *)
(* --------------------------------------------------------------------- *)

Section Sweep.
Import Database.

Lemma cleanup_lookup now minutes db user_id :
  0 ≤ minutes →
  user_states (cleanup_old_states now minutes db) !! user_id
  = match user_states db !! user_id with
    | Some row =>
        if bool_decide (updated_at row < now - minutes * 60) then None
        else Some row
    | None => None
    end.
Proof.
  intros Hm. unfold cleanup_old_states.
  destruct (Z.ltb_spec minutes 0) as [?|_]; [lia|]. simpl.
  destruct (user_states db !! user_id) as [row|] eqn:E.
  - case_bool_decide as Hold.
    + apply map_lookup_filter_None. right. intros x Hx. simpl.
      rewrite E in Hx. injection Hx as <-. tauto.
    + apply map_lookup_filter_Some. split; [done|]. simpl. done.
  - apply map_lookup_filter_None. by left.
Qed.

Lemma cleanup_other_tables now minutes db :
  let db' := cleanup_old_states now minutes db in
  users db' = users db ∧ banned_users db' = banned_users db
  ∧ trains db' = trains db.
Proof. unfold cleanup_old_states. by destruct (minutes <? 0). Qed.

(** C9. One run of the sweep with timeout [minutes] at time [now] deletes
    a conversation record whose [updated_at] is more than the timeout in
    the past, and keeps, unchanged, a record updated within the timeout;
    the other tables are not touched. *)
Theorem sweep_deletes_stale_keeps_fresh
  (now minutes user_id : Z) (row : state_row) (db : database) :
  0 ≤ minutes →
  user_states db !! user_id = Some row →
  let db' := cleanup_old_states now minutes db in
  (minutes * 60 < now - updated_at row → user_states db' !! user_id = None)
  ∧ (now - updated_at row ≤ minutes * 60 →
     user_states db' !! user_id = Some row)
  ∧ users db' = users db ∧ banned_users db' = banned_users db
  ∧ trains db' = trains db.
Proof.
  intros Hm Hrow db'. subst db'.
  rewrite cleanup_lookup, Hrow by done.
  split_and!; try apply cleanup_other_tables.
  - intros. rewrite bool_decide_eq_true_2; [done|lia].
  - intros. rewrite bool_decide_eq_false_2; [done|lia].
Qed.

End Sweep.

Lemma sweep_deletes_stale_keeps_fresh_witness :
  user_states (Database.cleanup_old_states 3660 30 sweep_db) !! 1 = None
  ∧ user_states (Database.cleanup_old_states 3660 30 sweep_db) !! 2
    = Some {| state_data := {[ k_state := VInt 6 ]}; updated_at := 1860 |}.
Proof.
  split.
  - refine (proj1 (sweep_deletes_stale_keeps_fresh 3660 30 1
                     {| state_data := {[ k_state := VInt 6 ]};
                        updated_at := 1800 |} sweep_db _ _) _);
      [lia | reflexivity | simpl; lia].
  - refine (proj1 (proj2 (sweep_deletes_stale_keeps_fresh 3660 30 2
                     {| state_data := {[ k_state := VInt 6 ]};
                        updated_at := 1860 |} sweep_db _ _)) _);
      [lia | reflexivity | simpl; lia].
Defined.

(* --------------------------------------------------------------------- *)
(** ** Transport calls leave the store alone *)
(* --------------------------------------------------------------------- *)

Lemma api_db c w : db (snd (api c w)) = db w.
Proof. unfold api. by destruct (r_ok _). Qed.

Lemma api_trace c w :
  trace (snd (api c w))
  = trace w ++ [Call c (r_ok (hd default_reply (net w)))].
Proof. unfold api. by destruct (r_ok _). Qed.

Lemma api_result c w :
  fst (api c w)
  = if r_ok (hd default_reply (net w)) then Ok (hd default_reply (net w))
    else Raise ApiException.
Proof. unfold api. by destruct (r_ok _). Qed.

(** The order of the names is a total order. *)
Lemma str_leb_total a b :
  Database.str_leb a b = false → Database.str_leb b a = true.
Proof.
  revert b. induction a as [|x a IH]; intros [|y b]; simpl; try done.
  intros H. apply orb_false_iff in H as [Hlt H].
  apply Z.ltb_ge in Hlt.
  destruct (Z.ltb_spec y x) as [?|Hge]; [done|]. simpl.
  assert (x = y) as -> by lia. rewrite Z.eqb_refl in *. simpl in *.
  by apply IH.
Qed.

Lemma str_le_total : Total Database.str_le.
Proof.
  intros a b. unfold Database.str_le.
  destruct (Database.str_leb a b) eqn:E; [by left|].
  right. by rewrite str_leb_total.
Qed.

Lemma str_leb_cons x a y b :
  Database.str_leb (x :: a) (y :: b) = true
  ↔ x < y ∨ x = y ∧ Database.str_leb a b = true.
Proof.
  simpl. rewrite orb_true_iff, andb_true_iff, Z.ltb_lt, Z.eqb_eq. tauto.
Qed.

Lemma str_le_antisym : AntiSymm (=) Database.str_le.
Proof.
  intros a b. unfold Database.str_le. rewrite !Is_true_true.
  revert b. induction a as [|x a IH]; intros [|y b]; try done.
  rewrite !str_leb_cons. intros [?|[-> Hab]] [?|[? Hba]]; try lia.
  f_equal. by apply IH.
Qed.

Lemma str_le_trans : Transitive Database.str_le.
Proof.
  intros a b c. unfold Database.str_le. rewrite !Is_true_true.
  revert b c. induction a as [|x a IH]; intros [|y b] [|z c]; try done.
  rewrite !str_leb_cons. intros [?|[-> Hab]] [?|[-> Hbc]]; try (left; lia).
  right. split; [done|]. by apply (IH b).
Qed.

(* --------------------------------------------------------------------- *)
(** ** The reference list (C7) *)
(* --------------------------------------------------------------------- *)

Section ReferenceList.
Import Database TrainsManager.

Lemma filter_absorb (P Q : pystr → Prop) `{∀ x, Decision (P x)}
  `{∀ x, Decision (Q x)} (l : list pystr) :
  (∀ x, P x → Q x) → filter P (filter Q l) = filter P l.
Proof.
  intros HPQ. rewrite list_filter_filter. apply list_filter_iff.
  intros x. split; [tauto|]. intros Hx. split; [done|]. by apply HPQ.
Qed.

Lemma first_occurrences_filter (P : pystr → Prop) `{∀ x, Decision (P x)}
  (l : list pystr) :
  first_occurrences (filter P l) = filter P (first_occurrences l).
Proof.
  induction l as [|y t IH]; [done|].
  rewrite filter_cons. destruct (decide (P y)) as [Hy|Hy]; simpl.
  - rewrite filter_cons_True by done. f_equal.
    rewrite IH, !list_filter_filter. apply list_filter_iff.
    intros x. tauto.
  - rewrite filter_cons_False by done. rewrite IH.
    symmetry. apply filter_absorb. intros x Hx ->. done.
Qed.

Lemma unique_loop_spec seen l :
  unique_loop seen l = first_occurrences (filter (fun x => x ∉ seen) l).
Proof.
  revert seen. induction l as [|x t IH]; intros seen; [done|]. simpl.
  rewrite filter_cons. case_bool_decide as Hx.
  - rewrite decide_False by tauto. apply IH.
  - rewrite decide_True by done. simpl. f_equal.
    rewrite IH, <- first_occurrences_filter. f_equal.
    rewrite list_filter_filter. apply list_filter_iff.
    intros y. rewrite elem_of_union, elem_of_singleton. tauto.
Qed.

Lemma unique_loop_first_occurrences l :
  unique_loop ∅ l = first_occurrences l.
Proof.
  rewrite unique_loop_spec. f_equal.
  induction l as [|x t IH]; [done|].
  rewrite filter_cons_True by set_solver. by f_equal.
Qed.

Lemma elem_of_first_occurrences x l : x ∈ first_occurrences l ↔ x ∈ l.
Proof.
  induction l as [|y t IH]; [done|]. simpl.
  rewrite !elem_of_cons, list_elem_of_filter, IH.
  destruct (decide (x = y)); tauto.
Qed.

Lemma NoDup_first_occurrences l : NoDup (first_occurrences l).
Proof.
  induction l as [|y t IH]; simpl; [constructor|].
  constructor.
  - rewrite list_elem_of_filter. tauto.
  - by apply NoDup_filter.
Qed.

Lemma distinct_count l :
  size (list_to_set l : gset pystr) = length (first_occurrences l).
Proof.
  rewrite <- (size_list_to_set (C:=gset pystr) (first_occurrences l))
    by apply NoDup_first_occurrences.
  f_equal. apply set_eq. intros x.
  by rewrite !elem_of_list_to_set, elem_of_first_occurrences.
Qed.

Lemma insert_all_names l db :
  NoDup (map snd (trains db) ++ l) →
  map snd (trains (fold_left insert_train l db)) = map snd (trains db) ++ l.
Proof.
  revert db. induction l as [|x t IH]; intros db Hnd; simpl.
  - by rewrite app_nil_r.
  - assert (x ∉ map snd (trains db)) as Hx.
    { apply NoDup_app in Hnd as (_ & Hd & _). intros Hin.
      apply (Hd x Hin). by left. }
    unfold insert_train at 2. rewrite bool_decide_eq_false_2 by done.
    rewrite IH; simpl; rewrite map_app; simpl.
    + by rewrite <- app_assoc.
    + by rewrite <- app_assoc.
Qed.

Lemma set_trains_names l db :
  NoDup l → map snd (trains (set_trains l db)) = l.
Proof. intros Hnd. unfold set_trains. by rewrite insert_all_names. Qed.

Lemma handle_edit_store cfg message w :
  is_admin cfg (u_id (m_from_user message)) = true →
  parse_lines (split_on 10 (strip (m_text message))) ≠ [] →
  let entries := parse_lines (split_on 10 (strip (m_text message))) in
  let w' := snd (_handle_edit cfg message w) in
  db w' = set_trains (unique_loop ∅ entries) (db w)
  ∧ ∃ ok rest,
      trace w'
      = trace w
        ++ Call (ReplyTo (m_chat_id message) (m_message_id message)
                   (edit_result_text entries (unique_loop ∅ entries))
                   (Some ReplyKeyboardRemove)) ok :: rest.
Proof.
  intros Hadm Hne entries w'. subst w' entries.
  unfold _handle_edit, try_except, bind. rewrite Hadm. simpl.
  rewrite bool_decide_eq_false_2 by done.
  unfold Bot.reply_to, bind, pass, ret, db_write, api. simpl.
  destruct (r_ok (hd default_reply (net w))) eqn:E1; simpl.
  - split; [done|]. by exists true, [].
  - destruct (r_ok (hd default_reply (tl (net w)))) eqn:E2; simpl;
      (split; [done|]); eexists false, [_]; by rewrite <- app_assoc.
Qed.

(** C7, amended.  A submitted list is stored without its duplicates: the
    rows of the table, in the order they were inserted, are the first
    occurrences of the submitted entries, one row for each distinct
    entry.  [get_trains] reads them back in ascending order of the names,
    which fixes the list read whatever the order of submission.  The
    reply reports the number of distinct entries as added and the length
    of the submission minus that number as duplicates removed. *)
Theorem edit_drops_duplicates_keeps_first
  (cfg : config) (message : message) (w : world) :
  is_admin cfg (u_id (m_from_user message)) = true →
  parse_lines (split_on 10 (strip (m_text message))) ≠ [] →
  let entries := parse_lines (split_on 10 (strip (m_text message))) in
  let unique_trains := first_occurrences entries in
  let distinct := size (list_to_set entries : gset pystr) in
  let w' := snd (_handle_edit cfg message w) in
  map snd (trains (db w')) = unique_trains
  ∧ NoDup unique_trains
  ∧ (∀ x, x ∈ unique_trains ↔ x ∈ entries)
  ∧ length unique_trains = distinct
  ∧ get_trains (db w') ≡ₚ unique_trains
  ∧ Sorted str_le (get_trains (db w'))
  ∧ (∀ l, l ≡ₚ unique_trains → Sorted str_le l → l = get_trains (db w'))
  ∧ ∃ ok rest,
      trace w'
      = trace w
        ++ Call (ReplyTo (m_chat_id message) (m_message_id message)
                   (py "✅ Список составов обновлен!" ++ nl ++ nl
                    ++ py "📊 Добавлено: " ++ str_of_int (Z.of_nat distinct)
                    ++ py " составов" ++ nl
                    ++ py "🔁 Удалено дубликатов: "
                    ++ str_of_int (Z.of_nat (length entries)
                                   - Z.of_nat distinct)
                    ++ nl ++ nl ++ py "Используйте /trains для просмотра.")
                   (Some ReplyKeyboardRemove)) ok :: rest.
Proof.
  intros Hadm Hne entries unique_trains distinct w'.
  destruct (handle_edit_store cfg message w Hadm Hne) as [Hdb Htr].
  fold entries in Hdb, Htr. fold w' in Hdb, Htr.
  rewrite unique_loop_first_occurrences in Hdb, Htr.
  fold unique_trains in Hdb, Htr.
  assert (map snd (trains (db w')) = unique_trains) as Hrows.
  { rewrite Hdb. apply set_trains_names, NoDup_first_occurrences. }
  assert (length unique_trains = distinct) as Hcount.
  { subst distinct unique_trains. by rewrite distinct_count. }
  assert (get_trains (db w') ≡ₚ unique_trains) as Hperm.
  { unfold get_trains. by rewrite merge_sort_Permutation, Hrows. }
  assert (Sorted str_le (get_trains (db w'))) as Hsorted
    by apply (Sorted_merge_sort str_le (Total0:=str_le_total)).
  split_and!.
  - exact Hrows.
  - apply NoDup_first_occurrences.
  - intros x. apply elem_of_first_occurrences.
  - exact Hcount.
  - exact Hperm.
  - exact Hsorted.
  - intros l Hl Hs.
    apply (Sorted_unique str_le (Transitive0:=str_le_trans)
             (AntiSymm0:=str_le_antisym));
      [done..|by rewrite Hperm].
  - destruct Htr as (ok & rest & Htr). exists ok, rest.
    rewrite Htr. unfold edit_result_text. by rewrite Hcount.
Qed.

End ReferenceList.

(** What [get_trains] returns is the table ordered by name, whatever the
    order of insertion. *)
Lemma get_trains_orders_by_name :
  trains (Database.set_trains [py "B"; py "A"] empty_db)
  = [(1, py "B"); (2, py "A")]
  ∧ Database.get_trains (Database.set_trains [py "B"; py "A"] empty_db)
    = [py "A"; py "B"].
Proof. split; vm_compute; reflexivity. Qed.

(** The example of C7: the entries A, B, A leave the list [A; B], and the
    reply counts one duplicate. *)
Lemma edit_ABA_stored :
  let w' := snd (TrainsManager._handle_edit sample_config edit_ABA
                   (world_of empty_db [])) in
  map snd (trains (db w')) = [py "A"; py "B"]
  ∧ Database.get_trains (db w') = [py "A"; py "B"]
  ∧ trace w'
    = [Call (ReplyTo 1 50
               (py "✅ Список составов обновлен!" ++ nl ++ nl
                ++ py "📊 Добавлено: 2 составов" ++ nl
                ++ py "🔁 Удалено дубликатов: 1" ++ nl ++ nl
                ++ py "Используйте /trains для просмотра.")
               (Some ReplyKeyboardRemove)) true].
Proof. cbv zeta. split_and!; vm_compute; reflexivity. Qed.

(** C7 as stated fails: the order of first occurrence is not the order of
    the list that is read back.  The entries B, A, B are inserted as B, A
    and [get_trains] returns A, B. *)
Lemma edit_order_lost_on_reading :
  let w' := snd (TrainsManager._handle_edit sample_config edit_BAB
                   (world_of empty_db [])) in
  first_occurrences [py "B"; py "A"; py "B"] = [py "B"; py "A"]
  ∧ map snd (trains (db w')) = [py "B"; py "A"]
  ∧ Database.get_trains (db w') = [py "A"; py "B"]
  ∧ Database.get_trains (db w') ≠ [py "B"; py "A"].
Proof.
  cbv zeta. split_and!; try (vm_compute; reflexivity).
  vm_compute. discriminate.
Qed.

Lemma edit_drops_duplicates_keeps_first_witness :
  let w' := snd (TrainsManager._handle_edit sample_config edit_BAB
                   (world_of empty_db [])) in
  map snd (trains (db w')) = [py "B"; py "A"]
  ∧ Database.get_trains (db w') ≡ₚ [py "B"; py "A"]
  ∧ Sorted Database.str_le (Database.get_trains (db w'))
  ∧ trace w'
    = [Call (ReplyTo 1 51
               (py "✅ Список составов обновлен!" ++ nl ++ nl
                ++ py "📊 Добавлено: 2 составов" ++ nl
                ++ py "🔁 Удалено дубликатов: 1" ++ nl ++ nl
                ++ py "Используйте /trains для просмотра.")
               (Some ReplyKeyboardRemove)) true].
Proof.
  pose proof (edit_drops_duplicates_keeps_first sample_config edit_BAB
                (world_of empty_db []) eq_refl) as H.
  simpl in H. specialize (H ltac:(vm_compute; discriminate)).
  destruct H as (Hrows & _ & _ & _ & Hperm & Hsorted & _).
  split; [exact Hrows|]. split; [exact Hperm|]. split; [exact Hsorted|].
  vm_compute; reflexivity.
Defined.

(* --------------------------------------------------------------------- *)
(** ** Store invariants of handlers *)
(* --------------------------------------------------------------------- *)

Section StoreInvariants.
Context (P : database → Prop).

Lemma db_inv_ret {A} (a : A) : db_inv P (ret a).
Proof. by intros w. Qed.

Lemma db_inv_raise {A} e : db_inv P (@raise A e).
Proof. by intros w. Qed.

Lemma db_inv_lift {A} (r : result A) : db_inv P (lift r).
Proof. by intros w. Qed.

Lemma db_inv_bind {A B} (m : M A) (k : A → M B) :
  db_inv P m → (∀ a, db_inv P (k a)) → db_inv P (bind m k).
Proof.
  intros Hm Hk w Hw. unfold bind. specialize (Hm w Hw).
  destruct (m w) as [[a|e] w1]; simpl in *; [by apply Hk|done].
Qed.

Lemma db_inv_try {A} (m : M A) (h : exn → M A) :
  db_inv P m → (∀ e, db_inv P (h e)) → db_inv P (try_except m h).
Proof.
  intros Hm Hh w Hw. unfold try_except. specialize (Hm w Hw).
  destruct (m w) as [[a|e] w1]; simpl in *; [done|by apply Hh].
Qed.

Lemma db_inv_api c : db_inv P (api c).
Proof. intros w Hw. by rewrite api_db. Qed.

Lemma db_inv_read {A} (f : database → A) : db_inv P (db_read f).
Proof. by intros w. Qed.

Lemma db_inv_write f :
  (∀ now d, P d → P (f now d)) → db_inv P (db_write f).
Proof. intros Hf w Hw. simpl. by apply Hf. Qed.

Lemma db_inv_db_try f :
  (∀ now d d', P d → f now d = Ok d' → P d') → db_inv P (db_try f).
Proof.
  intros Hf w Hw. unfold db_try.
  destruct (f (current_timestamp w) (db w)) as [d'|e] eqn:E; simpl; eauto.
Qed.

Lemma db_inv_time_time : db_inv P time_time.
Proof. by intros w. Qed.

Lemma db_inv_sleep ms : db_inv P (time_sleep ms).
Proof. intros w Hw. unfold time_sleep. by destruct (ms <? 0). Qed.

Lemma db_inv_the_message call : db_inv P (the_message call).
Proof. unfold the_message. destruct (c_message call); by intros w. Qed.

Lemma db_inv_send chat text mk pm :
  db_inv P (Bot.send_message chat text mk pm).
Proof.
  apply db_inv_bind; [apply db_inv_api|intros; apply db_inv_ret].
Qed.

Lemma db_inv_reply_to chat mid text mk :
  db_inv P (Bot.reply_to chat mid text mk).
Proof.
  apply db_inv_bind; [apply db_inv_api|intros; apply db_inv_ret].
Qed.

Lemma db_inv_edit text chat mid :
  db_inv P (Bot.edit_message_text text chat mid).
Proof.
  apply db_inv_bind; [apply db_inv_api|intros; apply db_inv_ret].
Qed.

Lemma db_inv_delete chat mid : db_inv P (Bot.delete_message chat mid).
Proof.
  apply db_inv_bind; [apply db_inv_api|intros; apply db_inv_ret].
Qed.

Lemma db_inv_answer cid text : db_inv P (Bot.answer_callback_query cid text).
Proof.
  apply db_inv_bind; [apply db_inv_api|intros; apply db_inv_ret].
Qed.

Lemma db_inv_error_msg chat : db_inv P (ReportBot._error_msg chat).
Proof.
  apply db_inv_try; [|intros; apply db_inv_ret].
  apply db_inv_bind; [apply db_inv_send|intros; apply db_inv_ret].
Qed.

End StoreInvariants.

(** Breaks a handler down to its store operations. *)
Ltac db_inv_step :=
  first
    [ apply db_inv_ret | apply db_inv_raise | apply db_inv_lift
    | apply db_inv_api | apply db_inv_read | apply db_inv_time_time
    | apply db_inv_sleep | apply db_inv_the_message | apply db_inv_send
    | apply db_inv_reply_to | apply db_inv_edit | apply db_inv_delete
    | apply db_inv_answer | apply db_inv_error_msg
    | apply db_inv_bind; [|intros ?]
    | apply db_inv_try; [|intros ?]
    | match goal with
      | |- db_inv _ (if ?b then _ else _) => destruct b
      | |- db_inv _ (match ?x with _ => _ end) => destruct x
      end ].

Ltac db_inv_auto := repeat db_inv_step.

(* --------------------------------------------------------------------- *)
(** ** Bans and users (C8) *)
(* --------------------------------------------------------------------- *)

Section Bans.
Import Database BanManager.

Lemma elem_of_scan {A} (t : gmap Z A) k v :
  (k, v) ∈ scan t ↔ t !! k = Some v.
Proof.
  unfold scan. rewrite merge_sort_Permutation. apply elem_of_map_to_list.
Qed.

(** The lookup by name only ever yields a user of the table. *)
Lemma get_user_id_by_username_seen uname d user_id :
  get_user_id_by_username uname d = Some user_id →
  is_Some (users d !! user_id).
Proof.
  unfold get_user_id_by_username. intros H.
  apply fmap_Some in H as ([k v] & Hfind & ->).
  apply find_some in Hfind as [Hin _].
  apply list_elem_of_In, elem_of_scan in Hin. simpl. by exists v.
Qed.

Lemma ban_user_keeps_invariant now user_id why d d' :
  is_Some (users d !! user_id) →
  ban_user now user_id why d = Ok d' →
  ban_implies_user d → ban_implies_user d'.
Proof.
  intros Hu Hban Hinv u. unfold ban_user in Hban.
  destruct (int64 user_id); [|discriminate]. injection Hban as <-. simpl.
  destruct (decide (user_id = u)) as [->|Hne].
  - done.
  - rewrite lookup_insert_ne by done. apply Hinv.
Qed.

Lemma db_inv_ban_reply P message text : db_inv P (reply message text).
Proof. apply db_inv_reply_to. Qed.

(** The path [/ban @username] keeps the invariant: the ban is recorded for
    a user found in the table, or the command is rejected. *)
Lemma ban_by_username_keeps_invariant cfg message cmd user_identifier rest :
  split_max 2 (m_text message) = cmd :: user_identifier :: rest →
  startswith (py "@") user_identifier = true →
  db_inv ban_implies_user (_handle_ban cfg message).
Proof.
  intros Hargs Hat. unfold _handle_ban. rewrite Hargs, Hat.
  apply db_inv_try; [|intros; apply db_inv_ban_reply].
  destruct (negb _); [apply db_inv_ret|].
  intros w Hw. unfold bind at 1, db_read at 1.
  destruct (get_user_id_by_username _ (db w)) as [user_id|] eqn:E.
  - destruct (negb _).
    + unfold bind at 1, db_try at 1.
      destruct (ban_user _ user_id _ (db w)) as [d'|e] eqn:Hban; [|done].
      apply db_inv_ban_reply. simpl.
      eauto using ban_user_keeps_invariant, get_user_id_by_username_seen.
    + by apply db_inv_ban_reply.
  - by apply db_inv_ban_reply.
Qed.

End Bans.

(** C8 fails on the code.  [/ban <id>] records the ban without looking the
    id up in [users]: on a store in which nobody was ever seen the command
    of an administrator is accepted and leaves a ban record without a
    user, which the join of /banlist then does not even list. *)
Theorem ban_by_id_of_unseen_user :
  let w' := snd (BanManager._handle_ban sample_config ban_unseen
                   (world_of empty_db [])) in
  ban_implies_user empty_db
  ∧ banned_users (db w') !! 12345
    = Some {| reason := py "spam"; banned_at := 63839707200 |}
  ∧ users (db w') !! 12345 = None
  ∧ ¬ ban_implies_user (db w')
  ∧ Database.get_banned_users_detailed (db w') = []
  ∧ trace w'
    = [Call (ReplyTo 1 60
               (py "✅ Пользователь 12345 забанен" ++ nl
                ++ py "Причина: spam") None) true].
Proof.
  assert (banned_users
            (db (snd (BanManager._handle_ban sample_config ban_unseen
                        (world_of empty_db [])))) !! 12345
          = Some {| reason := py "spam"; banned_at := 63839707200 |}) as Hb
    by (vm_compute; reflexivity).
  assert (users
            (db (snd (BanManager._handle_ban sample_config ban_unseen
                        (world_of empty_db [])))) !! 12345 = None) as Hu
    by (vm_compute; reflexivity).
  cbv zeta. split_and!.
  - intros u [x Hx]. simpl in Hx. by rewrite lookup_empty in Hx.
  - exact Hb.
  - exact Hu.
  - intros Hinv. specialize (Hinv 12345). rewrite Hb, Hu in Hinv.
    destruct Hinv as [x Hx]; [by eexists|discriminate].
  - vm_compute. reflexivity.
  - vm_compute. reflexivity.
Qed.

(* --------------------------------------------------------------------- *)
(** ** Reads after writes in the state engine *)
(* --------------------------------------------------------------------- *)

Section DataWrites.
Import Database StateManager.
Context (cfg : config).

Lemma ensure_data_lookup sd :
  ensure_data sd !! k_data = Some (default (VDict ∅) (sd !! k_data)).
Proof.
  unfold ensure_data. destruct (sd !! k_data) eqn:E; [done|].
  by rewrite lookup_insert_eq.
Qed.

Lemma ensure_data_state sd : ensure_data sd !! k_state = sd !! k_state.
Proof.
  unfold ensure_data. destruct (sd !! k_data) eqn:E; [done|].
  rewrite lookup_insert_ne; [done|discriminate].
Qed.

Lemma working_record_data user_id d :
  working_record cfg user_id d !! k_data = Some (get_data user_id d).
Proof.
  unfold working_record. rewrite ensure_data_lookup, get_data_unfold.
  f_equal. unfold or_dict.
  destruct (get_user_state user_id d) as [sd|]; simpl; [|done].
  destruct (nonempty sd) eqn:E; [done|].
  by rewrite (nonempty_false _ E), lookup_empty.
Qed.

Lemma working_record_state user_id d :
  default (VInt (IDLE (States cfg))) (working_record cfg user_id d !! k_state)
  = get_state cfg user_id d.
Proof.
  unfold working_record. rewrite ensure_data_state, get_state_unfold.
  unfold or_dict.
  destruct (get_user_state user_id d) as [sd|]; simpl; [|done].
  destruct (nonempty sd) eqn:E; [done|].
  by rewrite (nonempty_false _ E), lookup_empty.
Qed.

Lemma set_data_ok now user_id key value d dict :
  get_data user_id d = VDict dict →
  set_data cfg now user_id key value d
  = Ok (set_user_state now user_id
          (<[k_data := VDict (<[key := value]> dict)]>
             (working_record cfg user_id d)) d).
Proof.
  intros Hd. unfold set_data. fold (working_record cfg user_id d).
  by rewrite working_record_data, Hd.
Qed.

Lemma set_data_inv now user_id key value d d' :
  set_data cfg now user_id key value d = Ok d' →
  ∃ dict, get_data user_id d = VDict dict
          ∧ d' = set_user_state now user_id
                   (<[k_data := VDict (<[key := value]> dict)]>
                      (working_record cfg user_id d)) d.
Proof.
  unfold set_data. fold (working_record cfg user_id d).
  rewrite working_record_data.
  destruct (get_data user_id d) as [| |dict]; try discriminate.
  intros [= <-]. by exists dict.
Qed.

Lemma get_data_after_set now user_id sd d :
  get_data user_id (set_user_state now user_id sd d)
  = default (VDict ∅) (sd !! k_data).
Proof. by rewrite get_data_unfold, get_user_state_set. Qed.

Lemma get_state_after_set now user_id sd d :
  get_state cfg user_id (set_user_state now user_id sd d)
  = default (VInt (IDLE (States cfg))) (sd !! k_state).
Proof. by rewrite get_state_unfold, get_user_state_set. Qed.

Lemma set_data_answer now user_id key value d d' :
  set_data cfg now user_id key value d = Ok d' →
  answer user_id key d' = Some value.
Proof.
  intros H. apply set_data_inv in H as (dict & Hd & ->).
  unfold answer. rewrite get_data_after_set, lookup_insert_eq. simpl.
  by rewrite lookup_insert_eq.
Qed.

Lemma set_data_answer_ne now user_id key key' value d d' :
  key ≠ key' →
  set_data cfg now user_id key value d = Ok d' →
  answer user_id key' d' = answer user_id key' d.
Proof.
  intros Hne H. apply set_data_inv in H as (dict & Hd & ->).
  unfold answer. rewrite get_data_after_set, lookup_insert_eq, Hd. simpl.
  by rewrite lookup_insert_ne.
Qed.

Lemma set_data_state now user_id key value d d' :
  set_data cfg now user_id key value d = Ok d' →
  get_state cfg user_id d' = get_state cfg user_id d.
Proof.
  intros H. apply set_data_inv in H as (dict & Hd & ->).
  rewrite get_state_after_set.
  rewrite lookup_insert_ne by discriminate. apply working_record_state.
Qed.

Lemma set_state_answer now user_id state key d :
  answer user_id key (set_state now user_id state d) = answer user_id key d.
Proof. unfold answer. by rewrite get_data_set_state. Qed.

End DataWrites.

(* --------------------------------------------------------------------- *)
(** ** Route numbers (C4) *)
(* --------------------------------------------------------------------- *)

Section RouteNumber.
Import Utils.

(** Among the ASCII characters the digits of [str.isdigit] are ['0'-'9']. *)
Lemma isdigit_char_ascii c : (c <? 128) && isdigit_char c = ascii_digit c.
Proof.
  unfold ascii_digit. destruct (Z.ltb_spec c 128) as [Hc|Hc]; simpl.
  - unfold isdigit_char, in_ranges, digit_ranges. cbn [existsb fst snd].
    repeat match goal with
           | |- context [Z.leb ?lo c] =>
               rewrite (proj2 (Z.leb_gt lo c)) by lia
           end.
    cbn [andb orb]. by rewrite orb_false_r.
  - symmetry. apply andb_false_iff. right. apply Z.leb_gt. lia.
Qed.

Lemma validate_route_number_accepts route :
  fst (validate_route_number route)
  = (len route =? 3) && forallb isdigit_char route.
Proof.
  unfold validate_route_number, isdigit.
  destruct route as [|c t]; [done|].
  rewrite bool_decide_eq_false_2 by done. cbn [negb andb].
  destruct (forallb isdigit_char (c :: t)); cbn [negb];
    [|by rewrite andb_false_r].
  rewrite andb_true_r. by destruct (len (c :: t) =? 3).
Qed.

End RouteNumber.

(** C4 as stated fails: a route of three Arabic-Indic digits is accepted
    although none of its characters is an ASCII digit. *)
Lemma route_of_non_ascii_digits_accepted :
  Utils.validate_route_number (py "١٢٣") = (true, None)
  ∧ len (py "١٢٣") = 3
  ∧ forallb ascii_digit (py "١٢٣") = false.
Proof. vm_compute. done. Qed.

(* --------------------------------------------------------------------- *)
(** ** Steps of the wizard *)
(* --------------------------------------------------------------------- *)

Section WizardSteps.
Import Utils ReportBot.
Context (cfg : config).

Lemma try_except_post {A} (P : database → Prop) (m : M A) h w :
  P (db (snd (m w))) → (∀ e, db_inv P (h e)) →
  P (db (snd (try_except m h w))).
Proof.
  intros Hm Hh. unfold try_except.
  destruct (m w) as [[a|e] w1]; simpl in *; [done|by apply Hh].
Qed.

Lemma db_inv_set_data_kept user_id key a s key' v :
  key' ≠ key →
  db_inv (kept cfg user_id key a s) (set_data cfg user_id key' v).
Proof.
  intros Hne. apply db_inv_db_try. intros now d d' [Ha Hs] H. split.
  - by rewrite (set_data_answer_ne cfg now user_id key' key v d d').
  - by rewrite (set_data_state cfg now user_id key' v d d').
Qed.

Lemma db_inv_ask_comment user_id key a s chat :
  key ≠ k_last_msg →
  db_inv (kept cfg user_id key a s) (_ask_comment cfg user_id chat).
Proof.
  intros Hne. unfold _ask_comment.
  apply db_inv_try; [|intros; apply db_inv_error_msg].
  apply db_inv_bind; [apply db_inv_send|intros].
  by apply db_inv_set_data_kept.
Qed.

Lemma db_inv_ask_route user_id key a s chat :
  key ≠ k_last_msg →
  db_inv (kept cfg user_id key a s) (_ask_route cfg user_id chat).
Proof.
  intros Hne. unfold _ask_route.
  apply db_inv_try; [|intros; apply db_inv_error_msg].
  apply db_inv_bind; [apply db_inv_send|intros].
  by apply db_inv_set_data_kept.
Qed.

Lemma db_inv_delete_msg P user_id chat :
  db_inv P (_delete_msg user_id chat).
Proof. unfold _delete_msg, get_data. db_inv_auto. Qed.

(** Running [set_data] on a well-formed record. *)
Lemma run_set_data user_id key v w dict :
  StateManager.get_data user_id (db w) = VDict dict →
  ∃ d', set_data cfg user_id key v w = (Ok tt, set_db d' w)
        ∧ StateManager.set_data cfg (current_timestamp w) user_id key v (db w)
          = Ok d'.
Proof.
  intros Hd. unfold set_data, db_try.
  rewrite (set_data_ok cfg _ _ _ _ _ _ Hd). eauto.
Qed.

Lemma route_choice_skip message w dict :
  let user_id := u_id (m_from_user message) in
  strip (m_text message) = py "Пропустить" →
  StateManager.get_data user_id (db w) = VDict dict →
  kept cfg user_id k_route (Some (SStr skip_sentinel))
    (VInt (COMMENT (States cfg))) (db (snd (_route_choice cfg message w))).
Proof.
  intros user_id Hskip Hd. unfold _route_choice.
  rewrite bool_decide_eq_true_2 by done.
  apply try_except_post; [|intros; apply db_inv_error_msg].
  destruct (run_set_data user_id k_route (SStr skip_sentinel) w dict Hd)
    as (d1 & Hrun & Hd1).
  unfold bind at 1. fold user_id. rewrite Hrun.
  unfold bind at 1, set_state at 1, db_write at 1.
  apply db_inv_ask_comment; [discriminate|]. simpl. split.
  - rewrite set_state_answer. eapply set_data_answer, Hd1.
  - apply get_state_set_state.
Qed.

Lemma manual_route_accepted message w dict :
  let user_id := u_id (m_from_user message) in
  let route := strip (m_text message) in
  fst (validate_route_number route) = true →
  StateManager.get_data user_id (db w) = VDict dict →
  kept cfg user_id k_route (Some (SStr route))
    (VInt (COMMENT (States cfg))) (db (snd (_manual_route cfg message w))).
Proof.
  intros user_id route Hv Hd. unfold _manual_route. fold route.
  destruct (validate_route_number route) as [valid error]. simpl in Hv.
  subst valid.
  apply try_except_post; [|intros; apply db_inv_error_msg].
  destruct (run_set_data user_id k_route (SStr route) w dict Hd)
    as (d1 & Hrun & Hd1).
  unfold bind at 1. fold user_id. rewrite Hrun.
  unfold bind at 1, set_state at 1, db_write at 1.
  apply db_inv_ask_comment; [discriminate|]. simpl. split.
  - rewrite set_state_answer. eapply set_data_answer, Hd1.
  - apply get_state_set_state.
Qed.

Lemma manual_route_rejected message w :
  let user_id := u_id (m_from_user message) in
  let route := strip (m_text message) in
  let w' := snd (_manual_route cfg message w) in
  fst (validate_route_number route) = false →
  kept cfg user_id k_route (answer user_id k_route (db w))
    (StateManager.get_state cfg user_id (db w)) (db w')
  ∧ ∃ ok rest,
      trace w'
      = trace w
        ++ Call (SendMessage (m_chat_id message)
                   (default [] (snd (validate_route_number route)))
                   None None) ok :: rest.
Proof.
  intros user_id route w' Hv. subst w'. unfold _manual_route. fold route.
  destruct (validate_route_number route) as [valid error]. simpl in Hv.
  subst valid. cbn [snd]. split.
  - apply try_except_post; [|intros; apply db_inv_error_msg].
    apply db_inv_bind; [apply db_inv_send|intros|done].
    apply db_inv_set_data_kept. discriminate.
  - unfold try_except, bind, Bot.send_message, bind, api.
    destruct (r_ok (hd default_reply (net w))) eqn:E1; cbn [fst snd].
    + unfold ret, set_data, db_try. cbn [db clock current_timestamp].
      match goal with
      | |- context [StateManager.set_data ?c ?n ?u ?k ?v ?d] =>
          destruct (StateManager.set_data c n u k v d)
      end; cbn [trace set_db].
      * by exists true, [].
      * unfold _error_msg, try_except, bind, Bot.send_message, bind, api.
        cbn [net trace].
        destruct (r_ok (hd default_reply (tl (net w)))); cbn [trace snd];
          eexists true, [_]; by rewrite <- app_assoc.
    + unfold _error_msg, try_except, bind, Bot.send_message, bind, api.
      cbn [net trace].
      destruct (r_ok (hd default_reply (tl (net w)))); cbn [trace snd];
        eexists false, [_]; by rewrite <- app_assoc.
Qed.

End WizardSteps.

(** C4, amended.  A route number is accepted exactly when it has three
    characters and each of them is a digit in the sense of [str.isdigit];
    among ASCII characters these are ['0'-'9'].  ["123"] is accepted;
    ["12a"], ["12"] and ["1234"] are rejected, each with its message.
    In the wizard, skipping stores the sentinel ["-"], an accepted entry
    is stored as the route, and a rejected entry leaves answer and step as
    they were and sends the message of the validation. *)
Theorem route_accepted_iff_three_digits
  (cfg : config) (message : message) (w : world) (dict : gmap pystr scalar) :
  let user_id := u_id (m_from_user message) in
  let route := strip (m_text message) in
  StateManager.get_data user_id (db w) = VDict dict →
  (∀ r, fst (Utils.validate_route_number r)
        = (len r =? 3) && forallb isdigit_char r)
  ∧ (∀ c, (c <? 128) && isdigit_char c = ascii_digit c)
  ∧ Utils.validate_route_number (py "123") = (true, None)
  ∧ Utils.validate_route_number (py "12a")
    = (false, Some (py "❗️ Маршрут должен содержать только цифры"))
  ∧ Utils.validate_route_number (py "12")
    = (false, Some (py "❗️ Маршрут должен быть трёхзначным"))
  ∧ Utils.validate_route_number (py "1234")
    = (false, Some (py "❗️ Маршрут должен быть трёхзначным"))
  ∧ (route = py "Пропустить" →
     answer user_id k_route (db (snd (ReportBot._route_choice cfg message w)))
     = Some (SStr (py "-")))
  ∧ (fst (Utils.validate_route_number route) = true →
     answer user_id k_route (db (snd (ReportBot._manual_route cfg message w)))
     = Some (SStr route))
  ∧ (fst (Utils.validate_route_number route) = false →
     let w' := snd (ReportBot._manual_route cfg message w) in
     answer user_id k_route (db w') = answer user_id k_route (db w)
     ∧ StateManager.get_state cfg user_id (db w')
       = StateManager.get_state cfg user_id (db w)
     ∧ ∃ ok rest,
         trace w'
         = trace w
           ++ Call (SendMessage (m_chat_id message)
                      (default [] (snd (Utils.validate_route_number route)))
                      None None) ok :: rest).
Proof.
  intros user_id route Hd. split_and!.
  - apply validate_route_number_accepts.
  - apply isdigit_char_ascii.
  - by vm_compute.
  - by vm_compute.
  - by vm_compute.
  - by vm_compute.
  - intros Hskip. by destruct (route_choice_skip cfg message w dict Hskip Hd).
  - intros Hv. by destruct (manual_route_accepted cfg message w dict Hv Hd).
  - intros Hv. destruct (manual_route_rejected cfg message w Hv) as [[? ?] ?].
    done.
Qed.

Lemma route_accepted_iff_three_digits_witness :
  let d := StateManager.set_state 0 7 8 empty_db in
  StateManager.get_data 7 d = VDict ∅
  ∧ answer 7 k_route
      (db (snd (ReportBot._manual_route sample_config (from_7 (py " 123 "))
                  (world_of d []))))
    = Some (SStr (py "123"))
  ∧ answer 7 k_route
      (db (snd (ReportBot._manual_route sample_config (from_7 (py "12a"))
                  (world_of d []))))
    = None.
Proof.
  split; [reflexivity|]. split.
  - destruct (route_accepted_iff_three_digits sample_config
                (from_7 (py " 123 "))
                (world_of (StateManager.set_state 0 7 8 empty_db) []) ∅
                eq_refl) as (_ & _ & _ & _ & _ & _ & _ & Hacc & _).
    refine (eq_trans (Hacc _) _); vm_compute; reflexivity.
  - destruct (route_accepted_iff_three_digits sample_config
                (from_7 (py "12a"))
                (world_of (StateManager.set_state 0 7 8 empty_db) []) ∅
                eq_refl) as (_ & _ & _ & _ & _ & _ & _ & _ & Hrej).
    refine (eq_trans (proj1 (Hrej _)) _); vm_compute; reflexivity.
Defined.

Lemma answer_outcome id text w :
  ∃ w1,
    Bot.answer_callback_query id text w
    = (if next_ok w then Ok tt else Raise ApiException, w1)
    ∧ db w1 = db w
    ∧ waiting_for_text w1 = waiting_for_text w
    ∧ editing_users w1 = editing_users w
    ∧ trace w1 = trace w ++ [Call (AnswerCallbackQuery id text) (next_ok w)].
Proof.
  unfold Bot.answer_callback_query, bind, api, pass, ret, next_ok.
  destruct (r_ok (hd default_reply (net w))); by eexists.
Qed.

(* --------------------------------------------------------------------- *)
(** ** Time labels (C5) *)
(* --------------------------------------------------------------------- *)

Section TimeLabels.
Import Utils ReportBot.
Context (cfg : config).

Lemma first_word_int_raises time_str e :
  first_word_int time_str = Raise e → e = ValueError ∨ e = IndexError.
Proof.
  unfold first_word_int, index.
  destruct (split time_str !! 0%nat) as [word|]; [|intros [= <-]; by right].
  destruct (int_of_str word); [done|intros [= <-]; by left].
Qed.

Lemma parse_time_ago_total time_str : ∃ n, parse_time_ago time_str = Ok n.
Proof.
  unfold parse_time_ago. case_bool_decide; [by eexists|].
  destruct (first_word_int time_str) as [n|e] eqn:E; [by eexists|].
  destruct (first_word_int_raises _ _ E) as [-> | ->]; by eexists.
Qed.

Lemma parse_time_ago_value time_str :
  parse_time_ago time_str
  = Ok (default 0 (head (split time_str) ≫= int_of_str)).
Proof.
  unfold parse_time_ago. case_bool_decide as Hnow; [by subst|].
  unfold first_word_int, index. rewrite <- head_lookup.
  destruct (head (split time_str)) as [word|]; simpl; [|done].
  by destruct (int_of_str word).
Qed.

Lemma check_state_passes call expected m w :
  c_message call = Some m →
  StateManager.get_state cfg (u_id (c_from_user call)) (db w)
  = VInt expected →
  _check_state cfg call expected w = (Ok true, w).
Proof.
  intros Hm Hs. unfold _check_state. rewrite Hm.
  unfold bind, get_state, db_read. rewrite Hs.
  by rewrite bool_decide_eq_true_2.
Qed.

Lemma select_time_stores call m w label n delta moment dict :
  let user_id := u_id (c_from_user call) in
  c_message call = Some m →
  StateManager.get_state cfg user_id (db w) = VInt (TIME (States cfg)) →
  split_on_max 95 1 (c_data call) !! 1%nat = Some label →
  parse_time_ago label = Ok n →
  Datetime.timedelta_minutes n = Ok delta →
  Datetime.sub (clock w + utc_offset w) delta = Ok moment →
  StateManager.get_data user_id (db w) = VDict dict →
  kept cfg user_id k_time (Some (SStr (Datetime.strftime_HM moment)))
    (VInt (ROUTE_CHOICE (States cfg))) (db (snd (_select_time cfg call w))).
Proof.
  intros user_id Hm Hs Hlabel Hn Hdelta Hmoment Hd.
  unfold _select_time, St.
  apply try_except_post; [|intros; apply db_inv_answer].
  unfold bind at 1. rewrite (check_state_passes _ _ _ _ Hm Hs). cbn [negb].
  unfold bind at 1, lift at 1, index. rewrite Hlabel.
  unfold bind at 1, lift at 1. rewrite Hn.
  unfold bind at 1, Datetime.now at 1.
  unfold bind at 1, lift at 1. rewrite Hdelta.
  unfold bind at 1, lift at 1. rewrite Hmoment.
  destruct (run_set_data cfg user_id k_time
              (SStr (Datetime.strftime_HM moment)) w dict Hd)
    as (d1 & Hrun & Hd1).
  unfold bind at 1. fold user_id. rewrite Hrun.
  unfold bind at 1, set_state at 1, db_write at 1.
  apply db_inv_bind; [apply db_inv_the_message|intros m'|].
  - apply db_inv_bind; [apply db_inv_delete_msg|intros _].
    apply db_inv_bind; [by apply db_inv_ask_route|intros _].
    apply db_inv_answer.
  - simpl. split.
    + rewrite set_state_answer. eapply set_data_answer, Hd1.
    + apply get_state_set_state.
Qed.

Lemma datetime_sub_minutes now n delta moment :
  Datetime.timedelta_minutes n = Ok delta →
  Datetime.sub now delta = Ok moment → moment = now - n * 60000.
Proof.
  unfold Datetime.timedelta_minutes, Datetime.sub.
  destruct (_ && _); [|done]. intros [= <-].
  destruct (_ && _); [|done]. by intros [= <-].
Qed.

(** The two steps of [datetime.now() - timedelta(minutes=n)] succeed
    exactly in the range of [datetime]. *)
Lemma minutes_before_in_range now n :
  in_datetime_range now n →
  Datetime.timedelta_minutes n = Ok (n * 60000)
  ∧ Datetime.sub now (n * 60000) = Ok (now - n * 60000).
Proof.
  intros [[H1 H2] [H3 H4]].
  unfold Datetime.timedelta_minutes, Datetime.sub. cbv zeta.
  rewrite (proj2 (Z.leb_le _ _) H1), (proj2 (Z.ltb_lt _ _) H2).
  rewrite (proj2 (Z.leb_le _ _) H3), (proj2 (Z.ltb_lt _ _) H4). done.
Qed.

Lemma minutes_before_out_of_range now n :
  ¬ in_datetime_range now n →
  Datetime.timedelta_minutes n = Raise OverflowError
  ∨ Datetime.timedelta_minutes n = Ok (n * 60000)
    ∧ Datetime.sub now (n * 60000) = Raise OverflowError.
Proof.
  intros Hout. unfold Datetime.timedelta_minutes, Datetime.sub. cbv zeta.
  destruct (Z.leb_spec (- Datetime.max_delta_days * Datetime.ms_per_day)
              (n * 60000)); [|by left].
  destruct (Z.ltb_spec (n * 60000)
              ((Datetime.max_delta_days + 1) * Datetime.ms_per_day));
    [|by left].
  right. split; [done|]. cbn [andb].
  destruct (Z.leb_spec 0 (now - n * 60000)); [|done].
  destruct (Z.ltb_spec (now - n * 60000)
              (Datetime.max_days * Datetime.ms_per_day)); [|done].
  destruct Hout. unfold in_datetime_range. lia.
Qed.

(** Out of that range the handler gives up before it writes: all it does
    is answer the press with the error text. *)
Lemma select_time_refuses call m w label n :
  let user_id := u_id (c_from_user call) in
  c_message call = Some m →
  StateManager.get_state cfg user_id (db w) = VInt (TIME (States cfg)) →
  split_on_max 95 1 (c_data call) !! 1%nat = Some label →
  parse_time_ago label = Ok n →
  ¬ in_datetime_range (clock w + utc_offset w) n →
  _select_time cfg call w
  = Bot.answer_callback_query (c_id call) (Some (py "❌ Ошибка")) w.
Proof.
  intros user_id Hm Hs Hlabel Hn Hout.
  unfold _select_time, St, try_except.
  unfold bind at 1. rewrite (check_state_passes _ _ _ _ Hm Hs). cbn [negb].
  unfold bind at 1, lift at 1, index. rewrite Hlabel.
  unfold bind at 1, lift at 1. rewrite Hn.
  unfold bind at 1, Datetime.now at 1.
  unfold bind at 1, lift at 1.
  destruct (minutes_before_out_of_range _ _ Hout) as [-> | [-> Hsub]];
    [done|].
  unfold bind at 1, lift at 1. by rewrite Hsub.
Qed.

(** C5, amended.  Parsing a time label is total.  ["Сейчас"] gives 0
    minutes, a label whose first word is an integer [n] gives [n], every
    other label gives 0.  When the time step receives a label of [n]
    minutes and the moment [n] minutes before now is in the range of
    [datetime], the time stored is that moment of the local clock,
    printed as hour:minute; otherwise nothing is stored and the press is
    answered with the error text. *)
Theorem time_label_parsing_total
  (call : callback_query) (m : message) (w : world) (label : pystr)
  (n : Z) (dict : gmap pystr scalar) :
  let user_id := u_id (c_from_user call) in
  let now := clock w + utc_offset w in
  let w' := snd (_select_time cfg call w) in
  c_message call = Some m →
  StateManager.get_state cfg user_id (db w) = VInt (TIME (States cfg)) →
  split_on_max 95 1 (c_data call) !! 1%nat = Some label →
  parse_time_ago label = Ok n →
  StateManager.get_data user_id (db w) = VDict dict →
  (∀ s, ∃ k, parse_time_ago s = Ok k)
  ∧ parse_time_ago (py "Сейчас") = Ok 0
  ∧ (∀ s word rest k,
       split s = word :: rest → int_of_str word = Some k →
       parse_time_ago s = Ok k)
  ∧ (∀ s, head (split s) ≫= int_of_str = None → parse_time_ago s = Ok 0)
  ∧ (in_datetime_range now n →
     answer user_id k_time (db w')
     = Some (SStr (Datetime.strftime_HM (now - n * 60000)))
     ∧ StateManager.get_state cfg user_id (db w')
       = VInt (ROUTE_CHOICE (States cfg)))
  ∧ (¬ in_datetime_range now n →
     db w' = db w
     ∧ trace w'
       = trace w
         ++ [Call (AnswerCallbackQuery (c_id call) (Some (py "❌ Ошибка")))
               (next_ok w)]).
Proof.
  intros user_id now w' Hm Hs Hlabel Hn Hd. subst w'. split_and!.
  - apply parse_time_ago_total.
  - reflexivity.
  - intros s word rest k Hsplit Hint.
    by rewrite parse_time_ago_value, Hsplit; simpl; rewrite Hint.
  - intros s Hnone. by rewrite parse_time_ago_value, Hnone.
  - intros Hin. destruct (minutes_before_in_range now n Hin) as [Hdelta Hsub].
    exact (select_time_stores call m w label n (n * 60000)
             (now - n * 60000) dict Hm Hs Hlabel Hn Hdelta Hsub Hd).
  - intros Hout.
    rewrite (select_time_refuses call m w label n Hm Hs Hlabel Hn Hout).
    destruct (answer_outcome (c_id call) (Some (py "❌ Ошибка")) w)
      as (w1 & -> & Hdb & _ & _ & Htr). done.
Qed.

End TimeLabels.

(** C5 as stated fails: a label that names more minutes than there are
    since the year 1 is parsed, 2000000000 minutes, but no time is stored
    for it.  The handler answers the press with the error text and the
    user stays at the time step with nothing recorded. *)
Lemma time_label_before_year_one_not_stored :
  let d := StateManager.set_state 0 7 6 empty_db in
  let w' := snd (ReportBot._select_time sample_config
                   (press_7 (py "time_2000000000 минут назад"))
                   (world_of d [])) in
  Utils.parse_time_ago (py "2000000000 минут назад") = Ok 2000000000
  ∧ answer 7 k_time (db w') = None
  ∧ StateManager.get_state sample_config 7 (db w') = VInt 6
  ∧ trace w'
    = [Call (AnswerCallbackQuery (py "cb1") (Some (py "❌ Ошибка"))) true].
Proof. cbv zeta. split_and!; vm_compute; reflexivity. Qed.

Lemma time_label_parsing_total_witness :
  let d := StateManager.set_state 0 7 6 empty_db in
  Utils.parse_time_ago (py "5 минут назад") = Ok 5
  ∧ Utils.parse_time_ago (py "давно") = Ok 0
  ∧ answer 7 k_time
      (db (snd (ReportBot._select_time sample_config
                  (press_7 (py "time_5 минут назад")) (world_of d []))))
    = Some (SStr (py "14:55")).
Proof.
  pose proof (time_label_parsing_total sample_config
                (press_7 (py "time_5 минут назад"))
                (from_7 (py "5️⃣ Время обнаружения:"))
                (world_of (StateManager.set_state 0 7 6 empty_db) [])
                (py "5 минут назад") 5 ∅
                eq_refl eq_refl eq_refl eq_refl eq_refl)
    as (_ & _ & Hint & Hzero & Hstored & _).
  split; [|split].
  - exact (Hint (py "5 минут назад") (py "5") [py "минут"; py "назад"] 5
             eq_refl eq_refl).
  - exact (Hzero (py "давно") eq_refl).
  - apply Hstored. unfold in_datetime_range. by vm_compute.
Defined.

(* --------------------------------------------------------------------- *)
(** ** Banned users at the entry points (C6) *)
(* --------------------------------------------------------------------- *)

Section BanEnforcement.
Import ReportBot.
Context (cfg : config).

(** C6. When a ban record exists for the sender, /start and the entry of
    the wizard are rejected: the only message attempted is the notice of
    the ban (followed, in the wizard, by the generic error message if the
    notice could not be delivered), and the store is left exactly as it
    was — no conversation record is created or changed. *)
Theorem banned_user_rejected (message : message) (w : world) :
  is_Some (banned_users (db w) !! u_id (m_from_user message)) →
  let notice :=
    SendMessage (m_chat_id message) blocked_text None None in
  let w1 := snd (_handle_start message w) in
  let w2 := snd (_start_report cfg message w) in
  db w1 = db w
  ∧ db w2 = db w
  ∧ (∃ ok, trace w1 = trace w ++ [Call notice ok])
  ∧ (∃ ok ok',
       trace w2
       = trace w
         ++ Call notice ok
            :: (if ok then []
                else [Call (SendMessage (m_chat_id message) error_text
                              None None) ok'])).
Proof.
  intros Hban notice w1 w2. subst w1 w2 notice.
  assert (Database.is_banned (u_id (m_from_user message)) (db w) = true)
    as Hb by by apply bool_decide_eq_true.
  unfold _handle_start, _start_report, try_except, bind,
    BanManager.is_banned, db_read.
  rewrite Hb. unfold Bot.send_message, bind, api.
  destruct (r_ok (hd default_reply (net w))) eqn:E1; cbn [fst snd db trace].
  - split_and!; [reflexivity|reflexivity|exists true|exists true, true];
      reflexivity.
  - unfold _error_msg, try_except, bind, Bot.send_message, bind, api.
    cbn [net trace db].
    destruct (r_ok (hd default_reply (tl (net w)))) eqn:E2;
      cbn [fst snd db trace].
    + split_and!; [reflexivity|reflexivity|exists false|exists false, true];
        [reflexivity|].
      rewrite <- app_assoc. reflexivity.
    + split_and!; [reflexivity|reflexivity|exists false|exists false, false];
        [reflexivity|].
      rewrite <- app_assoc. reflexivity.
Qed.

End BanEnforcement.

Lemma banned_user_rejected_witness :
  is_Some (banned_users banned_db !! 7)
  ∧ db (snd (ReportBot._start_report sample_config
               (from_7 (py "📨 Сообщить о вагоне")) (world_of banned_db [])))
    = banned_db
  ∧ Database.get_user_state 7
      (db (snd (ReportBot._start_report sample_config
                  (from_7 (py "📨 Сообщить о вагоне"))
                  (world_of banned_db []))))
    = None.
Proof.
  assert (is_Some (banned_users banned_db !! 7)) as Hb
    by (eexists; reflexivity).
  split; [exact Hb|].
  destruct (banned_user_rejected sample_config
              (from_7 (py "📨 Сообщить о вагоне")) (world_of banned_db [])
              Hb) as (_ & Hdb & _).
  split; [exact Hdb|].
  rewrite Hdb. reflexivity.
Defined.

(* --------------------------------------------------------------------- *)
(** ** Stepping through handlers; the history only grows *)
(* --------------------------------------------------------------------- *)

Lemma bind_ok {A B} (m : M A) (k : A → M B) w a w1 :
  m w = (Ok a, w1) → bind m k w = k a w1.
Proof. intros H. unfold bind. by rewrite H. Qed.

Lemma bind_raise {A B} (m : M A) (k : A → M B) w e w1 :
  m w = (Raise e, w1) → bind m k w = (Raise e, w1).
Proof. intros H. unfold bind. by rewrite H. Qed.

Lemma try_bind_ok {A B} (m : M A) (k : A → M B) h w a w1 :
  m w = (Ok a, w1) → try_except (bind m k) h w = try_except (k a) h w1.
Proof. intros H. unfold try_except. by rewrite (bind_ok _ _ _ _ _ H). Qed.

Lemma try_bind_raise {A B} (m : M A) (k : A → M B) h w e w1 :
  m w = (Raise e, w1) → try_except (bind m k) h w = h e w1.
Proof. intros H. unfold try_except. by rewrite (bind_raise _ _ _ _ _ H). Qed.

Section History.

Lemma grows_ret {A} (a : A) : grows (ret a).
Proof. intros w. exists []. by rewrite app_nil_r. Qed.

Lemma grows_raise {A} e : grows (@raise A e).
Proof. intros w. exists []. by rewrite app_nil_r. Qed.

Lemma grows_lift {A} (r : result A) : grows (lift r).
Proof. intros w. exists []. by rewrite app_nil_r. Qed.

Lemma grows_bind {A B} (m : M A) (k : A → M B) :
  grows m → (∀ a, grows (k a)) → grows (bind m k).
Proof.
  intros Hm Hk w. unfold bind. destruct (Hm w) as [evs Hevs].
  destruct (m w) as [[a|e] w1]; simpl in *; [|by exists evs].
  destruct (Hk a w1) as [evs' Hevs']. exists (evs ++ evs').
  by rewrite Hevs', Hevs, app_assoc.
Qed.

Lemma grows_try {A} (m : M A) (h : exn → M A) :
  grows m → (∀ e, grows (h e)) → grows (try_except m h).
Proof.
  intros Hm Hh w. unfold try_except. destruct (Hm w) as [evs Hevs].
  destruct (m w) as [[a|e] w1]; simpl in *; [by exists evs|].
  destruct (Hh e w1) as [evs' Hevs']. exists (evs ++ evs').
  by rewrite Hevs', Hevs, app_assoc.
Qed.

Lemma grows_api c : grows (api c).
Proof. intros w. eexists. apply api_trace. Qed.

Lemma grows_read {A} (f : database → A) : grows (db_read f).
Proof. intros w. exists []. by rewrite app_nil_r. Qed.

Lemma grows_write f : grows (db_write f).
Proof. intros w. exists []. by rewrite app_nil_r. Qed.

Lemma grows_db_try f : grows (db_try f).
Proof.
  intros w. exists []. unfold db_try.
  destruct (f _ _); by rewrite app_nil_r.
Qed.

Lemma grows_time_time : grows time_time.
Proof. intros w. exists []. by rewrite app_nil_r. Qed.

Lemma grows_sleep ms : grows (time_sleep ms).
Proof.
  intros w. unfold time_sleep. destruct (ms <? 0); simpl.
  - exists []. by rewrite app_nil_r.
  - by eexists.
Qed.

Lemma grows_set_rate_limiter rl : grows (Utils.set_rate_limiter rl).
Proof. intros w. exists []. by rewrite app_nil_r. Qed.

Lemma grows_get_rate_limiter : grows Utils.get_rate_limiter.
Proof. intros w. exists []. by rewrite app_nil_r. Qed.

Lemma grows_the_message call : grows (the_message call).
Proof. unfold the_message. destruct (c_message call); intros w; exists [];
  by rewrite app_nil_r. Qed.

Lemma grows_send chat text mk pm : grows (Bot.send_message chat text mk pm).
Proof. apply grows_bind; [apply grows_api|intros; apply grows_ret]. Qed.

Lemma grows_edit text chat mid : grows (Bot.edit_message_text text chat mid).
Proof. apply grows_bind; [apply grows_api|intros; apply grows_ret]. Qed.

Lemma grows_delete chat mid : grows (Bot.delete_message chat mid).
Proof. apply grows_bind; [apply grows_api|intros; apply grows_ret]. Qed.

Lemma grows_answer cid text : grows (Bot.answer_callback_query cid text).
Proof. apply grows_bind; [apply grows_api|intros; apply grows_ret]. Qed.

Lemma grows_elem {A} (m : M A) w ev :
  grows m → ev ∈ trace w → ev ∈ trace (snd (m w)).
Proof.
  intros Hm Hin. destruct (Hm w) as [evs ->]. apply elem_of_app. by left.
Qed.

End History.

Ltac grows_step :=
  first
    [ apply grows_ret | apply grows_raise | apply grows_lift
    | apply grows_api | apply grows_read | apply grows_write
    | apply grows_db_try | apply grows_time_time | apply grows_sleep
    | apply grows_set_rate_limiter | apply grows_get_rate_limiter
    | apply grows_the_message | apply grows_send | apply grows_edit
    | apply grows_delete | apply grows_answer
    | apply grows_bind; [|intros ?]
    | apply grows_try; [|intros ?]
    | match goal with
      | |- grows (if ?b then _ else _) => destruct b
      | |- grows (match ?x with _ => _ end) => destruct x
      end ].

Ltac grows_auto := repeat grows_step.

(* --------------------------------------------------------------------- *)
(** ** Publishing a report (C2) *)
(* --------------------------------------------------------------------- *)

Section Publish.
Import Utils ReportBot.
Context (cfg : config).

Lemma retry_returns {A} (func : M A) max_retries delay w a w1 :
  0 < max_retries → func w = (Ok a, w1) →
  retry_on_error max_retries delay func w = (Ok a, w1).
Proof.
  intros Hpos Hf. unfold retry_on_error, range.
  destruct (Z.to_nat max_retries) as [|k] eqn:E; [lia|]. simpl.
  unfold bind at 1, try_except at 1.
  by rewrite (bind_ok _ _ _ _ _ Hf).
Qed.

(** The policy of [retry_on_error(max_retries=3, delay=1.0)] on a call
    that raises when it fails: at most three attempts, a wait of 1 s after
    the first failure and of 2 s after the second, none after the third. *)
Lemma retry_policy c w :
  let ok1 := next_ok w in
  let ok2 := r_ok (hd default_reply (tl (net w))) in
  let ok3 := r_ok (hd default_reply (tl (tl (net w)))) in
  trace (snd (retry_on_error 3 1000 (api c) w))
  = trace w ++ retry_history c ok1 ok2 ok3.
Proof.
  intros ok1 ok2 ok3. subst ok1 ok2 ok3.
  unfold retry_on_error, next_ok, retry_history.
  change (range 3) with [0; 1; 2]. unfold retry_loop.
  change (0 <? 3 - 1) with true. change (1 <? 3 - 1) with true.
  change (2 <? 3 - 1) with false.
  change (1000 * 2 ^ 0) with 1000. change (1000 * 2 ^ 1) with 2000.
  unfold bind, try_except, api, ret, pass, raise, time_sleep.
  change (1000 <? 0) with false. change (2000 <? 0) with false.
  destruct (r_ok (hd default_reply (net w))); cbn [fst snd trace net];
    [done|].
  destruct (r_ok (hd default_reply (tl (net w)))); cbn [fst snd trace net];
    [by rewrite <- !app_assoc|].
  destruct (r_ok (hd default_reply (tl (tl (net w)))));
    cbn [fst snd trace net]; by rewrite <- !app_assoc.
Qed.

(** [_publish] catches whatever its body raises and returns. *)
Lemma publish_body_returns user_id chat user w :
  ∃ success w1,
    _publish_body cfg user_id chat user w = (Ok success, w1)
    ∧ db w1 = db w
    ∧ (∃ evs, trace w1 = trace w ++ evs)
    ∧ (∀ text,
         report_text cfg user (StateManager.get_data user_id (db w))
         = Ok text →
         success = next_ok w
         ∧ trace w1
           = trace w
             ++ [Call (SendMessage (CHANNEL_ID cfg) text None
                         (Some (py "HTML"))) (next_ok w)]).
Proof.
  unfold _publish_body, try_except, bind at 1, get_data, db_read.
  unfold bind at 1, lift.
  destruct (report_text cfg user _) as [text|e] eqn:E.
  - unfold bind, Bot.send_message, bind, api, ret, next_ok.
    destruct (r_ok (hd default_reply (net w))) eqn:Eok;
      eexists _, _; (split; [reflexivity|]); cbn [db trace];
      (split; [reflexivity|]); (split; [by eexists|]);
      intros text' [= <-]; done.
  - exists false, w. split; [reflexivity|]. split; [reflexivity|].
    split; [exists []; by rewrite app_nil_r|]. intros text' [=].
Qed.

Lemma publish_returns user_id chat user w :
  _publish cfg user_id chat user w = _publish_body cfg user_id chat user w.
Proof.
  destruct (publish_body_returns user_id chat user w)
    as (success & w1 & Hrun & _).
  unfold _publish. rewrite Hrun. by apply retry_returns.
Qed.

Lemma send_delivered chat text mk pm w :
  next_ok w = true →
  ∃ msg w1,
    Bot.send_message chat text mk pm w = (Ok msg, w1)
    ∧ db w1 = db w
    ∧ trace w1 = trace w ++ [Call (SendMessage chat text mk pm) true].
Proof.
  unfold next_ok. intros Hok.
  unfold Bot.send_message, bind, api, ret. rewrite Hok.
  eexists _, _. split; [reflexivity|]. by split.
Qed.

Lemma delete_guarded_returns chat mid w :
  ∃ w1,
    try_except (Bot.delete_message chat mid) (fun _ => pass) w = (Ok tt, w1)
    ∧ ∃ evs, trace w1 = trace w ++ evs.
Proof.
  unfold try_except, Bot.delete_message, bind, api, pass, ret.
  destruct (r_ok (hd default_reply (net w))); eexists; split;
    try reflexivity; by eexists.
Qed.

Lemma confirm_publish_clears call m w :
  let user_id := u_id (c_from_user call) in
  let attempt := _publish cfg user_id (m_chat_id m) (c_from_user call) w in
  let w' := snd (_confirm_action cfg call w) in
  c_message call = Some m →
  StateManager.get_state cfg user_id (db w) = VInt (CONFIRM (States cfg)) →
  c_data call = py "confirm_publish" →
  next_ok (snd attempt) = true →
  Database.get_user_state user_id (db w') = None
  ∧ ∃ success,
      fst attempt = Ok success
      ∧ Call (SendMessage (m_chat_id m)
                (if success then published_text else publish_failed_text)
                (if success then Some (ReplyKeyboardMarkup [[report_button]])
                 else None) None) true ∈ trace w'.
Proof.
  intros user_id attempt w' Hm Hs Hdata Hnext. subst w'.
  unfold _confirm_action, St.
  rewrite (try_bind_ok _ _ _ _ _ _ (check_state_passes cfg _ _ _ _ Hm Hs)).
  cbn [negb]. unfold the_message. rewrite Hm.
  rewrite (try_bind_ok _ _ _ _ m w eq_refl).
  rewrite bool_decide_eq_true_2 by done.
  destruct (publish_body_returns
              user_id (m_chat_id m) (c_from_user call) w)
    as (success & w1 & Hrun & _ & _ & _).
  rewrite <- publish_returns in Hrun. fold user_id.
  subst attempt. rewrite Hrun in Hnext |- *. cbn [fst snd] in *.
  set (notice :=
         SendMessage (m_chat_id m)
           (if success then published_text else publish_failed_text)
           (if success then Some (ReplyKeyboardMarkup [[report_button]])
            else None) None).
  assert (∃ w2,
            (success0 <- _publish cfg user_id (m_chat_id m)
                           (c_from_user call) ;;
             if success0
             then Bot.send_message (m_chat_id m) published_text
                    (Some (ReplyKeyboardMarkup [[report_button]])) None
                  ;;; pass
             else Bot.send_message (m_chat_id m) publish_failed_text
                    None None ;;; pass) w = (Ok tt, w2)
            ∧ trace w2 = trace w1 ++ [Call notice true])
    as (w2 & Hnotify & Htrace2).
  { rewrite (bind_ok _ _ _ _ _ Hrun). subst notice.
    destruct success;
      match goal with
      | |- context [Bot.send_message ?c ?t ?mk ?pm] =>
          destruct (send_delivered c t mk pm w1 Hnext)
            as (msg & w2 & Hsend & _ & Htr)
      end; exists w2; by rewrite (bind_ok _ _ _ _ _ Hsend). }
  rewrite (try_bind_ok _ _ _ _ _ _ Hnotify).
  destruct (delete_guarded_returns (m_chat_id m) (SInt (m_message_id m)) w2)
    as (w3 & Hdel & evs & Htrace3).
  rewrite (try_bind_ok _ _ _ _ _ _ Hdel).
  rewrite (try_bind_ok (clear_state user_id) _ _ w3 tt
             (set_db (StateManager.clear_state user_id (db w3)) w3) eq_refl).
  split.
  - apply try_except_post; [|intros; apply db_inv_answer].
    apply db_inv_answer. cbn [db set_db].
    unfold StateManager.clear_state, Database.get_user_state,
      Database.clear_user_state. simpl. by rewrite lookup_delete_eq.
  - exists success. split; [done|].
    apply grows_elem.
    + apply grows_try; [|intros]; apply grows_answer.
    + cbn [trace set_db]. rewrite Htrace3, Htrace2.
      rewrite !elem_of_app, list_elem_of_singleton. tauto.
Qed.

(** The decorator of [_publish] never comes into play: whatever happens,
    [_publish] returns after at most one call of the API, the delivery to
    the channel, without waiting, and its result is the outcome of that
    one call. *)
Lemma publish_single_attempt user_id chat user w :
  ∃ success w1,
    _publish cfg user_id chat user w = (Ok success, w1)
    ∧ db w1 = db w
    ∧ (success = false ∧ trace w1 = trace w
       ∨ ∃ text,
           trace w1
           = trace w
             ++ [Call (SendMessage (CHANNEL_ID cfg) text None
                         (Some (py "HTML"))) success]).
Proof.
  rewrite publish_returns.
  destruct (report_text cfg user (StateManager.get_data user_id (db w)))
    as [text|e] eqn:E.
  - destruct (publish_body_returns user_id chat user w)
      as (success & w1 & Hrun & Hdb & _ & Hsent).
    destruct (Hsent text E) as [-> Htr].
    exists (next_ok w), w1. split; [done|]. split; [done|].
    right. by exists text.
  - exists false, w. split; [|split; [done|by left]].
    unfold _publish_body, try_except, bind at 1, get_data, db_read.
    unfold bind at 1, lift. by rewrite E.
Qed.

End Publish.

(** C2 fails on the code.  [_publish] is decorated with
    [retry_on_error(max_retries=3, delay=1.0)], but its body catches every
    exception itself and returns [False], so the decorator never sees a
    failure: for every input [_publish] makes at most one attempt to
    deliver the report and never waits.  On a transport that fails the
    first call and would deliver every later one, the confirmation makes
    one attempt, does not wait and tells the submitter that the
    publication failed, where the same decorator around the bare delivery
    waits 1 s and delivers at the second attempt.  And when the report is
    published but the notice to the submitter is not delivered, the
    handler leaves before [clear_state]: the record of the user stays at
    the confirmation step. *)
Theorem publish_failure_is_not_retried :
  (∀ cfg user_id chat_id user w,
     ∃ success w1,
       ReportBot._publish cfg user_id chat_id user w = (Ok success, w1)
       ∧ db w1 = db w
       ∧ (success = false ∧ trace w1 = trace w
          ∨ ∃ text,
              trace w1
              = trace w
                ++ [Call (SendMessage (CHANNEL_ID cfg) text None
                            (Some (py "HTML"))) success]))
  ∧ (let w := world_of confirm_db [failed 0] in
     let w' := snd (ReportBot._confirm_action sample_config confirm_7 w) in
     ∃ report,
       ReportBot.report_text sample_config (c_from_user confirm_7)
         (StateManager.get_data 7 confirm_db) = Ok report
       ∧ trace w'
         = [Call (SendMessage (-1001) report None (Some (py "HTML"))) false;
            Call (SendMessage 7 ReportBot.publish_failed_text None None)
              true;
            Call (DeleteMessage 7 (SInt 70)) true;
            Call (AnswerCallbackQuery (py "cb1") None) true]
       ∧ Database.get_user_state 7 (db w') = None
       ∧ trace (snd (Utils.retry_on_error 3 1000
                       (api (SendMessage (-1001) report None
                               (Some (py "HTML")))) w))
         = [Call (SendMessage (-1001) report None (Some (py "HTML"))) false;
            Sleep 1000;
            Call (SendMessage (-1001) report None (Some (py "HTML"))) true])
  ∧ (let w := world_of confirm_db [delivered 0; failed 0] in
     let w' := snd (ReportBot._confirm_action sample_config confirm_7 w) in
     ∃ report,
       ReportBot.report_text sample_config (c_from_user confirm_7)
         (StateManager.get_data 7 confirm_db) = Ok report
       ∧ trace w'
         = [Call (SendMessage (-1001) report None (Some (py "HTML"))) true;
            Call (SendMessage 7 ReportBot.published_text
                    (Some (ReplyKeyboardMarkup [[ReportBot.report_button]]))
                    None) false;
            Call (AnswerCallbackQuery (py "cb1") (Some (py "❌ Ошибка")))
              true]
       ∧ StateManager.get_state sample_config 7 (db w') = VInt 10
       ∧ db w' = confirm_db).
Proof.
  split; [|split].
  - intros cfg user_id chat_id user w. apply publish_single_attempt.
  - cbv zeta. eexists. vm_compute. split_and!; reflexivity.
  - cbv zeta. eexists. vm_compute. split_and!; reflexivity.
Qed.

(* --------------------------------------------------------------------- *)
(** ** The broadcast (C1) *)
(* --------------------------------------------------------------------- *)

Section Broadcast.
Import Utils GongManager.
Context (cfg : config).

Lemma sends_app evs evs' : sends (evs ++ evs') = sends evs ++ sends evs'.
Proof. apply omap_app. Qed.

Lemma count_ok_app b l l' : count_ok b (l ++ l') = count_ok b l + count_ok b l'.
Proof. unfold count_ok. rewrite filter_app, length_app. lia. Qed.

Lemma count_ok_total l :
  count_ok true l + count_ok false l = Z.of_nat (length l).
Proof.
  unfold count_ok. induction l as [|[u [|]] t IH]; [done| |];
    rewrite !filter_cons; simpl; lia.
Qed.

(** One call of [wait_if_needed]: it returns; it touches neither store nor
    transport; below the limit it only counts, at the limit it sleeps for
    the rest of the window if the window is not over, and starts a new
    window. *)
Lemma wait_if_needed_spec w :
  let rl := rate_limiter w in
  let count := message_count rl + 1 in
  let elapsed := clock w - period_start rl in
  ∃ w1,
    wait_if_needed w = (Ok tt, w1)
    ∧ db w1 = db w ∧ net w1 = net w
    ∧ messages_per_period (rate_limiter w1) = messages_per_period rl
    ∧ period_seconds (rate_limiter w1) = period_seconds rl
    ∧ (if messages_per_period rl <=? count then
         message_count (rate_limiter w1) = 0
         ∧ period_start (rate_limiter w1) = clock w1
         ∧ (if elapsed <? period_seconds rl then
              trace w1 = trace w ++ [Sleep (period_seconds rl - elapsed)]
              ∧ clock w1 = clock w + (period_seconds rl - elapsed)
            else trace w1 = trace w ∧ clock w1 = clock w)
       else
         message_count (rate_limiter w1) = count
         ∧ period_start (rate_limiter w1) = period_start rl
         ∧ trace w1 = trace w ∧ clock w1 = clock w).
Proof.
  intros rl count elapsed. subst rl count elapsed.
  unfold wait_if_needed, bind, get_rate_limiter, set_rate_limiter, time_time,
    pass, ret.
  simpl.
  destruct (messages_per_period (rate_limiter w)
            <=? message_count (rate_limiter w) + 1); [|by eexists].
  destruct (Z.ltb_spec (clock w - period_start (rate_limiter w))
              (period_seconds (rate_limiter w))) as [Hlt|Hge].
  - unfold time_sleep. simpl.
    rewrite (proj2 (Z.ltb_lt _ _) Hlt).
    rewrite (proj2 (Z.ltb_ge _ 0)) by lia.
    simpl. by eexists.
  - simpl. rewrite (proj2 (Z.ltb_ge _ _) Hge). simpl. by eexists.
Qed.

Lemma send_outcome chat text mk pm w :
  ∃ w1,
    Bot.send_message chat text mk pm w
    = (if next_ok w then Ok (r_message_id (hd default_reply (net w)))
       else Raise ApiException, w1)
    ∧ trace w1 = trace w ++ [Call (SendMessage chat text mk pm) (next_ok w)]
    ∧ rate_limiter w1 = rate_limiter w.
Proof.
  unfold Bot.send_message, bind, api, ret, next_ok.
  destruct (r_ok (hd default_reply (net w))); by eexists.
Qed.

(** The progress report of a round never stops the round. *)
Lemma progress_guarded m total i success_count fail_count w :
  ∃ w1 evs,
    (if i mod 50 =? 0 then
       try_except
         (Bot.edit_message_text
            (progress_text i total success_count fail_count)
            (m_chat_id m) (m_message_id m))
         (fun _ => pass)
     else pass) w = (Ok tt, w1)
    ∧ trace w1 = trace w ++ evs
    ∧ sends evs = []
    ∧ rate_limiter w1 = rate_limiter w.
Proof.
  destruct (i mod 50 =? 0).
  - unfold try_except, Bot.edit_message_text, bind, api, pass, ret.
    destruct (r_ok (hd default_reply (net w))); by eexists _, [_].
  - exists w, []. by rewrite app_nil_r.
Qed.

(** One round of the loop: it returns, it makes one send attempt, to the
    recipient of the round, and counts it as delivered or failed. *)
Lemma gong_round_spec m text total i user_id s f w :
  ∃ w1 evs (ok : bool),
    gong_round m text total i user_id (s, f) w
    = (Ok (if ok then (s + 1, f) else (s, f + 1)), w1)
    ∧ trace w1 = trace w ++ evs
    ∧ sends evs = [(user_id, ok)]
    ∧ messages_per_period (rate_limiter w1)
      = messages_per_period (rate_limiter w)
    ∧ period_seconds (rate_limiter w1) = period_seconds (rate_limiter w)
    ∧ (message_count (rate_limiter w) + 1
       < messages_per_period (rate_limiter w) →
       message_count (rate_limiter w1) = message_count (rate_limiter w) + 1
       ∧ period_start (rate_limiter w1) = period_start (rate_limiter w))
    ∧ (messages_per_period (rate_limiter w)
       ≤ message_count (rate_limiter w) + 1 →
       clock w - period_start (rate_limiter w)
       < period_seconds (rate_limiter w) →
       ∃ ms, Sleep ms ∈ evs).
Proof.
  destruct (wait_if_needed_spec w)
    as (w0 & Hwait & _ & _ & Hmpp & Hper & Hcase).
  unfold gong_round. cbn [fst snd].
  rewrite (try_bind_ok _ _ _ _ _ _ Hwait).
  assert (∃ pre, trace w0 = trace w ++ pre ∧ sends pre = []
                 ∧ (messages_per_period (rate_limiter w)
                    ≤ message_count (rate_limiter w) + 1 →
                    clock w - period_start (rate_limiter w)
                    < period_seconds (rate_limiter w) →
                    ∃ ms, Sleep ms ∈ pre)) as (pre & Hpre & Hnone & Hsleep).
  { destruct (Z.leb_spec (messages_per_period (rate_limiter w))
                (message_count (rate_limiter w) + 1)) as [Hle|Hgt].
    - destruct Hcase as (_ & _ & Hcase).
      destruct (Z.ltb_spec (clock w - period_start (rate_limiter w))
                  (period_seconds (rate_limiter w))) as [Hlt|Hge].
      + destruct Hcase as [Htr _]. eexists. split; [exact Htr|].
        split; [done|]. intros _ _. eexists. by apply list_elem_of_singleton.
      + destruct Hcase as [Htr _]. exists []. rewrite app_nil_r.
        split; [done|]. split; [done|]. lia.
    - destruct Hcase as (_ & _ & Htr & _). exists []. rewrite app_nil_r.
      split; [done|]. split; [done|]. lia. }
  assert (message_count (rate_limiter w) + 1
          < messages_per_period (rate_limiter w) →
          message_count (rate_limiter w0) = message_count (rate_limiter w) + 1
          ∧ period_start (rate_limiter w0) = period_start (rate_limiter w))
    as Hquiet.
  { intros Hlt.
    destruct (Z.leb_spec (messages_per_period (rate_limiter w))
                (message_count (rate_limiter w) + 1)); [lia|].
    by destruct Hcase as (? & ? & _). }
  destruct (send_outcome user_id text None None w0)
    as (w2 & Hsend & Htr2 & Hrl2).
  destruct (next_ok w0) eqn:Eok.
  - rewrite (try_bind_ok _ _ _ _ _ _ Hsend).
    destruct (progress_guarded m total i (s + 1) f w2)
      as (w3 & evs3 & Hprog & Htr3 & Hnone3 & Hrl3).
    rewrite (try_bind_ok _ _ _ _ _ _ Hprog).
    exists w3, (pre ++ [Call (SendMessage user_id text None None) true]
                ++ evs3), true.
    split; [reflexivity|].
    split; [by rewrite Htr3, Htr2, Hpre, <- !app_assoc|].
    split; [by rewrite !sends_app, Hnone, Hnone3|].
    rewrite Hrl3, Hrl2. split; [done|]. split; [done|]. split; [done|].
    intros H1 H2. destruct (Hsleep H1 H2) as [ms Hms]. exists ms.
    apply elem_of_app. by left.
  - rewrite (try_bind_raise _ _ _ _ _ _ Hsend).
    exists w2, (pre ++ [Call (SendMessage user_id text None None) false]),
      false.
    split; [reflexivity|].
    split; [by rewrite Htr2, Hpre, <- !app_assoc|].
    split; [by rewrite !sends_app, Hnone|].
    rewrite Hrl2. split; [done|]. split; [done|]. split; [done|].
    intros H1 H2. destruct (Hsleep H1 H2) as [ms Hms]. exists ms.
    apply elem_of_app. by left.
Qed.

Lemma gong_loop_cons m text total user_id rest i counts w c' w1 :
  gong_round m text total i user_id counts w = (Ok c', w1) →
  gong_loop m text total (user_id :: rest) i counts w
  = gong_loop m text total rest (i + 1) c' w1.
Proof. intros H. simpl. by rewrite (bind_ok _ _ _ _ _ H). Qed.

(** The loop returns for every list of recipients and every behaviour of
    the transport; its send attempts are the recipients, in order, and its
    counters count the delivered and the failed ones. *)
Lemma gong_loop_spec m text total l :
  ∀ i s f w,
    ∃ w1 evs,
      gong_loop m text total l i (s, f) w
      = (Ok (s + count_ok true (sends evs),
             f + count_ok false (sends evs)), w1)
      ∧ trace w1 = trace w ++ evs
      ∧ map fst (sends evs) = l
      ∧ messages_per_period (rate_limiter w1)
        = messages_per_period (rate_limiter w)
      ∧ period_seconds (rate_limiter w1) = period_seconds (rate_limiter w).
Proof.
  induction l as [|user_id rest IH]; intros i s f w.
  - exists w, []. simpl. unfold ret, count_ok. simpl.
    by rewrite !Z.add_0_r, app_nil_r.
  - destruct (gong_round_spec m text total i user_id s f w)
      as (w1 & evs1 & ok & Hround & Htr1 & Hsends1 & Hmpp1 & Hper1 & _).
    rewrite (gong_loop_cons _ _ _ _ _ _ _ _ _ _ Hround).
    destruct ok.
    + destruct (IH (i + 1) (s + 1) f w1)
        as (w2 & evs2 & Hloop & Htr2 & Hsends2 & Hmpp2 & Hper2).
      exists w2, (evs1 ++ evs2). rewrite Hloop, sends_app, Hsends1.
      split; [|split; [by rewrite Htr2, Htr1, app_assoc|]].
      * rewrite !count_ok_app.
        change (count_ok true [(user_id, true)]) with 1.
        change (count_ok false [(user_id, true)]) with 0.
        f_equal. f_equal. f_equal; lia.
      * simpl. rewrite Hsends2. split; [done|]. split; congruence.
    + destruct (IH (i + 1) s (f + 1) w1)
        as (w2 & evs2 & Hloop & Htr2 & Hsends2 & Hmpp2 & Hper2).
      exists w2, (evs1 ++ evs2). rewrite Hloop, sends_app, Hsends1.
      split; [|split; [by rewrite Htr2, Htr1, app_assoc|]].
      * rewrite !count_ok_app.
        change (count_ok true [(user_id, false)]) with 0.
        change (count_ok false [(user_id, false)]) with 1.
        f_equal. f_equal. f_equal; lia.
      * simpl. rewrite Hsends2. split; [done|]. split; congruence.
Qed.

(** While the counter stays below the limit the window is not touched. *)
Lemma gong_loop_quiet m text total l :
  ∀ i counts w,
    message_count (rate_limiter w) + Z.of_nat (length l)
    < messages_per_period (rate_limiter w) →
    let w1 := snd (gong_loop m text total l i counts w) in
    message_count (rate_limiter w1)
    = message_count (rate_limiter w) + Z.of_nat (length l)
    ∧ period_start (rate_limiter w1) = period_start (rate_limiter w)
    ∧ messages_per_period (rate_limiter w1)
      = messages_per_period (rate_limiter w)
    ∧ period_seconds (rate_limiter w1) = period_seconds (rate_limiter w).
Proof.
  induction l as [|user_id rest IH]; intros i [s f] w Hlt.
  - simpl. split; [lia|done].
  - destruct (gong_round_spec m text total i user_id s f w)
      as (w1 & evs1 & ok & Hround & _ & _ & Hmpp1 & Hper1 & Hquiet & _).
    rewrite (gong_loop_cons _ _ _ _ _ _ _ _ _ _ Hround).
    simpl length in Hlt.
    destruct Hquiet as [Hcount Hstart]; [lia|].
    specialize (IH (i + 1) (if ok then (s + 1, f) else (s, f + 1)) w1).
    destruct IH as (Hc & Hs & Hm & Hp); [lia|].
    cbv zeta. simpl length.
    rewrite Hc, Hs, Hm, Hp, Hcount, Hstart, Hmpp1, Hper1.
    split; [lia|done].
Qed.

Lemma gong_loop_app m text total l1 l2 :
  ∀ i counts w,
    gong_loop m text total (l1 ++ l2) i counts w
    = (counts' <- gong_loop m text total l1 i counts ;;
       gong_loop m text total l2 (i + Z.of_nat (length l1)) counts') w.
Proof.
  induction l1 as [|user_id rest IH]; intros i [s f] w.
  - simpl. unfold bind, ret. by rewrite Z.add_0_r.
  - destruct (gong_round_spec m text total i user_id s f w)
      as (w1 & evs1 & ok & Hround & _).
    simpl app. rewrite (gong_loop_cons _ _ _ _ _ _ _ _ _ _ Hround), IH.
    unfold bind.
    rewrite (gong_loop_cons _ _ _ _ _ _ _ _ _ _ Hround).
    simpl length. by replace (i + 1 + Z.of_nat (length rest))
      with (i + Z.of_nat (S (length rest))) by lia.
Qed.

(** The pause: when the limiter reaches its limit at attempt [K] before the
    window of [W] is over, the run sleeps. *)
Lemma gong_loop_pauses m text total l w :
  let K := messages_per_period (rate_limiter w) in
  let w_pre :=
    snd (gong_loop m text total (take (Z.to_nat (K - 1)) l) 1 (0, 0) w) in
  message_count (rate_limiter w) = 0 →
  1 ≤ K ≤ Z.of_nat (length l) →
  clock w_pre - period_start (rate_limiter w)
  < period_seconds (rate_limiter w) →
  ∃ ms evs,
    trace (snd (gong_loop m text total l 1 (0, 0) w)) = trace w ++ evs
    ∧ Sleep ms ∈ evs.
Proof.
  intros K w_pre Hzero HK Helapsed.
  subst w_pre.
  remember (take (Z.to_nat (K - 1)) l) as l1 eqn:Hl1.
  assert (length l1 = Z.to_nat (K - 1)) as Hlen1
    by (subst l1; rewrite length_take; lia).
  destruct (drop (Z.to_nat (K - 1)) l) as [|user_id rest] eqn:Hdrop.
  { apply (f_equal length) in Hdrop. rewrite length_drop in Hdrop.
    simpl in Hdrop. lia. }
  assert (l = l1 ++ user_id :: rest) as Hl
    by (subst l1; by rewrite <- Hdrop, take_drop).
  rewrite Hl. assert (1 ≤ K) as HK1 by lia. clear Hl Hl1 Hdrop HK l.
  set (w_pre := snd (gong_loop m text total l1 1 (0, 0) w)) in *.
  rewrite gong_loop_app.
  destruct (gong_loop_spec m text total l1 1 0 0 w)
    as (w1 & evs1 & Hloop1 & Htr1 & _).
  destruct (gong_loop_quiet m text total l1 1 (0, 0) w)
    as (Hcount & Hstart & Hmpp & Hper); [fold K; lia|].
  fold w_pre in Hcount, Hstart, Hmpp, Hper.
  assert (w_pre = w1) as Hw by (subst w_pre; by rewrite Hloop1).
  rewrite (bind_ok _ _ _ _ _ Hloop1).
  match goal with
  | |- context [gong_loop m text total (user_id :: rest) ?i (?s, ?f) w1] =>
      destruct (gong_round_spec m text total i user_id s f w1)
        as (w2 & evs2 & ok & Hround & Htr2 & _ & _ & _ & _ & Hsleep);
      rewrite (gong_loop_cons _ _ _ _ _ _ _ _ _ _ Hround);
      destruct (gong_loop_spec m text total rest (i + 1)
                  (fst (if ok then (s + 1, f) else (s, f + 1)))
                  (snd (if ok then (s + 1, f) else (s, f + 1))) w2)
        as (w3 & evs3 & Hloop3 & Htr3 & _)
  end.
  rewrite <- surjective_pairing in Hloop3. rewrite Hloop3. cbn [snd].
  rewrite <- Hw in Hsleep.
  destruct Hsleep as [ms Hms].
  - rewrite Hmpp, Hcount, Hzero, Hlen1. fold K. lia.
  - by rewrite Hstart, Hper.
  - exists ms, (evs1 ++ evs2 ++ evs3).
    split; [by rewrite Htr3, Htr2, Htr1, <- !app_assoc|].
    rewrite !elem_of_app. tauto.
Qed.

Lemma edit_outcome text chat mid w :
  ∃ w1,
    Bot.edit_message_text text chat mid w
    = (if next_ok w then Ok tt else Raise ApiException, w1)
    ∧ trace w1 = trace w ++ [Call (EditMessageText text chat mid) (next_ok w)].
Proof.
  unfold Bot.edit_message_text, bind, api, pass, ret, next_ok.
  destruct (r_ok (hd default_reply (net w))); by eexists.
Qed.

(** C1, amended.  One run of the broadcast over [all_users] makes exactly
    one send attempt per recipient, in the order of the list, whatever
    the transport does with each of them; the report it then sends counts
    the delivered and the failed attempts, and the two counts add up to
    the number of recipients.  With a limit of [K >= 1] messages per
    window of [W] and at least [K] recipients, the run pauses at least
    once provided attempt [K] is reached before the first window is
    over. *)
Theorem broadcast_attempts_every_recipient
  (m : message) (text : pystr) (all_users : list Z) (w : world) :
  let total := Z.of_nat (length all_users) in
  let K := GONG_RATE_LIMIT cfg in
  let W := GONG_DELAY cfg in
  let w' := snd (dispatch cfg m text all_users w) in
  let w_pre :=
    snd (gong_loop m text total (take (Z.to_nat (K - 1)) all_users) 1 (0, 0)
           (snd (RateLimiter_init K W w))) in
  ∃ evs s f ok,
    trace w'
    = trace w ++ evs
      ++ [Call (EditMessageText (result_text total s f)
                  (m_chat_id m) (m_message_id m)) ok]
    ∧ map fst (sends evs) = all_users
    ∧ s = count_ok true (sends evs)
    ∧ f = count_ok false (sends evs)
    ∧ s + f = total
    ∧ (1 ≤ K ≤ total → clock w_pre - clock w < W →
       ∃ ms, Sleep ms ∈ evs).
Proof.
  intros total K W w' w_pre. subst w'. unfold dispatch. fold total K W.
  set (w0 := snd (RateLimiter_init K W w)) in *.
  assert (RateLimiter_init K W w = (Ok tt, w0)) as Hinit by reflexivity.
  assert (trace w0 = trace w) as Htr0 by reflexivity.
  rewrite (bind_ok _ _ _ _ _ Hinit).
  destruct (gong_loop_spec m text total all_users 1 0 0 w0)
    as (w1 & evs & Hloop & Htr1 & Hsends & _).
  rewrite (bind_ok _ _ _ _ _ Hloop). cbn [fst snd]. rewrite !Z.add_0_l.
  destruct (edit_outcome
              (result_text total (count_ok true (sends evs))
                 (count_ok false (sends evs)))
              (m_chat_id m) (m_message_id m) w1) as (w2 & Hedit & Htr2).
  exists evs, (count_ok true (sends evs)), (count_ok false (sends evs)),
    (next_ok w1).
  split.
  { unfold bind. rewrite Hedit.
    destruct (next_ok w1); unfold ret; cbn [snd];
      by rewrite Htr2, Htr1, Htr0, app_assoc. }
  split; [done|]. split; [done|]. split; [done|]. split.
  { rewrite count_ok_total. subst total. rewrite <- Hsends.
    by rewrite length_map. }
  intros HK Helapsed.
  destruct (gong_loop_pauses m text total all_users w0)
    as (ms & evs' & Htr' & Hms); [done|done|done|].
  exists ms. rewrite Hloop in Htr'. cbn [snd] in Htr'.
  rewrite Htr1 in Htr'. by apply app_inv_head in Htr' as ->.
Qed.

End Broadcast.

(** C1 as stated fails: with a limit of 2 messages per second and 3
    recipients the run does not pause when the transport takes 5 seconds
    for each message — at the second attempt the window is already
    over. *)
Lemma slow_broadcast_never_pauses :
  let w' := snd (GongManager.dispatch sample_config gong_prompt
                   (py "Внимание") [11; 12; 13]
                   (world_of empty_db
                      [delivered 5000; delivered 5000; delivered 5000])) in
  GONG_RATE_LIMIT sample_config = 2
  ∧ (Z.of_nat (length [11; 12; 13]) > GONG_RATE_LIMIT sample_config)
  ∧ sends (trace w') = [(11, true); (12, true); (13, true)]
  ∧ filter is_sleep (trace w') = [].
Proof. vm_compute. done. Qed.

Lemma broadcast_attempts_every_recipient_witness :
  let w' := snd (GongManager.dispatch sample_config gong_prompt
                   (py "Внимание") [11; 12; 13]
                   (world_of empty_db [delivered 0; failed 0; delivered 0])) in
  (∃ ms, Sleep ms ∈ trace w')
  ∧ sends (trace w') = [(11, true); (12, false); (13, true)]
  ∧ filter is_sleep (trace w') = [Sleep 1000].
Proof.
  destruct (broadcast_attempts_every_recipient sample_config gong_prompt
              (py "Внимание") [11; 12; 13]
              (world_of empty_db [delivered 0; failed 0; delivered 0]))
    as (evs & s & f & ok & Htrace & _ & _ & _ & _ & Hpause).
  split.
  - destruct Hpause as [ms Hms];
      [vm_compute; split; discriminate | vm_compute; reflexivity |].
    exists ms. rewrite Htrace. simpl. apply elem_of_app. by left.
  - vm_compute. split; reflexivity.
Defined.

(* ===================================================================== *)
(** * Further properties of the code *)
(* ===================================================================== *)

(* --------------------------------------------------------------------- *)
(** ** state_manager.py: writes and reads *)
(* --------------------------------------------------------------------- *)

Section EngineWrites.
Import Database StateManager.
Context (cfg : config).

Lemma update_data_inv now user_id updates d d' :
  update_data cfg now user_id updates d = Ok d' →
  ∃ dict, get_data user_id d = VDict dict
          ∧ d' = set_user_state now user_id
                   (<[k_data := VDict (updates ∪ dict)]>
                      (working_record cfg user_id d)) d.
Proof.
  unfold update_data. fold (working_record cfg user_id d).
  rewrite working_record_data.
  destruct (get_data user_id d) as [| |dict]; try discriminate.
  intros [= <-]. by exists dict.
Qed.

Lemma get_data_no_record user_id d :
  get_user_state user_id d = None → get_data user_id d = VDict ∅.
Proof. intros H. by rewrite get_data_unfold, H. Qed.

Lemma working_record_no_record user_id d :
  get_user_state user_id d = None →
  working_record cfg user_id d = fresh_record cfg.
Proof.
  intros H. unfold working_record. rewrite H. simpl.
  unfold ensure_data, fresh_record. by rewrite lookup_insert_eq.
Qed.

(** X1. [set_data] is a read-modify-write of one answer: when it returns,
    the answer under [key] is [value], every other answer and the step of
    the user are as before, and the records of other users are untouched.
    For a user without a record it creates one at [IDLE] whose only answer
    is the new one. *)
Theorem set_data_read_after_write
  (now user_id : Z) (key : pystr) (value : scalar) (d d' : database) :
  set_data cfg now user_id key value d = Ok d' →
  answer user_id key d' = Some value
  ∧ (∀ key', key' ≠ key → answer user_id key' d' = answer user_id key' d)
  ∧ get_state cfg user_id d' = get_state cfg user_id d
  ∧ (∀ other, other ≠ user_id →
       get_user_state other d' = get_user_state other d)
  ∧ (get_user_state user_id d = None →
     get_data user_id d' = VDict {[ key := value ]}
     ∧ get_state cfg user_id d' = VInt (IDLE (States cfg))).
Proof.
  intros Hset. split_and!.
  - eapply set_data_answer, Hset.
  - intros key' Hne. eapply set_data_answer_ne; [|exact Hset]. done.
  - eapply set_data_state, Hset.
  - intros other Hne. apply set_data_inv in Hset as (dict & _ & ->).
    by apply get_user_state_set_ne.
  - intros Hnone. pose proof Hset as Hset'.
    apply set_data_inv in Hset' as (dict & Hd & ->).
    rewrite get_data_no_record in Hd by done. injection Hd as <-.
    rewrite get_data_after_set, get_state_after_set.
    rewrite lookup_insert_eq, lookup_insert_ne by discriminate.
    rewrite working_record_no_record by done. split; [done|].
    unfold fresh_record. rewrite lookup_insert_ne by discriminate.
    by rewrite lookup_insert_eq.
Qed.

(** X2. [update_data] merges a dictionary of answers into the record: the
    answers it names take the new values, the others and the step stay;
    merging a single answer is [set_data]. *)
Theorem update_data_merges
  (now user_id : Z) (updates : gmap pystr scalar) (d d' : database) :
  update_data cfg now user_id updates d = Ok d' →
  (∀ key, answer user_id key d'
          = match updates !! key with
            | Some v => Some v
            | None => answer user_id key d
            end)
  ∧ get_state cfg user_id d' = get_state cfg user_id d
  ∧ (∀ other, other ≠ user_id →
       get_user_state other d' = get_user_state other d)
  ∧ (∀ key value,
       updates = {[ key := value ]} →
       set_data cfg now user_id key value d = Ok d').
Proof.
  intros Hupd. pose proof Hupd as Hinv.
  apply update_data_inv in Hinv as (dict & Hd & ->). split_and!.
  - intros key. unfold answer.
    rewrite get_data_after_set, lookup_insert_eq, Hd. simpl.
    rewrite lookup_union. destruct (updates !! key), (dict !! key); done.
  - rewrite get_state_after_set, lookup_insert_ne by discriminate.
    apply working_record_state.
  - intros other Hne. by apply get_user_state_set_ne.
  - intros key value ->. rewrite (set_data_ok cfg _ _ _ _ _ _ Hd).
    by rewrite (insert_union_singleton_l dict).
Qed.

(** X3. [clear_state] deletes the record: the user reads as [IDLE] with no
    answers, and clearing again changes nothing.  [reset_state] also
    brings the step back to [IDLE] but keeps the record and its answers.
    Neither touches the record of another user. *)
Theorem clear_forgets_reset_keeps
  (now user_id other : Z) (d : database) :
  get_user_state user_id (clear_state user_id d) = None
  ∧ get_state cfg user_id (clear_state user_id d) = VInt (IDLE (States cfg))
  ∧ get_data user_id (clear_state user_id d) = VDict ∅
  ∧ clear_state user_id (clear_state user_id d) = clear_state user_id d
  ∧ get_state cfg user_id (reset_state cfg now user_id d)
    = VInt (IDLE (States cfg))
  ∧ get_data user_id (reset_state cfg now user_id d) = get_data user_id d
  ∧ is_Some (get_user_state user_id (reset_state cfg now user_id d))
  ∧ (other ≠ user_id →
     get_user_state other (clear_state user_id d) = get_user_state other d
     ∧ get_user_state other (reset_state cfg now user_id d)
       = get_user_state other d).
Proof.
  assert (get_user_state user_id (clear_state user_id d) = None) as Hnone.
  { unfold clear_state, clear_user_state, get_user_state. simpl.
    by rewrite lookup_delete_eq. }
  split_and!.
  - done.
  - by rewrite get_state_unfold, Hnone.
  - by rewrite get_data_unfold, Hnone.
  - unfold clear_state, clear_user_state, with_states. simpl.
    by rewrite delete_delete_eq.
  - apply get_state_set_state.
  - apply get_data_set_state.
  - unfold reset_state. rewrite set_state_record. by eexists.
  - intros Hne. split.
    + unfold clear_state, clear_user_state, get_user_state. simpl.
      by rewrite lookup_delete_ne.
    + unfold reset_state, set_state. by apply get_user_state_set_ne.
Qed.

Lemma wf_record_insert_state sd z :
  wf_record sd → wf_record (<[k_state := VInt z]> sd).
Proof.
  intros Hwf v. rewrite lookup_insert_ne by discriminate. apply Hwf.
Qed.

Lemma wf_record_insert_data sd dict :
  wf_record (<[k_data := VDict dict]> sd).
Proof. intros v. rewrite lookup_insert_eq. intros [= <-]. by eexists. Qed.

Lemma wf_db_set now user_id sd d :
  wf_record sd → wf_db d → wf_db (set_user_state now user_id sd d).
Proof.
  intros Hsd Hd u sd'. destruct (decide (user_id = u)) as [->|Hne].
  - rewrite get_user_state_set. by intros [= <-].
  - rewrite get_user_state_set_ne by done. apply Hd.
Qed.

Lemma wf_db_get_data user_id d :
  wf_db d → ∃ dict, get_data user_id d = VDict dict.
Proof.
  intros Hwf. rewrite get_data_unfold.
  destruct (get_user_state user_id d) as [sd|] eqn:E; simpl; [|by eexists].
  destruct (sd !! k_data) as [v|] eqn:Ev; simpl; [|by eexists].
  by apply (Hwf _ _ E).
Qed.

Lemma wf_db_set_state now user_id state d :
  wf_db d → wf_db (set_state now user_id state d).
Proof.
  intros Hwf. unfold set_state. apply wf_db_set; [|done].
  apply wf_record_insert_state. rewrite or_dict_empty.
  destruct (get_user_state user_id d) as [sd|] eqn:E; simpl.
  - by apply (Hwf _ _ E).
  - intros v. by rewrite lookup_empty.
Qed.

Lemma wf_db_filter now minutes d :
  wf_db d → wf_db (cleanup_old_states now minutes d).
Proof.
  intros Hwf u sd. unfold cleanup_old_states.
  destruct (minutes <? 0); [apply Hwf|].
  unfold get_user_state. simpl. intros H.
  apply fmap_Some in H as (row & Hrow & ->).
  apply map_lookup_filter_Some in Hrow as [Hrow _].
  apply (Hwf u). unfold get_user_state. by rewrite Hrow.
Qed.

Lemma wf_db_clear user_id d : wf_db d → wf_db (clear_state user_id d).
Proof.
  intros Hwf u sd. unfold clear_state, clear_user_state, get_user_state.
  simpl. intros H. apply fmap_Some in H as (row & Hrow & ->).
  apply lookup_delete_Some in Hrow as [_ Hrow].
  apply (Hwf u). unfold get_user_state. by rewrite Hrow.
Qed.

Lemma run_op_wf now op d :
  wf_db d → ∃ d', run_op cfg now op d = Ok d' ∧ wf_db d'.
Proof.
  intros Hwf. destruct op as [u s|u k v|u m|u|u|minutes]; simpl.
  - eexists. split; [done|]. by apply wf_db_set_state.
  - destruct (wf_db_get_data u d Hwf) as [dict Hd].
    rewrite (set_data_ok cfg _ _ _ _ _ _ Hd). eexists. split; [done|].
    apply wf_db_set; [apply wf_record_insert_data|done].
  - destruct (wf_db_get_data u d Hwf) as [dict Hd].
    unfold update_data. fold (working_record cfg u d).
    rewrite working_record_data, Hd. eexists. split; [done|].
    apply wf_db_set; [apply wf_record_insert_data|done].
  - eexists. split; [done|]. by apply wf_db_clear.
  - eexists. split; [done|]. by apply wf_db_set_state.
  - eexists. split; [done|]. by apply wf_db_filter.
Qed.

(** X4. The state engine never fails on records it wrote itself.  A store
    whose records keep a dictionary under ['data'] stays so under every
    history of [set_state], [set_data], [update_data], [clear_state],
    [reset_state] and sweeps, and no operation of the history raises: the
    [TypeError] of [set_data] and the [AttributeError] of [update_data]
    need a record that some other writer damaged. *)
Theorem engine_never_raises_on_its_own_records
  (ops : list (Z * engine_op)) (d : database) :
  wf_db d → ∃ d', run_ops cfg ops d = Ok d' ∧ wf_db d'.
Proof.
  revert d. induction ops as [|[now op] rest IH]; intros d Hwf; simpl.
  - by exists d.
  - destruct (run_op_wf now op d Hwf) as (d1 & -> & Hwf1). by apply IH.
Qed.

(** The failures themselves: on a record whose ['data'] is not a
    dictionary both writers raise and leave the store as it is. *)
Lemma writers_raise_on_damaged_record now user_id key value updates d v :
  get_data user_id d = v → (∀ dict, v ≠ VDict dict) →
  set_data cfg now user_id key value d = Raise TypeError
  ∧ update_data cfg now user_id updates d = Raise AttributeError.
Proof.
  intros Hd Hv. unfold set_data, update_data.
  fold (working_record cfg user_id d). rewrite working_record_data, Hd.
  destruct v as [| |dict]; try done. by destruct (Hv dict).
Qed.

End EngineWrites.

Lemma wf_db_empty : wf_db empty_db.
Proof. intros u sd. unfold Database.get_user_state. simpl.
  by rewrite lookup_empty. Qed.

Lemma set_data_read_after_write_witness :
  ∃ d',
    StateManager.set_data sample_config 5 7 k_line (SStr (py "1")) empty_db
    = Ok d'
    ∧ answer 7 k_line d' = Some (SStr (py "1"))
    ∧ StateManager.get_state sample_config 7 d' = VInt 0.
Proof.
  eexists. split; [reflexivity|].
  destruct (set_data_read_after_write sample_config 5 7 k_line
              (SStr (py "1")) empty_db _ eq_refl)
    as (Ha & _ & _ & _ & Hnew).
  split; [exact Ha|]. exact (proj2 (Hnew eq_refl)).
Defined.

Lemma update_data_merges_witness :
  ∃ d',
    StateManager.update_data sample_config 5 7
      {[ k_line := SStr (py "1") ]} empty_db = Ok d'
    ∧ answer 7 k_line d' = Some (SStr (py "1"))
    ∧ StateManager.set_data sample_config 5 7 k_line (SStr (py "1"))
        empty_db = Ok d'.
Proof.
  eexists. split; [reflexivity|].
  destruct (update_data_merges sample_config 5 7
              {[ k_line := SStr (py "1") ]} empty_db _ eq_refl)
    as (Ha & _ & _ & Hset).
  split; [exact (Ha k_line)|]. exact (Hset k_line (SStr (py "1")) eq_refl).
Defined.

Lemma engine_never_raises_on_its_own_records_witness :
  ∃ d',
    run_ops sample_config
      [(1, OpSetState 7 1); (2, OpUpdateData 7 {[ k_line := SStr (py "1") ]});
       (3, OpSetData 7 k_train (SStr (py "ЭКА"))); (4, OpResetState 7);
       (5, OpSweep 30); (6, OpClearState 7);
       (7, OpSetData 7 k_route (SStr (py "-")))] empty_db = Ok d'
    ∧ wf_db d'.
Proof.
  exact (engine_never_raises_on_its_own_records sample_config _ empty_db
           wf_db_empty).
Defined.

(* --------------------------------------------------------------------- *)
(** ** database.py: bans, users, names, the reference list, the sweep *)
(* --------------------------------------------------------------------- *)

Section Tables.
Import Database.

(** X5. [ban_user] and [unban_user] act on one user.  For an id that
    fits 64 bits both return, and after a ban the user is banned, after
    an unban not; the ban status of everybody else and the other tables
    are untouched; banning again replaces the record (one ban per user,
    with the latest reason); unbanning a user who was not banned, or
    banning and then unbanning such a user, leaves the table of bans as
    it was.  For any other id both raise OverflowError. *)
Theorem ban_unban_round_trip
  (now now' user_id other : Z) (why why' : pystr) (d : database) :
  (int64 user_id = false →
   ban_user now user_id why d = Raise OverflowError
   ∧ unban_user user_id d = Raise OverflowError)
  ∧ (int64 user_id = true →
     ∃ banned unbanned,
       ban_user now user_id why d = Ok banned
       ∧ unban_user user_id d = Ok unbanned
       ∧ is_banned user_id banned = true
       ∧ is_banned user_id unbanned = false
       ∧ (other ≠ user_id →
          is_banned other banned = is_banned other d
          ∧ is_banned other unbanned = is_banned other d)
       ∧ (∃ twice once,
            ban_user now' user_id why' banned = Ok twice
            ∧ ban_user now' user_id why' d = Ok once
            ∧ banned_users twice = banned_users once)
       ∧ (is_banned user_id d = false →
          unbanned = d ∧ unban_user user_id banned = Ok d)
       ∧ users banned = users d
       ∧ user_states banned = user_states d
       ∧ users unbanned = users d
       ∧ user_states unbanned = user_states d).
Proof.
  unfold ban_user, unban_user. split; intros ->; [done|].
  eexists _, _. split; [reflexivity|]. split; [reflexivity|].
  unfold is_banned, with_banned. simpl. split_and!; try done.
  - apply bool_decide_eq_true. rewrite lookup_insert_eq. by eexists.
  - apply bool_decide_eq_false. rewrite lookup_delete_eq. by intros [? ?].
  - intros Hne. split; apply bool_decide_ext.
    + by rewrite lookup_insert_ne.
    + by rewrite lookup_delete_ne.
  - eexists _, _. split; [reflexivity|]. split; [reflexivity|]. simpl.
    by rewrite insert_insert_eq.
  - intros Hnot. apply bool_decide_eq_false in Hnot.
    assert (banned_users d !! user_id = None) as Hnone.
    { destruct (banned_users d !! user_id) eqn:E; [|done].
      destruct Hnot. by eexists. }
    destruct d as [us bs ss ts seq]. simpl in *. split; repeat f_equal.
    + by apply delete_id.
    + by rewrite delete_insert_eq, delete_id.
Qed.

Lemma elem_of_user_ids d u :
  u ∈ get_all_user_ids d ↔ is_Some (users d !! u).
Proof.
  unfold get_all_user_ids. rewrite list_elem_of_fmap. split.
  - intros ([k v] & -> & Hin). apply elem_of_scan in Hin. by exists v.
  - intros [v Hv]. exists (u, v). split; [done|]. by apply elem_of_scan.
Qed.

Lemma NoDup_user_ids d : NoDup (get_all_user_ids d).
Proof.
  unfold get_all_user_ids, scan.
  change (map fst (merge_sort rowid_le (map_to_list (users d))))
    with ((merge_sort rowid_le (map_to_list (users d))).*1).
  rewrite merge_sort_Permutation. apply NoDup_fst_map_to_list.
Qed.

(** X6. [add_user] is an upsert.  The row of the user holds the handle
    and the name of the latest sighting (and its time); the rows of other
    users, the bans and the conversations are untouched.  The list of
    recipients [get_all_user_ids] holds exactly the users of the table,
    each once, so sighting a user again does not make them a recipient
    twice. *)
Theorem add_user_upserts
  (now user_id : Z) (uname fname : option pystr) (d : database) :
  let d' := add_user now user_id uname fname d in
  get_user_info user_id d'
  = Some {| username := uname; first_name := fname; created_at := now |}
  ∧ (∀ other, other ≠ user_id →
       get_user_info other d' = get_user_info other d)
  ∧ (∀ u, u ∈ get_all_user_ids d' ↔ u = user_id ∨ u ∈ get_all_user_ids d)
  ∧ NoDup (get_all_user_ids d')
  ∧ banned_users d' = banned_users d
  ∧ user_states d' = user_states d.
Proof.
  intros d'. subst d'. split_and!; try done.
  - unfold get_user_info, add_user. simpl. by rewrite lookup_insert_eq.
  - intros other Hne. unfold get_user_info, add_user. simpl.
    by rewrite lookup_insert_ne.
  - intros u. rewrite !elem_of_user_ids. unfold add_user. simpl.
    destruct (decide (user_id = u)) as [->|Hne].
    + rewrite lookup_insert_eq. split; [by left|by eexists].
    + rewrite lookup_insert_ne by done. split; [by right|].
      by intros [->|?].
  - apply NoDup_user_ids.
Qed.

Lemma nocase_eq_trans a b c :
  nocase_eq a b = true → nocase_eq b c = true → nocase_eq a c = true.
Proof.
  unfold nocase_eq. intros H1 H2.
  apply bool_decide_eq_true in H1, H2. apply bool_decide_eq_true. congruence.
Qed.

Lemma find_pointwise {A} (f g : A → bool) (l : list A) :
  (∀ x, f x = g x) → find f l = find g l.
Proof.
  intros Hfg. induction l as [|x t IH]; [done|]. simpl.
  by rewrite Hfg, IH.
Qed.

Lemma nocase_eq_sym a b : nocase_eq a b = nocase_eq b a.
Proof. unfold nocase_eq. by apply bool_decide_ext. Qed.

(** X7. The lookup of a user by handle ignores the case of ASCII letters
    and is exact about the table: an id it returns is a user whose handle
    matches, it returns none only when no handle matches, and two
    spellings of a handle that differ in case only give the same
    answer. *)
Theorem username_lookup_sound_and_complete
  (uname uname' : pystr) (d : database) :
  (∀ user_id,
     get_user_id_by_username uname d = Some user_id →
     ∃ row handle,
       users d !! user_id = Some row ∧ username row = Some handle
       ∧ nocase_eq handle uname = true)
  ∧ (get_user_id_by_username uname d = None ↔
     ∀ user_id row handle,
       users d !! user_id = Some row → username row = Some handle →
       nocase_eq handle uname = false)
  ∧ (nocase_eq uname uname' = true →
     get_user_id_by_username uname' d = get_user_id_by_username uname d).
Proof.
  unfold get_user_id_by_username. split_and!.
  - intros user_id H. apply fmap_Some in H as ([k row] & Hfind & ->).
    apply find_some in Hfind as [Hin Hmatch].
    apply list_elem_of_In, elem_of_scan in Hin. simpl in *.
    destruct (username row) as [handle|] eqn:E; [|done]. by exists row, handle.
  - rewrite fmap_None. split.
    + intros Hnone user_id row handle Hrow Hname.
      pose proof (find_none _ _ Hnone (user_id, row)) as H. simpl in H.
      rewrite Hname in H. apply H, list_elem_of_In, elem_of_scan, Hrow.
    + intros Hall. destruct (find _ _) as [[k row]|] eqn:Hfind; [|done].
      apply find_some in Hfind as [Hin Hmatch].
      apply list_elem_of_In, elem_of_scan in Hin. simpl in *.
      destruct (username row) as [handle|] eqn:E; [|done].
      by rewrite (Hall k row handle Hin E) in Hmatch.
  - intros Hcase. f_equal. apply find_pointwise. intros [k row]. simpl.
    destruct (username row) as [handle|]; [|done].
    destruct (nocase_eq handle uname) eqn:E1.
    + by rewrite (nocase_eq_trans _ _ _ E1 Hcase).
    + destruct (nocase_eq handle uname') eqn:E2; [|done].
      rewrite nocase_eq_sym in Hcase.
      by rewrite (nocase_eq_trans _ _ _ E2 Hcase) in E1.
Qed.

End Tables.

Lemma username_lookup_sound_and_complete_witness :
  let d := Database.add_user 10 7 (Some (py "Rider")) (Some (py "Иван"))
             empty_db in
  Database.get_user_id_by_username (py "rider") d = Some 7
  ∧ Database.get_user_id_by_username (py "RIDER") d = Some 7
  ∧ Database.get_user_id_by_username (py "raider") d = None.
Proof.
  destruct (username_lookup_sound_and_complete (py "rider") (py "RIDER")
              (Database.add_user 10 7 (Some (py "Rider")) (Some (py "Иван"))
                 empty_db)) as (_ & _ & Hcase).
  split; [reflexivity|]. split; [|reflexivity].
  rewrite (Hcase eq_refl). reflexivity.
Defined.

Section TrainsTable.
Import Database.

Lemma insert_train_present d name :
  name ∈ map snd (trains d) →
  insert_train d name
  = {| users := users d; banned_users := banned_users d;
       user_states := user_states d; trains := trains d;
       trains_seq := trains_seq d + 1 |}.
Proof. intros H. unfold insert_train. by rewrite bool_decide_eq_true_2. Qed.

(** Names, ids and the counter of the table while rows are inserted. *)
Lemma insert_all_rows l :
  ∀ d,
    let d' := fold_left insert_train l d in
    map snd (trains d')
    = map snd (trains d)
      ++ first_occurrences (filter (fun x => x ∉ map snd (trains d)) l)
    ∧ trains_seq d ≤ trains_seq d'
    ∧ (∃ new, trains d' = trains d ++ new
              ∧ Forall (fun r => trains_seq d < fst r ≤ trains_seq d') new
              ∧ NoDup (map fst new))
    ∧ users d' = users d ∧ banned_users d' = banned_users d
    ∧ user_states d' = user_states d.
Proof.
  induction l as [|x t IH]; intros d; cbv zeta.
  - simpl. rewrite app_nil_r. split; [done|]. split; [lia|].
    split; [|done]. exists []. rewrite app_nil_r. split; [done|].
    split; constructor.
  - simpl fold_left. rewrite filter_cons.
    destruct (decide (x ∈ map snd (trains d))) as [Hin|Hnin].
    + rewrite decide_False by tauto.
      destruct (IH (insert_train d x))
        as (Hnames & Hseq & (new & Hrows & Hids & Hnd) & Hu & Hb & Hs).
      rewrite insert_train_present in Hnames, Hseq, Hrows, Hids, Hu, Hb, Hs
        by done.
      rewrite insert_train_present by done. simpl in *.
      split_and!; try done; [lia|].
      exists new. split; [done|]. split; [|done].
      eapply Forall_impl; [exact Hids|]. simpl. intros r. lia.
    + rewrite decide_True by done.
      assert (insert_train d x
              = {| users := users d; banned_users := banned_users d;
                   user_states := user_states d;
                   trains := trains d ++ [(trains_seq d + 1, x)];
                   trains_seq := trains_seq d + 1 |}) as Hins
        by (unfold insert_train; by rewrite bool_decide_eq_false_2).
      destruct (IH (insert_train d x))
        as (Hnames & Hseq & (new & Hrows & Hids & Hnd) & Hu & Hb & Hs).
      rewrite Hins in Hnames, Hseq, Hrows, Hids, Hu, Hb, Hs.
      rewrite Hins. simpl in *.
      split_and!; try done; [|lia|].
      * rewrite Hnames, map_app, <- app_assoc. simpl. do 2 f_equal.
        rewrite <- (first_occurrences_filter (fun y => y ≠ x)). f_equal.
        rewrite list_filter_filter. apply list_filter_iff. intros y.
        rewrite elem_of_app, list_elem_of_singleton. tauto.
      * exists ((trains_seq d + 1, x) :: new). rewrite Hrows, <- app_assoc.
        split; [done|]. split.
        -- constructor; [simpl; lia|].
           eapply Forall_impl; [exact Hids|]. simpl. intros r. lia.
        -- simpl. constructor; [|done]. intros Hin.
           apply list_elem_of_fmap in Hin as (r & Hr & Hin).
           rewrite Forall_forall in Hids. specialize (Hids r Hin). lia.
Qed.

(** X8. [set_trains] replaces the list wholesale and the table enforces
    uniqueness by itself: whatever list it is given, the rows afterwards
    are the first occurrences of its entries, in that order, under ids
    that are new and distinct (the counter is never set back); the other
    tables are untouched.  [get_trains] reads the names back without
    duplicates, in ascending order of their code points. *)
Theorem set_trains_replaces_and_deduplicates
  (l : list pystr) (d : database) :
  let d' := set_trains l d in
  map snd (trains d') = first_occurrences l
  ∧ NoDup (map fst (trains d'))
  ∧ Forall (fun r => trains_seq d < fst r ≤ trains_seq d') (trains d')
  ∧ get_trains d' ≡ₚ first_occurrences l
  ∧ Sorted str_le (get_trains d')
  ∧ NoDup (get_trains d')
  ∧ (∀ x, x ∈ get_trains d' ↔ x ∈ l)
  ∧ users d' = users d ∧ banned_users d' = banned_users d
  ∧ user_states d' = user_states d.
Proof.
  intros d'. subst d'. unfold set_trains.
  match goal with
  | |- context [fold_left insert_train l ?d0] =>
      destruct (insert_all_rows l d0)
        as (Hnames & Hseq & (new & Hrows & Hids & Hnd) & Hu & Hb & Hs)
  end.
  simpl in *.
  match type of Hnames with
  | _ = first_occurrences ?f =>
      replace f with l in Hnames
        by (clear; induction l as [|x t IH]; [done|];
            rewrite filter_cons_True by apply not_elem_of_nil;
            by f_equal)
  end.
  assert (get_trains (fold_left insert_train l
                        {| users := users d; banned_users := banned_users d;
                           user_states := user_states d; trains := [];
                           trains_seq := trains_seq d |})
          ≡ₚ first_occurrences l) as Hperm.
  { unfold get_trains. by rewrite merge_sort_Permutation, Hnames. }
  split_and!; try done.
  - by rewrite Hrows.
  - by rewrite Hrows.
  - apply (Sorted_merge_sort str_le (Total0:=str_le_total)).
  - rewrite Hperm. apply NoDup_first_occurrences.
  - intros x. rewrite Hperm. apply elem_of_first_occurrences.
Qed.

End TrainsTable.

Section SweepAgain.
Import Database.

(** X9. The sweep only deletes: every record left by it was there before,
    unchanged.  Sweeping twice at the same time is sweeping once, and a
    record written in the second of the sweep survives it, for every
    timeout that is not negative. *)
Theorem sweep_only_deletes_and_spares_fresh_writes
  (now minutes user_id : Z) (sd : gmap pystr pyval) (d : database) :
  0 ≤ minutes →
  user_states (cleanup_old_states now minutes d) ⊆ user_states d
  ∧ cleanup_old_states now minutes (cleanup_old_states now minutes d)
    = cleanup_old_states now minutes d
  ∧ get_user_state user_id
      (cleanup_old_states now minutes (set_user_state now user_id sd d))
    = Some sd.
Proof.
  intros Hm. split_and!.
  - unfold cleanup_old_states. destruct (minutes <? 0); [done|].
    apply map_filter_subseteq.
  - unfold cleanup_old_states. destruct (minutes <? 0) eqn:E; [done|].
    unfold with_states. simpl. f_equal.
    apply map_filter_filter_l. by intros i x _ H.
  - unfold get_user_state. rewrite cleanup_lookup by done.
    unfold set_user_state. simpl. rewrite lookup_insert_eq. simpl.
    rewrite bool_decide_eq_false_2; [done|]. simpl. lia.
Qed.

End SweepAgain.

Lemma sweep_only_deletes_and_spares_fresh_writes_witness :
  Database.get_user_state 7
    (Database.cleanup_old_states 3660 0
       (Database.set_user_state 3660 7 {[ k_state := VInt 6 ]} sweep_db))
  = Some {[ k_state := VInt 6 ]}.
Proof.
  exact (proj2 (proj2 (sweep_only_deletes_and_spares_fresh_writes 3660 0 7
                         {[ k_state := VInt 6 ]} sweep_db
                         ltac:(lia)))).
Defined.

(* --------------------------------------------------------------------- *)
(** ** utils.py: escaping, validation, retries, the rate limiter *)
(* --------------------------------------------------------------------- *)

Section Escaping.
Import Utils.

Lemma escape_char_cases c :
  (c = 38 ∧ escape_char c = [38; 97; 109; 112; 59])
  ∨ (c = 60 ∧ escape_char c = [38; 108; 116; 59])
  ∨ (c = 62 ∧ escape_char c = [38; 103; 116; 59])
  ∨ (c = 34 ∧ escape_char c = [38; 113; 117; 111; 116; 59])
  ∨ (c = 39 ∧ escape_char c = [38; 35; 120; 50; 55; 59])
  ∨ (c ≠ 38 ∧ ¬ markup_char c ∧ escape_char c = [c]).
Proof.
  unfold escape_char, markup_char.
  destruct (Z.eqb_spec c 38) as [->|?]; [left; split; [done|by vm_compute]|].
  destruct (Z.eqb_spec c 60) as [->|?];
    [right; left; split; [done|by vm_compute]|].
  destruct (Z.eqb_spec c 62) as [->|?];
    [do 2 right; left; split; [done|by vm_compute]|].
  destruct (Z.eqb_spec c 34) as [->|?];
    [do 3 right; left; split; [done|by vm_compute]|].
  destruct (Z.eqb_spec c 39) as [->|?];
    [do 4 right; left; split; [done|by vm_compute]|].
  do 5 right. split; [done|]. split; [lia|done].
Qed.

Lemma html_escape_cons c s :
  html_escape (c :: s) = escape_char c ++ html_escape s.
Proof. done. Qed.

Lemma html_escape_injective s1 :
  ∀ s2, html_escape s1 = html_escape s2 → s1 = s2.
Proof.
  induction s1 as [|c1 s1 IH]; intros [|c2 s2].
  - done.
  - rewrite html_escape_cons. intros H. exfalso.
    destruct (escape_char_cases c2)
      as [[_ E]|[[_ E]|[[_ E]|[[_ E]|[[_ E]|(_ & _ & E)]]]]];
      rewrite E in H; discriminate H.
  - rewrite html_escape_cons. intros H. exfalso.
    destruct (escape_char_cases c1)
      as [[_ E]|[[_ E]|[[_ E]|[[_ E]|[[_ E]|(_ & _ & E)]]]]];
      rewrite E in H; discriminate H.
  - rewrite !html_escape_cons. intros H.
    assert (c1 = c2 ∧ html_escape s1 = html_escape s2) as [-> H'].
    { unfold markup_char in *.
      destruct (escape_char_cases c1)
        as [[-> E1]|[[-> E1]|[[-> E1]|[[-> E1]|[[-> E1]|(? & ? & E1)]]]]];
        destruct (escape_char_cases c2)
          as [[-> E2]|[[-> E2]|[[-> E2]|[[-> E2]|[[-> E2]|(? & ? & E2)]]]]];
        rewrite ?E1, ?E2 in H; simpl in H;
        first [ discriminate H
              | by injection H
              | injection H as ? ?; subst; exfalso; lia
              | injection H as ? ?; subst; done ]. }
    f_equal. by apply IH.
Qed.

(** X10. [safe_html] leaves no character that opens or closes markup in
    its output ([<], [>], and both quotes), whatever it is given; a text
    without these and without [&] is left as it is; and escaping loses
    nothing: different texts have different escapings. *)
Theorem safe_html_leaves_no_markup (text : scalar) :
  Forall (fun c => ¬ markup_char c) (safe_html text)
  ∧ (Forall (fun c => c ≠ 38 ∧ ¬ markup_char c) (str_of_scalar text) →
     html_escape (str_of_scalar text) = str_of_scalar text)
  ∧ (∀ s1 s2, html_escape s1 = html_escape s2 → s1 = s2).
Proof.
  split_and!.
  - unfold safe_html. destruct (truthy _); [|constructor].
    generalize (str_of_scalar text). intros s.
    induction s as [|c s IH]; [constructor|].
    rewrite html_escape_cons. apply Forall_app. split; [|done].
    unfold markup_char.
    destruct (escape_char_cases c)
      as [[_ E]|[[_ E]|[[_ E]|[[_ E]|[[_ E]|(_ & Hc & E)]]]]];
      rewrite E; repeat constructor; try lia; done.
  - generalize (str_of_scalar text). intros s.
    induction 1 as [|c s [Hamp Hc] _ IH]; [done|].
    rewrite html_escape_cons, IH.
    destruct (escape_char_cases c)
      as [[? _]|[[-> _]|[[-> _]|[[-> _]|[[-> _]|(_ & _ & E)]]]]];
      [done|exfalso; apply Hc; unfold markup_char; lia..|by rewrite E].
  - intros s1 s2. apply html_escape_injective.
Qed.

Lemma safe_html_leaves_no_markup_witness :
  html_escape (py "Bolt") = py "Bolt".
Proof.
  apply (proj1 (proj2 (safe_html_leaves_no_markup (SStr (py "Bolt"))))).
  vm_compute. repeat constructor; unfold markup_char; lia.
Defined.

Lemma lstrip_all_space s :
  forallb isspace_char (lstrip s) = forallb isspace_char s.
Proof.
  induction s as [|c s IH]; [done|]. simpl.
  destruct (isspace_char c) eqn:E; [done|]. simpl. by rewrite E.
Qed.

Lemma lstrip_nil s : lstrip s = [] ↔ forallb isspace_char s = true.
Proof.
  induction s as [|c s IH]; [done|]. simpl.
  destruct (isspace_char c); [done|]. split; discriminate.
Qed.

Lemma forallb_rev {A} (f : A → bool) l : forallb f (rev l) = forallb f l.
Proof.
  induction l as [|x l IH]; [done|]. simpl.
  rewrite forallb_app, IH. simpl. rewrite andb_true_r. apply andb_comm.
Qed.

Lemma strip_nil s : strip s = [] ↔ forallb isspace_char s = true.
Proof.
  unfold strip, rstrip. rewrite <- lstrip_all_space.
  rewrite <- (forallb_rev _ (lstrip s)), <- lstrip_nil.
  split; intros H.
  - apply (f_equal (@rev Z)) in H. by rewrite rev_involutive in H.
  - by rewrite H.
Qed.

Lemma validate_text_length_verdict
  (text : pystr) (max_length : Z) (field_name : pystr) :
  fst (validate_text_length text max_length field_name)
  = existsb (fun c => negb (isspace_char c)) text
    && (len text <=? max_length).
Proof.
  assert (existsb (fun c => negb (isspace_char c)) text
          = negb (forallb isspace_char text)) as Hex.
  { induction text as [|c t IH]; [done|]. simpl. rewrite IH.
    by destruct (isspace_char c). }
  unfold validate_text_length. rewrite Hex.
  destruct (forallb isspace_char text) eqn:Hall.
  - assert (strip text = []) as Hs by by apply strip_nil.
    rewrite (bool_decide_eq_true_2 (strip text = [])) by done.
    by rewrite orb_true_r.
  - assert (strip text ≠ []) as Hs.
    { intros H. apply strip_nil in H. congruence. }
    assert (text ≠ []) as Ht by (intros ->; discriminate).
    rewrite !bool_decide_eq_false_2 by done. simpl.
    rewrite Z.leb_antisym. by destruct (max_length <? len text).
Qed.

(** X11. [validate_text_length] accepts a text exactly when it has a
    character that is not white space and is no longer than the limit;
    when it refuses, it gives a message. *)
Theorem text_accepted_iff_visible_and_short
  (text : pystr) (max_length : Z) (field_name : pystr) :
  (validate_text_length text max_length field_name = (true, None)
   ↔ existsb (fun c => negb (isspace_char c)) text = true
     ∧ len text ≤ max_length)
  ∧ (fst (validate_text_length text max_length field_name) = false →
     is_Some (snd (validate_text_length text max_length field_name))).
Proof.
  pose proof (validate_text_length_verdict text max_length field_name)
    as Hfst.
  assert (fst (validate_text_length text max_length field_name) = true →
          validate_text_length text max_length field_name = (true, None))
    as Hnone.
  { unfold validate_text_length.
    destruct (_ || _); [discriminate|].
    destruct (max_length <? len text); [discriminate|done]. }
  split.
  - rewrite <- Z.leb_le, <- andb_true_iff, <- Hfst. split.
    + by intros ->.
    + exact Hnone.
  - unfold validate_text_length.
    destruct (_ || _); [by eexists|].
    destruct (max_length <? len text); [by eexists|discriminate].
Qed.

End Escaping.

Section Retries.
Import Utils.

Lemma retry_loop_all_fail c max_retries delay :
  0 ≤ delay →
  ∀ m k last w,
    (m ≤ length (net w))%nat →
    Forall (fun r => r_ok r = false) (take m (net w)) →
    ∃ w',
      retry_loop max_retries delay (api c) (map Z.of_nat (seq k m)) last w
      = (Raise (match m with
                | O => default TypeError last
                | S _ => ApiException
                end), w')
      ∧ trace w'
        = trace w
          ++ flat_map (attempt_events c max_retries delay)
               (map Z.of_nat (seq k m))
      ∧ db w' = db w ∧ net w' = drop m (net w).
Proof.
  intros Hdelay. induction m as [|m IH]; intros k last w Hlen Hfail.
  - exists w. simpl. rewrite app_nil_r. split_and!; try done.
    by destruct last.
  - destruct (net w) as [|r rest] eqn:Hnet; [simpl in Hlen; lia|].
    simpl in Hlen. rewrite firstn_cons in Hfail.
    apply Forall_cons in Hfail as [Hr Hfail].
    set (w1 := {| db := db w; clock := clock w + Z.max 0 (r_took r);
                  utc_offset := utc_offset w; net := rest;
                  trace := trace w ++ [Call c false];
                  rate_limiter := rate_limiter w;
                  waiting_for_text := waiting_for_text w;
                  editing_users := editing_users w |}).
    assert (api c w = (Raise ApiException, w1)) as Hapi.
    { unfold api. rewrite Hnet. simpl. by rewrite Hr. }
    assert (∃ w2,
              (if Z.of_nat k <? max_retries - 1
               then time_sleep (delay * 2 ^ Z.of_nat k) else pass) w1
              = (Ok tt, w2)
              ∧ trace w2
                = trace w ++ attempt_events c max_retries delay (Z.of_nat k)
              ∧ db w2 = db w ∧ net w2 = rest) as (w2 & Hsleep & Ht2 & Hd2 & Hn2).
    { unfold attempt_events.
      destruct (Z.of_nat k <? max_retries - 1).
      - unfold time_sleep.
        rewrite (proj2 (Z.ltb_ge _ 0)) by (apply Z.mul_nonneg_nonneg; lia).
        eexists. split; [done|]. simpl. by rewrite <- app_assoc.
      - exists w1. done. }
    simpl seq. simpl map. cbn [retry_loop flat_map].
    erewrite bind_ok; cycle 1.
    { unfold try_except. rewrite (bind_raise _ _ _ _ _ Hapi).
      erewrite bind_ok by exact Hsleep. reflexivity. }
    cbv beta iota.
    destruct (IH (S k) (Some ApiException) w2) as (w' & Hrun & Ht & Hd & Hn).
    { rewrite Hn2. lia. }
    { by rewrite Hn2. }
    exists w'. split.
    { rewrite Hrun. f_equal. by destruct m. }
    rewrite Ht, Ht2, Hd, Hd2, Hn, Hn2, <- app_assoc. done.
Qed.

Lemma slept_app a b : slept (a ++ b) = slept a + slept b.
Proof.
  induction a as [|[c ok|ms] a IH]; simpl; [done|done|]. rewrite IH. lia.
Qed.

Lemma slept_backoff c max_retries delay (j : nat) :
  (Z.of_nat j ≤ max_retries - 1) →
  slept (flat_map (attempt_events c max_retries delay)
           (map Z.of_nat (seq 0 j)))
  = delay * (2 ^ Z.of_nat j - 1).
Proof.
  induction j as [|j IH]; intros Hj; [simpl; lia|].
  rewrite seq_S, map_app, flat_map_app, slept_app, IH by lia.
  simpl. unfold attempt_events.
  rewrite (proj2 (Z.ltb_lt _ _)) by lia. simpl.
  rewrite Nat2Z.inj_succ, Z.pow_succ_r by lia. lia.
Qed.

(** X12. Exponential back-off, for every number of attempts: when a call
    wrapped by [retry_on_error(max_retries, delay)] fails at each of its
    [max_retries] attempts, it is attempted exactly that many times, the
    wait after the i-th failure (counted from 0) is [delay * 2^i] with none
    after the last, the total wait is [delay * (2^(max_retries-1) - 1)],
    and the exception of the last attempt is raised. *)
Theorem retry_backs_off_exponentially
  (c : api_call) (max_retries delay : Z) (w : world) :
  1 ≤ max_retries → 0 ≤ delay →
  (Z.to_nat max_retries ≤ length (net w))%nat →
  Forall (fun r => r_ok r = false) (take (Z.to_nat max_retries) (net w)) →
  ∃ w',
    retry_on_error max_retries delay (api c) w = (Raise ApiException, w')
    ∧ trace w' = trace w ++ backoff_history c max_retries delay
    ∧ length (filter (fun ev => is_sleep ev = false)
                (backoff_history c max_retries delay))
      = Z.to_nat max_retries
    ∧ slept (backoff_history c max_retries delay)
      = delay * (2 ^ (max_retries - 1) - 1)
    ∧ db w' = db w.
Proof.
  intros Hn Hdelay Hlen Hfail.
  destruct (retry_loop_all_fail c max_retries delay Hdelay
              (Z.to_nat max_retries) 0%nat None w Hlen Hfail)
    as (w' & Hrun & Ht & Hd & _).
  exists w'. unfold retry_on_error, backoff_history, range.
  split_and!; try done.
  - rewrite Hrun. destruct (Z.to_nat max_retries) eqn:E; [lia|done].
  - transitivity (length (map Z.of_nat (seq 0 (Z.to_nat max_retries))));
      [|by rewrite length_map, length_seq].
    generalize (map Z.of_nat (seq 0 (Z.to_nat max_retries))). intros l.
    induction l as [|i l IH]; [done|].
    cbn [flat_map]. rewrite filter_app, length_app, IH.
    unfold attempt_events. by destruct (i <? max_retries - 1).
  - destruct (Z.to_nat max_retries) as [|j] eqn:E; [lia|].
    rewrite seq_S, map_app, flat_map_app, slept_app.
    rewrite slept_backoff by lia. simpl. unfold attempt_events.
    rewrite (proj2 (Z.ltb_ge _ _)) by lia. simpl.
    replace (max_retries - 1) with (Z.of_nat j) by lia. lia.
Qed.

Lemma retry_backs_off_exponentially_witness :
  ∃ w',
    retry_on_error 4 500 (api (DeleteMessage 5 (SInt 9)))
      (world_of empty_db [failed 10; failed 10; failed 10; failed 10])
    = (Raise ApiException, w')
    ∧ slept (backoff_history (DeleteMessage 5 (SInt 9)) 4 500) = 3500.
Proof.
  destruct (retry_backs_off_exponentially (DeleteMessage 5 (SInt 9)) 4 500
              (world_of empty_db [failed 10; failed 10; failed 10; failed 10]))
    as (w' & Hrun & _ & _ & Hslept & _).
  - lia.
  - lia.
  - simpl. lia.
  - repeat constructor.
  - exists w'. split; [exact Hrun|exact Hslept].
Defined.

(** X13. The corners of [retry_on_error], for any wrapped function.  With
    no attempt allowed the function is not called and [raise None] gives a
    [TypeError]; a call that returns is made once and its result handed
    over without a wait; with a single attempt allowed a failure is raised
    as it is, without a wait; and a negative delay makes the first wait
    itself raise [ValueError], which ends the retries after one attempt. *)
Theorem retry_corner_cases {A} (func : M A) (max_retries delay : Z)
  (w : world) :
  (max_retries ≤ 0 →
   retry_on_error max_retries delay func w = (Raise TypeError, w))
  ∧ (∀ a w1, 1 ≤ max_retries → func w = (Ok a, w1) →
     retry_on_error max_retries delay func w = (Ok a, w1))
  ∧ (∀ e w1, max_retries = 1 → func w = (Raise e, w1) →
     retry_on_error max_retries delay func w = (Raise e, w1))
  ∧ (∀ e w1, 2 ≤ max_retries → delay < 0 → func w = (Raise e, w1) →
     retry_on_error max_retries delay func w = (Raise ValueError, w1)).
Proof.
  unfold retry_on_error, range. split_and!.
  - intros Hn. replace (Z.to_nat max_retries) with 0%nat by lia. done.
  - intros a w1 Hn Hf.
    destruct (Z.to_nat max_retries) as [|k] eqn:E; [lia|]. simpl.
    unfold bind at 1, try_except at 1. by rewrite (bind_ok _ _ _ _ _ Hf).
  - intros e w1 -> Hf. simpl.
    unfold bind at 1, try_except at 1. rewrite (bind_raise _ _ _ _ _ Hf).
    done.
  - intros e w1 Hn Hdelay Hf.
    destruct (Z.to_nat max_retries) as [|k] eqn:E; [lia|]. simpl.
    unfold bind at 1, try_except at 1. rewrite (bind_raise _ _ _ _ _ Hf).
    change (Z.of_nat 0) with 0.
    rewrite (proj2 (Z.ltb_lt 0 (max_retries - 1))) by lia.
    unfold bind at 1, time_sleep.
    by rewrite (proj2 (Z.ltb_lt (delay * 2 ^ 0) 0)) by lia.
Qed.

End Retries.

Section Limiter.
Import Utils.

(** X14. What the rate limiter guarantees.  A thread that creates a
    limiter for [per_period] calls per [period] and then calls
    [wait_if_needed] [n] times, doing in between whatever it likes that
    takes time, returns from the [n]-th call no sooner than
    [(n / per_period) * period] after the creation: every full batch of
    [per_period] calls costs at least one period. *)
Theorem rate_limiter_bounds_the_rate
  (per_period period : Z) (n : nat) (w0 w1 w : world) :
  1 ≤ per_period →
  RateLimiter_init per_period period w0 = (Ok tt, w1) →
  limited_run n w1 w →
  clock w0 + (Z.of_nat n / per_period) * period ≤ clock w.
Proof.
  intros HK Hinit Hrun.
  assert (clock w1 = clock w0
          ∧ rate_limiter w1
            = {| messages_per_period := per_period;
                 period_seconds := period; message_count := 0;
                 period_start := clock w0 |}) as [Hc1 Hrl1].
  { unfold RateLimiter_init, bind, time_time, set_rate_limiter in Hinit.
    injection Hinit as <-. done. }
  clear Hinit.
  assert (∃ q,
            Z.of_nat n = per_period * q + message_count (rate_limiter w)
            ∧ 0 ≤ message_count (rate_limiter w) < per_period
            ∧ messages_per_period (rate_limiter w) = per_period
            ∧ period_seconds (rate_limiter w) = period
            ∧ clock w0 + q * period ≤ period_start (rate_limiter w)
            ∧ period_start (rate_limiter w) ≤ clock w)
    as (q & Hn & Hcount & _ & _ & Hstart & Hclock).
  { induction Hrun as [w1|n w1 w2 w3 Hrun IH Hwait|n w1 w2 w3 Hrun IH Hrl Hclk].
    - exists 0. rewrite Hrl1. simpl. lia.
    - destruct (IH Hc1 Hrl1) as (q & Hn & Hcount & HK' & HW & Hstart & Hclock).
      destruct (wait_if_needed_spec w2) as (w' & Hw' & _ & _ & HK2 & HW2 & Hcase).
      rewrite Hwait in Hw'. injection Hw' as <-.
      rewrite HK' in *. rewrite HW in *.
      destruct (Z.leb_spec per_period (message_count (rate_limiter w2) + 1))
        as [Hfull|Hroom].
      + destruct Hcase as (Hc0 & Hs0 & Hslept).
        exists (q + 1). rewrite Hc0, Hs0. split_and!; try done; try lia.
        destruct (Z.ltb_spec (clock w2 - period_start (rate_limiter w2))
                    period) as [?|?];
          destruct Hslept as [_ Hclk]; rewrite Hclk; lia.
      + destruct Hcase as (Hc0 & Hs0 & _ & Hclk).
        exists q. rewrite Hc0, Hs0, Hclk. split_and!; try done; lia.
    - destruct (IH Hc1 Hrl1) as (q & Hn & Hcount & HK' & HW & Hstart & Hclock).
      exists q. rewrite Hrl. split_and!; try done; lia. }
  assert (Z.of_nat n / per_period = q) as ->.
  { symmetry. apply (Z.div_unique _ _ q (message_count (rate_limiter w)));
      [lia|done]. }
  lia.
Qed.

Lemma rate_limiter_bounds_the_rate_witness :
  let w0 := world_of empty_db [] in
  let w1 := snd (RateLimiter_init 2 1000 w0) in
  let w := snd ((wait_if_needed ;;; wait_if_needed) w1) in
  clock w0 + (Z.of_nat 2 / 2) * 1000 ≤ clock w.
Proof.
  apply (rate_limiter_bounds_the_rate 2 1000 2
           (world_of empty_db [])
           (snd (RateLimiter_init 2 1000 (world_of empty_db [])))
           (snd ((wait_if_needed ;;; wait_if_needed)
                   (snd (RateLimiter_init 2 1000 (world_of empty_db [])))))).
  - lia.
  - reflexivity.
  - apply (limited_wait 1 _
             (snd (wait_if_needed
                     (snd (RateLimiter_init 2 1000 (world_of empty_db [])))))).
    + apply (limited_wait 0 _
               (snd (RateLimiter_init 2 1000 (world_of empty_db []))));
        [apply limited_start|vm_compute; reflexivity].
    + vm_compute. reflexivity.
Defined.

End Limiter.

(* --------------------------------------------------------------------- *)
(** ** Guards of the handlers *)
(* --------------------------------------------------------------------- *)

Section Guards.
Context (cfg : config).
Import ReportBot.

(** An answer inside [try], with a handler that answers again or does
    nothing. *)
Lemma refused_answer call reason (h : exn → M unit) w :
  (∀ e, h e = pass
        ∨ ∃ text, h e = Bot.answer_callback_query (c_id call) text) →
  refused call reason w
    (try_except (Bot.answer_callback_query (c_id call) (Some reason)) h w).
Proof.
  intros Hh. unfold try_except.
  destruct (answer_outcome (c_id call) (Some reason) w)
    as (w1 & Hrun & Hd & Hw & He & Ht).
  rewrite Hrun. unfold refused. destruct (next_ok w) eqn:Hok.
  - simpl. split_and!; try done.
    exists []. rewrite Ht. done.
  - destruct (Hh ApiException) as [->|[text ->]].
    + unfold pass, ret. simpl. split_and!; try done.
      exists []. rewrite Ht. done.
    + destruct (answer_outcome (c_id call) text w1)
        as (w2 & Hrun2 & Hd2 & Hw2 & He2 & Ht2).
      rewrite Hrun2. simpl.
      split_and!; try congruence.
      exists [Call (AnswerCallbackQuery (c_id call) text) (next_ok w1)].
      rewrite Ht2, Ht, <- app_assoc. done.
Qed.

Lemma check_state_refuses call expected w :
  (c_message call = None ∧
   _check_state cfg call expected w
   = (Bot.answer_callback_query (c_id call) (Some (py "❌ Устарело")) ;;;
      ret false) w)
  ∨ (is_Some (c_message call) ∧
     StateManager.get_state cfg (u_id (c_from_user call)) (db w)
     ≠ VInt expected ∧
     _check_state cfg call expected w
     = (Bot.answer_callback_query (c_id call)
          (Some (py "❌ Начните с /start")) ;;;
        ret false) w)
  ∨ (is_Some (c_message call) ∧
     StateManager.get_state cfg (u_id (c_from_user call)) (db w)
     = VInt expected).
Proof.
  unfold _check_state. destruct (c_message call) as [m|]; [|by left].
  right.
  destruct (decide (StateManager.get_state cfg (u_id (c_from_user call))
                      (db w) = VInt expected)) as [Heq|Hne].
  - right. split; [by eexists|done].
  - left. split; [by eexists|]. split; [done|].
    unfold get_state, db_read. unfold bind at 1.
    by rewrite bool_decide_eq_false_2.
Qed.

(** A handler that starts with a failed [_check_state] and answers in its
    [except] clause. *)
Lemma refused_by_check call expected reason (k : bool → M unit) text w :
  _check_state cfg call expected w
  = (Bot.answer_callback_query (c_id call) (Some reason) ;;; ret false) w →
  k false = pass →
  refused call reason w
    (try_except (ok <- _check_state cfg call expected ;; k ok)
       (fun _ => Bot.answer_callback_query (c_id call) text) w).
Proof.
  intros Hcheck Hk.
  pose proof (refused_answer call reason
                (fun _ => Bot.answer_callback_query (c_id call) text) w) as H.
  unfold try_except in *. unfold bind at 1. rewrite Hcheck.
  unfold bind at 1.
  destruct (Bot.answer_callback_query (c_id call) (Some reason) w)
    as [[[]|e] w1].
  - unfold ret. rewrite Hk. apply H. intros e. right. by eexists.
  - apply H. intros e'. right. by eexists.
Qed.

(** X15. A button of the report conversation pressed at the wrong step,
    or on a message that is gone, changes nothing: each of the six button
    handlers leaves the store as it is, sends no message and only answers
    the press, with the reason. *)
Theorem stale_button_is_refused (call : callback_query) (w : world) :
  Forall
    (fun eh =>
       (c_message call = None →
        refused call (py "❌ Устарело") w (snd eh call w))
       ∧ (is_Some (c_message call) →
          StateManager.get_state cfg (u_id (c_from_user call)) (db w)
          ≠ VInt (fst eh) →
          refused call (py "❌ Начните с /start") w (snd eh call w)))
    (wizard_buttons cfg).
Proof.
  assert (∀ expected (k : bool → M unit) text,
            k false = pass →
            (c_message call = None →
             refused call (py "❌ Устарело") w
               (try_except (ok <- _check_state cfg call expected ;; k ok)
                  (fun _ => Bot.answer_callback_query (c_id call) text) w))
            ∧ (is_Some (c_message call) →
               StateManager.get_state cfg (u_id (c_from_user call)) (db w)
               ≠ VInt expected →
               refused call (py "❌ Начните с /start") w
                 (try_except (ok <- _check_state cfg call expected ;; k ok)
                    (fun _ => Bot.answer_callback_query (c_id call) text) w)))
    as Hall.
  { intros expected k text Hk.
    destruct (check_state_refuses call expected w)
      as [[Hnone Hrun]|[(Hsome & Hne & Hrun)|[Hsome Heq]]].
    - split; [intros _; by apply refused_by_check|].
      intros [m Hm]. congruence.
    - split; [intros Hnone; destruct Hsome; congruence|].
      intros _ _. by apply refused_by_check.
    - split; [intros Hnone; destruct Hsome; congruence|]. done. }
  unfold wizard_buttons.
  repeat apply Forall_cons_2; [..|apply Forall_nil_2]; cbn [fst snd];
    apply Hall; reflexivity.
Qed.

Lemma non_admin user_id :
  user_id ∉ ADMINS cfg → negb (is_admin cfg user_id) = true.
Proof.
  intros H. unfold is_admin. by rewrite bool_decide_eq_false_2.
Qed.

(** X16. Who is not an administrator gets nothing from the
    administrators' handlers.  The command handlers return at once: no
    reply, no change of the store or of the editing and broadcast modes.
    The button handlers only answer the press with the refusal. *)
Theorem non_admin_is_ignored
  (message : message) (call : callback_query) (w : world) :
  (u_id (m_from_user message) ∉ ADMINS cfg →
   Forall (fun h => h message w = (Ok tt, w)) (admin_commands cfg))
  ∧ (u_id (c_from_user call) ∉ ADMINS cfg →
     Forall (fun h => refused call (py "❌ Нет доступа") w (h call w))
       (admin_buttons cfg)).
Proof.
  split; intros Hna; apply non_admin in Hna.
  - unfold admin_commands.
    repeat apply Forall_cons_2; [..|apply Forall_nil_2].
    + unfold BanManager._handle_ban. rewrite Hna. reflexivity.
    + unfold BanManager._handle_unban. rewrite Hna. reflexivity.
    + unfold TrainsManager._show_trains. rewrite Hna. reflexivity.
    + unfold TrainsManager._start_edit. rewrite Hna. reflexivity.
    + unfold TrainsManager._cancel_edit. cbv zeta. rewrite Hna. reflexivity.
    + unfold TrainsManager._handle_edit. cbv zeta. rewrite Hna. reflexivity.
    + unfold GongManager._start_gong. rewrite Hna. reflexivity.
    + unfold GongManager._handle_gong_text. cbv zeta. rewrite Hna.
      reflexivity.
  - unfold admin_buttons.
    repeat apply Forall_cons_2; [..|apply Forall_nil_2].
    + unfold BanManager._callback_ban_user. rewrite Hna.
      apply refused_answer. intros e. right. by eexists.
    + unfold BanManager._callback_unban_user. rewrite Hna.
      apply refused_answer. intros e. right. by eexists.
    + unfold GongManager._execute_gong. rewrite Hna.
      apply refused_answer. intros e. right. by eexists.
    + unfold GongManager._cancel_gong. rewrite Hna.
      apply refused_answer. intros e. by left.
Qed.

End Guards.

(* --------------------------------------------------------------------- *)
(** ** bot.py: the other steps of the conversation *)
(* --------------------------------------------------------------------- *)

Section Conversation.
Context (cfg : config).
Import Utils ReportBot.

Lemma db_inv_ask_station user_id key a s chat :
  key ≠ k_last_msg →
  db_inv (kept cfg user_id key a s) (_ask_station cfg user_id chat).
Proof.
  intros Hne. unfold _ask_station, get_data.
  apply db_inv_try; [|intros; apply db_inv_error_msg].
  apply db_inv_bind; [apply db_inv_read|intros d].
  apply db_inv_bind; [apply db_inv_lift|intros line_id].
  destruct (stations_of cfg line_id); [|apply db_inv_error_msg].
  apply db_inv_bind; [apply db_inv_send|intros].
  by apply db_inv_set_data_kept.
Qed.

Lemma db_inv_ask_direction user_id key a s chat :
  key ≠ k_last_msg →
  db_inv (kept cfg user_id key a s) (_ask_direction cfg user_id chat).
Proof.
  intros Hne. unfold _ask_direction, get_data.
  apply db_inv_try; [|intros; apply db_inv_error_msg].
  apply db_inv_bind; [apply db_inv_read|intros d].
  apply db_inv_bind; [apply db_inv_lift|intros line_id].
  destruct (stations_of cfg line_id); [|apply db_inv_error_msg].
  apply db_inv_bind; [apply db_inv_send|intros].
  by apply db_inv_set_data_kept.
Qed.

Lemma db_inv_ask_time user_id key a s chat :
  key ≠ k_last_msg →
  db_inv (kept cfg user_id key a s) (_ask_time cfg user_id chat).
Proof.
  intros Hne. unfold _ask_time.
  apply db_inv_try; [|intros; apply db_inv_error_msg].
  apply db_inv_bind; [apply db_inv_send|intros].
  by apply db_inv_set_data_kept.
Qed.

Lemma bind_post {A B} (P : database → Prop) (m : M A) (k : A → M B) w :
  P (db (snd (m w))) → (∀ a, db_inv P (k a)) →
  P (db (snd (bind m k w))).
Proof.
  intros Hm Hk. unfold bind.
  destruct (m w) as [[a|e] w1]; simpl in *; [by apply Hk|done].
Qed.

(** The common shape of the steps: the answer is written and the step
    advanced before anything is sent, and what follows touches neither. *)
Lemma step_stores user_id key value next (rest : M unit) w dict :
  StateManager.get_data user_id (db w) = VDict dict →
  db_inv (kept cfg user_id key (Some value) (VInt next)) rest →
  kept cfg user_id key (Some value) (VInt next)
    (db (snd ((set_data cfg user_id key value ;;;
               set_state user_id next ;;; rest) w))).
Proof.
  intros Hd Hrest.
  destruct (run_set_data cfg user_id key value w dict Hd) as (d1 & Hrun & Hd1).
  unfold bind at 1. rewrite Hrun.
  unfold bind at 1, set_state at 1, db_write at 1.
  apply Hrest. simpl. split.
  - rewrite set_state_answer. eapply set_data_answer, Hd1.
  - apply get_state_set_state.
Qed.

(** X17. The buttons of the train, station and direction steps.  At its
    step, each stores the text of the pressed button under its key and
    moves the user to the next step, whatever the transport does with the
    messages of the handler; the button "manual" of the train step stores
    nothing and moves to the step of the manual entry. *)
Theorem buttons_store_and_advance
  (call : callback_query) (m : message) (w : world) (p : pystr)
  (dict : gmap pystr scalar) :
  let user_id := u_id (c_from_user call) in
  let St := States cfg in
  let at_step s := StateManager.get_state cfg user_id (db w) = VInt s in
  c_message call = Some m →
  split_on_max 95 1 (c_data call) !! 1%nat = Some p →
  StateManager.get_data user_id (db w) = VDict dict →
  (at_step (TRAIN St) → p ≠ py "manual" →
   kept cfg user_id k_train (Some (SStr p)) (VInt (STATION St))
     (db (snd (_select_train cfg call w))))
  ∧ (at_step (TRAIN St) → p = py "manual" →
     kept cfg user_id k_train (dict !! k_train) (VInt (TRAIN_MANUAL St))
       (db (snd (_select_train cfg call w))))
  ∧ (at_step (STATION St) →
     kept cfg user_id k_station (Some (SStr p)) (VInt (DIRECTION St))
       (db (snd (_select_station cfg call w))))
  ∧ (at_step (DIRECTION St) →
     kept cfg user_id k_direction (Some (SStr p)) (VInt (TIME St))
       (db (snd (_select_direction cfg call w)))).
Proof.
  intros user_id St' at_step Hm Hp Hd. subst St' at_step. split_and!.
  - intros Hs Hne. unfold _select_train, St.
    apply try_except_post; [|intros; apply db_inv_answer].
    unfold bind at 1. rewrite (check_state_passes _ _ _ _ _ Hm Hs). cbn [negb].
    unfold bind at 1, lift at 1, index. rewrite Hp.
    rewrite bool_decide_eq_false_2 by done.
    apply bind_post; [|intros; apply db_inv_answer].
    fold user_id. apply (step_stores _ _ _ _ _ _ dict Hd).
    apply db_inv_bind; [apply db_inv_the_message|intros m'].
    apply db_inv_bind; [apply db_inv_delete_msg|intros _].
    by apply db_inv_ask_station.
  - intros Hs Heq. unfold _select_train, St.
    apply try_except_post; [|intros; apply db_inv_answer].
    unfold bind at 1. rewrite (check_state_passes _ _ _ _ _ Hm Hs). cbn [negb].
    unfold bind at 1, lift at 1, index. rewrite Hp.
    rewrite bool_decide_eq_true_2 by done.
    apply bind_post; [|intros; apply db_inv_answer].
    fold user_id. unfold bind at 1, set_state at 1, db_write at 1.
    apply db_inv_bind; [apply db_inv_the_message|intros m'|].
    + apply db_inv_bind; [apply db_inv_delete_msg|intros _].
      apply db_inv_bind; [apply db_inv_send|intros].
      by apply db_inv_set_data_kept.
    + simpl. split.
      * rewrite set_state_answer. unfold answer. by rewrite Hd.
      * apply get_state_set_state.
  - intros Hs. unfold _select_station, St.
    apply try_except_post; [|intros; apply db_inv_answer].
    unfold bind at 1. rewrite (check_state_passes _ _ _ _ _ Hm Hs). cbn [negb].
    unfold bind at 1, lift at 1, index. rewrite Hp.
    fold user_id. apply (step_stores _ _ _ _ _ _ dict Hd).
    apply db_inv_bind; [apply db_inv_the_message|intros m'].
    apply db_inv_bind; [apply db_inv_delete_msg|intros _].
    apply db_inv_bind; [by apply db_inv_ask_direction|intros _].
    apply db_inv_answer.
  - intros Hs. unfold _select_direction, St.
    apply try_except_post; [|intros; apply db_inv_answer].
    unfold bind at 1. rewrite (check_state_passes _ _ _ _ _ Hm Hs). cbn [negb].
    unfold bind at 1, lift at 1, index. rewrite Hp.
    fold user_id. apply (step_stores _ _ _ _ _ _ dict Hd).
    apply db_inv_bind; [apply db_inv_the_message|intros m'].
    apply db_inv_bind; [apply db_inv_delete_msg|intros _].
    apply db_inv_bind; [by apply db_inv_ask_time|intros _].
    apply db_inv_answer.
Qed.

(** X18. Starting a report starts afresh.  For a user who is not banned,
    [_start_report] leaves the user at the line step with none of the
    answers of an earlier, unfinished report (only the id of the prompt
    may be kept), whatever the record held before and whatever the
    transport does; the records of other users, the users and the bans are
    untouched. *)
Theorem start_report_begins_afresh (message : message) (w : world) :
  let user_id := u_id (m_from_user message) in
  let d' := db (snd (_start_report cfg message w)) in
  Database.is_banned user_id (db w) = false →
  StateManager.get_state cfg user_id d' = VInt (LINE (States cfg))
  ∧ (∀ key, key ≠ k_last_msg → answer user_id key d' = None)
  ∧ (∀ other, other ≠ user_id →
       Database.get_user_state other d'
       = Database.get_user_state other (db w))
  ∧ users d' = users (db w) ∧ banned_users d' = banned_users (db w).
Proof.
  intros user_id d' Hnb. subst d'.
  set (P := fun d : database =>
              StateManager.get_state cfg user_id d = VInt (LINE (States cfg))
              ∧ (∀ key, key ≠ k_last_msg → answer user_id key d = None)
              ∧ (∀ other, other ≠ user_id →
                   Database.get_user_state other d
                   = Database.get_user_state other (db w))
              ∧ users d = users (db w)
              ∧ banned_users d = banned_users (db w)).
  change (P (db (snd (_start_report cfg message w)))).
  unfold _start_report.
  apply try_except_post; [|intros; apply db_inv_error_msg].
  unfold bind at 1, BanManager.is_banned at 1, db_read at 1.
  fold user_id. rewrite Hnb.
  unfold bind at 1, clear_state at 1, db_write at 1.
  unfold bind at 1, set_state at 1, db_write at 1.
  apply db_inv_bind; [apply db_inv_lift|intros rows|].
  - apply db_inv_bind; [apply db_inv_send|intros msg].
    apply db_inv_db_try. intros now d d1 (Hs & Ha & Ho & Hu & Hb) Hset.
    unfold P. split_and!.
    + by rewrite (set_data_state cfg now user_id k_last_msg (SInt msg) d d1).
    + intros key Hkey.
      rewrite (set_data_answer_ne cfg now user_id k_last_msg key (SInt msg)
                 d d1) by done.
      by apply Ha.
    + intros other Hother.
      apply set_data_inv in Hset as (dict & _ & ->).
      rewrite get_user_state_set_ne by done. by apply Ho.
    + apply set_data_inv in Hset as (dict & _ & ->). done.
    + apply set_data_inv in Hset as (dict & _ & ->). done.
  - unfold P. simpl. split_and!.
    + apply get_state_set_state.
    + intros key _. rewrite set_state_answer. unfold answer.
      rewrite get_data_unfold. unfold StateManager.clear_state,
        Database.clear_user_state, Database.get_user_state. simpl.
      by rewrite lookup_delete_eq.
    + intros other Hother. unfold StateManager.set_state.
      rewrite get_user_state_set_ne by done.
      unfold StateManager.clear_state, Database.clear_user_state,
        Database.get_user_state. simpl.
      by rewrite lookup_delete_ne.
    + done.
    + done.
Qed.

(** X19. A time that cannot be represented is refused without a trace in
    the store.  When the label of the pressed button names a number of
    minutes that leads out of the range of [datetime] (before year 1 or
    after year 9999), [_select_time] stores nothing, leaves the user at
    the time step and answers the press with the error text. *)
Theorem time_out_of_range_stores_nothing
  (call : callback_query) (m : message) (w : world) (label : pystr)
  (n : Z) :
  let user_id := u_id (c_from_user call) in
  let moment := clock w + utc_offset w - n * 60000 in
  c_message call = Some m →
  StateManager.get_state cfg user_id (db w) = VInt (TIME (States cfg)) →
  split_on_max 95 1 (c_data call) !! 1%nat = Some label →
  parse_time_ago label = Ok n →
  ¬ (0 ≤ moment < Datetime.max_days * Datetime.ms_per_day) →
  ∃ w',
    _select_time cfg call w
    = (if next_ok w then Ok tt else Raise ApiException, w')
    ∧ db w' = db w
    ∧ trace w'
      = trace w
        ++ [Call (AnswerCallbackQuery (c_id call) (Some (py "❌ Ошибка")))
              (next_ok w)].
Proof.
  intros user_id moment Hm Hs Hlabel Hn Hrange. subst moment.
  destruct (answer_outcome (c_id call) (Some (py "❌ Ошибка")) w)
    as (w' & Hrun & Hd & _ & _ & Ht).
  exists w'. split; [|done].
  rewrite <- Hrun. unfold _select_time, St.
  unfold try_except.
  unfold bind at 1. rewrite (check_state_passes _ _ _ _ _ Hm Hs). cbn [negb].
  unfold bind at 1, lift at 1, index. rewrite Hlabel.
  unfold bind at 1, lift at 1. rewrite Hn.
  unfold bind at 1, Datetime.now at 1.
  unfold bind at 1, lift at 1.
  destruct (Datetime.timedelta_minutes n) as [delta|e] eqn:Hdelta; [|done].
  unfold bind at 1, lift at 1.
  destruct (Datetime.sub (clock w + utc_offset w) delta) as [r|e] eqn:Hsub;
    [|done].
  exfalso. apply Hrange.
  unfold Datetime.timedelta_minutes in Hdelta.
  destruct (_ && _) in Hdelta; [|done]. injection Hdelta as <-.
  unfold Datetime.sub in Hsub. cbv zeta in Hsub.
  destruct (Z.leb_spec 0 (clock w + utc_offset w - n * 60000));
    [|done].
  destruct (Z.ltb_spec (clock w + utc_offset w - n * 60000)
              (Datetime.max_days * Datetime.ms_per_day)); [|done].
  lia.
Qed.

Lemma all_in_dict dict ks :
  all_in (VDict dict) ks
  = Ok (forallb (fun k => bool_decide (is_Some (dict !! k))) ks).
Proof.
  induction ks as [|k ks IH]; [done|]. simpl.
  destruct (bool_decide (is_Some (dict !! k))); [by rewrite IH|done].
Qed.

Lemma report_text_ext user dict dict' :
  (∀ k, k ∈ required → dict' !! k = dict !! k) →
  report_text cfg user (VDict dict') = report_text cfg user (VDict dict).
Proof.
  intros H. unfold report_text, subscript.
  rewrite (H k_line), (H k_train), (H k_station), (H k_direction),
    (H k_time), (H k_comment), (H k_route);
    [done|unfold required; set_solver..].
Qed.

Lemma report_text_complete user dict :
  (∀ k, k ∈ required → is_Some (dict !! k)) →
  ∃ body, report_text cfg user (VDict dict) = Ok body.
Proof.
  intros H. unfold report_text, subscript.
  destruct (H k_line) as [? ->]; [unfold required; set_solver|].
  destruct (H k_train) as [? ->]; [unfold required; set_solver|].
  destruct (H k_station) as [? ->]; [unfold required; set_solver|].
  destruct (H k_direction) as [? ->]; [unfold required; set_solver|].
  destruct (H k_time) as [? ->]; [unfold required; set_solver|].
  destruct (H k_comment) as [? ->]; [unfold required; set_solver|].
  destruct (H k_route) as [? ->]; [unfold required; set_solver|].
  eexists. reflexivity.
Qed.

Lemma error_msg_returns chat w :
  ∃ w1,
    _error_msg chat w = (Ok tt, w1) ∧ db w1 = db w
    ∧ trace w1
      = trace w ++ [Call (SendMessage chat error_text None None) (next_ok w)].
Proof.
  unfold _error_msg, try_except, Bot.send_message, bind, api, pass, ret,
    next_ok.
  destruct (r_ok (hd default_reply (net w))); by eexists.
Qed.

(** X25. What is shown for confirmation is what gets published.  When
    the record holds all seven answers, [_show_confirm] sends the heading
    followed by the very text that [_publish] posts to the channel for the
    same answers; when an answer is missing, nothing is offered for
    confirmation: the user gets the error text and the record is
    deleted. *)
Theorem confirmation_shows_what_is_published
  (user_id chat : Z) (user : tg_user) (w : world)
  (dict : gmap pystr scalar) :
  let w' := snd (_show_confirm cfg user_id chat user w) in
  StateManager.get_data user_id (db w) = VDict dict →
  ((∀ k, k ∈ required → is_Some (dict !! k)) →
   ∃ body rest,
     report_text cfg user (VDict dict) = Ok body
     ∧ trace w'
       = trace w
         ++ Call (SendMessage chat
                    (py "8️⃣ Проверьте перед публикацией:" ++ nl ++ nl
                     ++ body)
                    (Some (InlineKeyboardMarkup 2
                             [[(py "✅ Опубликовать", py "confirm_publish");
                               (py "❌ Отменить", py "confirm_cancel")]]))
                    (Some (py "HTML"))) (next_ok w)
            :: rest
     ∧ (next_ok w = true → rest = [])
     ∧ (∀ w2 dict2,
          StateManager.get_data user_id (db w2) = VDict dict2 →
          (∀ k, k ∈ required → dict2 !! k = dict !! k) →
          trace (snd (_publish_body cfg user_id chat user w2))
          = trace w2
            ++ [Call (SendMessage (CHANNEL_ID cfg) body None
                        (Some (py "HTML"))) (next_ok w2)]))
  ∧ ((∃ k, k ∈ required ∧ dict !! k = None) →
     Database.get_user_state user_id (db w') = None
     ∧ trace w'
       = trace w
         ++ [Call (SendMessage chat error_text None None) (next_ok w)]).
Proof.
  intros w' Hd. subst w'. split.
  - intros Hall.
    destruct (report_text_complete user dict Hall) as [body Hbody].
    assert (all_in (VDict dict) required = Ok true) as Hin.
    { rewrite all_in_dict. f_equal. apply forallb_forall. intros k Hk.
      apply bool_decide_eq_true_2, Hall. by apply list_elem_of_In. }
    unfold _show_confirm.
    unfold try_except. unfold bind at 1, get_data at 1, db_read at 1.
    rewrite Hd. unfold bind at 1, lift at 1. rewrite Hin. cbn [negb].
    unfold bind at 1, lift at 1. rewrite Hbody.
    unfold bind at 1.
    match goal with
    | |- context [Bot.send_message ?c ?t ?mk ?pm w] =>
        destruct (send_outcome c t mk pm w) as (w1 & Hsend & Ht1 & _);
        assert (db w1 = db w) as Hd1
          by (pose proof (db_inv_send (fun d => d = db w) c t mk pm w eq_refl)
                as Hdb; by rewrite Hsend in Hdb)
    end.
    rewrite Hsend. destruct (next_ok w) eqn:Hok.
    + rewrite <- Hd1 in Hd.
      destruct (run_set_data cfg user_id k_last_msg
                  (SInt (r_message_id (hd default_reply (net w)))) w1 dict Hd)
        as (d2 & Hset & _).
      rewrite Hset. cbn [snd]. unfold set_db. cbn [trace].
      exists body, []. split_and!; try done.
      intros w2 dict2 Hd2 Hsame.
      destruct (publish_body_returns cfg user_id chat user w2)
        as (success & w3 & Hrun & _ & _ & Htext).
      rewrite Hrun. cbn [snd]. apply (Htext body).
      rewrite Hd2, <- Hbody. by apply report_text_ext.
    + destruct (error_msg_returns chat w1) as (w2 & Herr & _ & Ht2).
      rewrite Herr. cbn [snd].
      exists body, [Call (SendMessage chat error_text None None) (next_ok w1)].
      rewrite Ht2, Ht1, <- app_assoc. split_and!; try done.
      intros w3 dict2 Hd2 Hsame.
      destruct (publish_body_returns cfg user_id chat user w3)
        as (success & w4 & Hrun & _ & _ & Htext).
      rewrite Hrun. cbn [snd]. apply (Htext body).
      rewrite Hd2, <- Hbody. by apply report_text_ext.
  - intros (k & Hk & Hnone).
    assert (all_in (VDict dict) required = Ok false) as Hin.
    { rewrite all_in_dict. f_equal. apply not_true_is_false. intros Hall.
      rewrite forallb_forall in Hall.
      specialize (Hall k (proj1 (list_elem_of_In _ _) Hk)).
      apply bool_decide_eq_true in Hall. rewrite Hnone in Hall.
      by destruct Hall. }
    destruct (error_msg_returns chat w) as (w1 & Herr & Hd1 & Ht1).
    assert (_show_confirm cfg user_id chat user w = clear_state user_id w1)
      as Hrun.
    { unfold _show_confirm.
      unfold try_except. unfold bind at 1, get_data at 1, db_read at 1.
      rewrite Hd. unfold bind at 1, lift at 1. rewrite Hin. cbn [negb].
      unfold bind at 1. rewrite Herr. reflexivity. }
    rewrite Hrun.
    unfold clear_state, db_write, set_db. cbn [snd db trace].
    split; [|done]. rewrite Hd1.
    unfold StateManager.clear_state, Database.clear_user_state,
      Database.get_user_state. simpl. by rewrite lookup_delete_eq.
Qed.

(** X26. [/start] registers and leaves the conversation alone.  For a
    user who is not banned the row of the user holds the handle and the
    name of the message afterwards, whether or not the greeting is
    delivered; a report in progress is neither reset nor deleted, and the
    rows of other users and the bans are untouched. *)
Theorem start_registers_and_keeps_the_conversation
  (message : message) (w : world) :
  let user := m_from_user message in
  let d' := db (snd (_handle_start message w)) in
  Database.is_banned (u_id user) (db w) = false →
  Database.get_user_info (u_id user) d'
  = Some {| username := u_username user; first_name := u_first_name user;
            created_at := current_timestamp w |}
  ∧ (∀ other, other ≠ u_id user →
       Database.get_user_info other d'
       = Database.get_user_info other (db w))
  ∧ user_states d' = user_states (db w)
  ∧ banned_users d' = banned_users (db w).
Proof.
  intros user d' Hnb. subst d'.
  set (P := fun d : database =>
              Database.get_user_info (u_id user) d
              = Some {| username := u_username user;
                        first_name := u_first_name user;
                        created_at := current_timestamp w |}
              ∧ (∀ other, other ≠ u_id user →
                   Database.get_user_info other d
                   = Database.get_user_info other (db w))
              ∧ user_states d = user_states (db w)
              ∧ banned_users d = banned_users (db w)).
  change (P (db (snd (_handle_start message w)))).
  unfold _handle_start. fold user.
  apply try_except_post; [|intros; apply db_inv_ret].
  unfold bind at 1, BanManager.is_banned at 1, db_read at 1. rewrite Hnb.
  unfold bind at 1, db_write at 1.
  apply db_inv_bind; [apply db_inv_send|intros; apply db_inv_ret|].
  unfold set_db. cbn [db]. unfold P, Database.get_user_info,
    Database.add_user, Database.with_users. cbn [users user_states
    banned_users]. split_and!; try done.
  - by rewrite lookup_insert_eq.
  - intros other Hne. by rewrite lookup_insert_ne.
Qed.

Lemma delete_guarded_trace chat mid w :
  ∃ w1,
    try_except (Bot.delete_message chat mid) (fun _ => pass) w = (Ok tt, w1)
    ∧ db w1 = db w
    ∧ trace w1 = trace w ++ [Call (DeleteMessage chat mid) (next_ok w)].
Proof.
  unfold try_except, Bot.delete_message, bind, api, pass, ret, next_ok.
  destruct (r_ok (hd default_reply (net w))); by eexists.
Qed.

(** X27. Cancelling at the confirmation publishes nothing.  Any button of
    the confirmation other than "publish" makes [_confirm_action] send one
    message, the notice of the cancellation to the chat of the button, and
    no other: nothing goes to the channel.  When the notice is delivered
    the record of the user is deleted. *)
Theorem cancel_publishes_nothing
  (call : callback_query) (m : message) (w : world) :
  let user_id := u_id (c_from_user call) in
  let w' := snd (_confirm_action cfg call w) in
  c_message call = Some m →
  StateManager.get_state cfg user_id (db w) = VInt (CONFIRM (States cfg)) →
  c_data call ≠ py "confirm_publish" →
  ∃ evs,
    trace w'
    = trace w
      ++ Call (SendMessage (m_chat_id m)
                 (py "❌ Отменено. Используйте /start для новой попытки.")
                 None None) (next_ok w)
         :: evs
    ∧ sends evs = []
    ∧ (next_ok w = true → Database.get_user_state user_id (db w') = None).
Proof.
  intros user_id w' Hm Hs Hdata. subst w'.
  match goal with
  | |- context [SendMessage ?c ?t ?mk ?pm] =>
      destruct (send_outcome c t mk pm w) as (w1 & Hsend & Ht1 & _);
      assert (db w1 = db w) as Hd1
        by (pose proof (db_inv_send (fun d => d = db w) c t mk pm w eq_refl)
              as Hdb; by rewrite Hsend in Hdb)
  end.
  assert (∃ w2 evs,
            snd (_confirm_action cfg call w) = w2
            ∧ trace w2 = trace w1 ++ evs ∧ sends evs = []
            ∧ (next_ok w = true →
               Database.get_user_state user_id (db w2) = None))
    as (w2 & evs & Hrun & Ht2 & Hsends & Hclear).
  { unfold _confirm_action, St. unfold try_except at 1.
    unfold bind at 1. rewrite (check_state_passes _ _ _ _ _ Hm Hs).
    cbn [negb]. unfold bind at 1, the_message at 1. rewrite Hm.
    unfold ret at 1. rewrite bool_decide_eq_false_2 by done.
    unfold bind at 1. unfold bind at 1. rewrite Hsend.
    destruct (next_ok w) eqn:Hok.
    - unfold pass at 1, ret at 1.
      destruct (delete_guarded_trace (m_chat_id m) (SInt (m_message_id m)) w1)
        as (w3 & Hdel & Hd3 & Ht3).
      unfold bind at 1. rewrite Hdel.
      unfold bind at 1, clear_state at 1, db_write at 1.
      match goal with
      | |- context [Bot.answer_callback_query ?i ?t ?w4] =>
          destruct (answer_outcome i t w4) as (w5 & Hans & Hd5 & _ & _ & Ht5)
      end.
      rewrite Hans. unfold set_db in *. cbn [db trace] in *.
      assert (Database.get_user_state user_id (db w5) = None) as Hgone.
      { rewrite Hd5. fold user_id.
        unfold StateManager.clear_state, Database.clear_user_state,
          Database.get_user_state. simpl. by rewrite lookup_delete_eq. }
      match goal with
      | |- context [if next_ok ?x then Ok tt else _] =>
          destruct (next_ok x)
      end.
      + exists w5. eexists. split; [reflexivity|].
        rewrite Ht5, Ht3, <- app_assoc. split; [reflexivity|]. done.
      + destruct (answer_outcome (c_id call) (Some (py "❌ Ошибка")) w5)
          as (w6 & Hans6 & Hd6 & _ & _ & Ht6).
        rewrite Hans6. exists w6. eexists.
        split; [by destruct (next_ok _)|].
        rewrite Ht6, Ht5, Ht3, <- !app_assoc. split; [reflexivity|].
        split; [done|]. intros _. by rewrite Hd6.
    - destruct (answer_outcome (c_id call) (Some (py "❌ Ошибка")) w1)
        as (w5 & Hans & Hd5 & _ & _ & Ht5).
      rewrite Hans. exists w5. eexists.
      split; [by destruct (next_ok _)|]. split; [exact Ht5|]. done. }
  exists evs. rewrite Hrun, Ht2, Ht1, <- app_assoc. done.
Qed.

Lemma run_update_singleton user_id key v w dict :
  StateManager.get_data user_id (db w) = VDict dict →
  ∃ d', update_data cfg user_id {[ key := v ]} w = (Ok tt, set_db d' w)
        ∧ StateManager.set_data cfg (current_timestamp w) user_id key v (db w)
          = Ok d'.
Proof.
  intros Hd. unfold update_data, db_try.
  rewrite (set_data_ok cfg _ _ _ _ _ _ Hd).
  unfold StateManager.update_data.
  fold (working_record cfg user_id (db w)).
  rewrite working_record_data, Hd.
  rewrite <- (insert_union_singleton_l dict). eauto.
Qed.

(** X28. The line step.  A button whose payload names a line of the
    configuration stores the line and moves the user to the train step,
    whatever becomes of the messages; a payload that names no line is
    answered with the refusal and changes nothing. *)
Theorem line_is_checked_against_the_configuration
  (call : callback_query) (m : message) (w : world) (line_id : pystr)
  (dict : gmap pystr scalar) :
  let user_id := u_id (c_from_user call) in
  let w' := snd (_select_line cfg call w) in
  c_message call = Some m →
  StateManager.get_state cfg user_id (db w) = VInt (LINE (States cfg)) →
  split_on 95 (c_data call) !! 1%nat = Some line_id →
  StateManager.get_data user_id (db w) = VDict dict →
  (line_id ∈ map fst (LINES cfg) →
   kept cfg user_id k_line (Some (SStr line_id)) (VInt (TRAIN (States cfg)))
     (db w'))
  ∧ (line_id ∉ map fst (LINES cfg) →
     db w' = db w
     ∧ ∃ evs,
         trace w'
         = trace w
           ++ Call (AnswerCallbackQuery (c_id call)
                      (Some (py "❌ Неверная линия"))) (next_ok w)
              :: evs
         ∧ forallb is_answer evs = true).
Proof.
  intros user_id w' Hm Hs Hline Hd. subst w'. split.
  - intros Hin. unfold _select_line, St.
    apply try_except_post; [|intros; apply db_inv_answer].
    unfold bind at 1. rewrite (check_state_passes _ _ _ _ _ Hm Hs). cbn [negb].
    unfold bind at 1, lift at 1, index. rewrite Hline.
    rewrite bool_decide_eq_true_2 by done. cbn [negb].
    destruct (run_update_singleton user_id k_line (SStr line_id) w dict Hd)
      as (d1 & Hrun & Hd1).
    unfold bind at 1. fold user_id. rewrite Hrun.
    unfold bind at 1, set_state at 1, db_write at 1.
    apply db_inv_bind; [apply db_inv_the_message|intros m'|].
    + apply db_inv_bind; [apply db_inv_delete_msg|intros _].
      apply db_inv_bind; [apply db_inv_read|intros trains].
      apply db_inv_bind; [apply db_inv_send|intros msg].
      apply db_inv_bind; [by apply db_inv_set_data_kept|intros _].
      apply db_inv_answer.
    + simpl. split.
      * rewrite set_state_answer. eapply set_data_answer, Hd1.
      * apply get_state_set_state.
  - intros Hnotin.
    pose proof (refused_answer call (py "❌ Неверная линия")
                  (fun _ => Bot.answer_callback_query (c_id call)
                              (Some (py "❌ Ошибка"))) w) as Href.
    assert (_select_line cfg call w
            = try_except
                (Bot.answer_callback_query (c_id call)
                   (Some (py "❌ Неверная линия")))
                (fun _ => Bot.answer_callback_query (c_id call)
                            (Some (py "❌ Ошибка"))) w) as ->.
    { unfold _select_line, St. unfold try_except.
      unfold bind at 1. rewrite (check_state_passes _ _ _ _ _ Hm Hs).
      cbn [negb]. unfold bind at 1, lift at 1, index. rewrite Hline.
      rewrite bool_decide_eq_false_2 by done. reflexivity. }
    destruct Href as (Hdb & _ & _ & evs & Ht & Hans & _).
    { intros e. right. by eexists. }
    split; [done|]. by exists evs.
Qed.

(** X29. The name of a train entered by hand.  [_manual_train] stores
    the text, without the white space around it, and moves to the station
    step exactly when the text has a visible character and is not longer
    than [MAX_TRAIN_NAME_LENGTH]; otherwise it stores no name and leaves
    the user at the step of the manual entry. *)
Theorem manual_train_is_validated
  (message : message) (w : world) (dict : gmap pystr scalar) :
  let user_id := u_id (m_from_user message) in
  let train := strip (m_text message) in
  let d' := db (snd (_manual_train cfg message w)) in
  let valid :=
    existsb (fun c => negb (isspace_char c)) train
    && (len train <=? MAX_TRAIN_NAME_LENGTH cfg) in
  StateManager.get_data user_id (db w) = VDict dict →
  (valid = true →
   kept cfg user_id k_train (Some (SStr train)) (VInt (STATION (States cfg)))
     d')
  ∧ (valid = false →
     kept cfg user_id k_train (dict !! k_train)
       (StateManager.get_state cfg user_id (db w)) d').
Proof.
  intros user_id train d' valid Hd. subst d' valid.
  pose proof (validate_text_length_verdict train (MAX_TRAIN_NAME_LENGTH cfg)
                (py "Название")) as Hvalid.
  rewrite <- Hvalid. unfold _manual_train. fold user_id train.
  destruct (validate_text_length train (MAX_TRAIN_NAME_LENGTH cfg)
              (py "Название")) as [[|] error]; cbn [fst]; split; try done.
  - intros _.
    apply try_except_post; [|intros; apply db_inv_error_msg].
    apply (step_stores _ _ _ _ _ _ dict Hd).
    apply db_inv_bind; [apply db_inv_delete_msg|intros _].
    by apply db_inv_ask_station.
  - intros _.
    apply try_except_post; [|intros; apply db_inv_error_msg].
    apply db_inv_bind; [apply db_inv_delete_msg|intros _|].
    + apply db_inv_bind; [apply db_inv_send|intros msg].
      by apply db_inv_set_data_kept.
    + split; [|done]. unfold answer. by rewrite Hd.
Qed.

End Conversation.

Lemma start_registers_and_keeps_the_conversation_witness :
  user_states
    (db (snd (ReportBot._handle_start (from_7 (py "/start"))
                (world_of confirm_db [failed 5]))))
  = user_states confirm_db.
Proof.
  refine (proj1 (proj2 (proj2
            (start_registers_and_keeps_the_conversation
               (from_7 (py "/start")) (world_of confirm_db [failed 5]) _)))).
  by vm_compute.
Defined.

Lemma cancel_publishes_nothing_witness :
  ∃ evs,
    trace (snd (ReportBot._confirm_action sample_config
                  (press_7 (py "confirm_cancel"))
                  (world_of confirm_db [])))
    = [] ++ Call (SendMessage 7
                    (py "❌ Отменено. Используйте /start для новой попытки.")
                    None None) true :: evs
    ∧ sends evs = [].
Proof.
  destruct (cancel_publishes_nothing sample_config
              (press_7 (py "confirm_cancel"))
              (from_7 (py "5️⃣ Время обнаружения:"))
              (world_of confirm_db []))
    as (evs & Ht & Hs & _).
  - reflexivity.
  - by vm_compute.
  - by vm_compute.
  - exists evs. split; [exact Ht|exact Hs].
Defined.

Lemma line_is_checked_against_the_configuration_witness :
  kept sample_config 7 k_line (Some (SStr (py "1"))) (VInt 2)
    (db (snd (ReportBot._select_line sample_config (press_7 (py "line_1"))
                (world_of line_db [failed 5; failed 5; failed 5])))).
Proof.
  refine (proj1 (line_is_checked_against_the_configuration sample_config
                   (press_7 (py "line_1"))
                   (from_7 (py "5️⃣ Время обнаружения:"))
                   (world_of line_db [failed 5; failed 5; failed 5])
                   (py "1") {[ k_last_msg := SInt 70 ]} _ _ _ _) _).
  - reflexivity.
  - by vm_compute.
  - by vm_compute.
  - by vm_compute.
  - apply (bool_decide_unpack _). by vm_compute.
Defined.

Lemma manual_train_is_validated_witness :
  kept sample_config 7 k_train (Some (SStr (py "Ретросостав"))) (VInt 4)
    (db (snd (ReportBot._manual_train sample_config
                (from_7 (py "  Ретросостав "))
                (world_of manual_db [failed 5; failed 5])))).
Proof.
  refine (proj1 (manual_train_is_validated sample_config
                   (from_7 (py "  Ретросостав "))
                   (world_of manual_db [failed 5; failed 5])
                   {[ k_line := SStr (py "1"); k_last_msg := SInt 70 ]} _) _).
  - by vm_compute.
  - by vm_compute.
Defined.

Lemma confirmation_shows_what_is_published_witness :
  ∃ body rest,
    trace (snd (ReportBot._show_confirm sample_config 7 7
                  (c_from_user confirm_7) (world_of confirm_db [delivered 5])))
    = [] ++ Call (SendMessage 7
                    (py "8️⃣ Проверьте перед публикацией:" ++ nl ++ nl
                     ++ body)
                    (Some (InlineKeyboardMarkup 2
                             [[(py "✅ Опубликовать", py "confirm_publish");
                               (py "❌ Отменить", py "confirm_cancel")]]))
                    (Some (py "HTML"))) true :: rest.
Proof.
  destruct (confirmation_shows_what_is_published sample_config 7 7
              (c_from_user confirm_7) (world_of confirm_db [delivered 5])
              {[ k_line := SStr (py "1"); k_train := SStr (py "Ретросостав");
                 k_station := SStr (py "Автово");
                 k_direction := SStr (py "Девяткино");
                 k_time := SStr (py "14:55"); k_route := SStr (py "-");
                 k_comment := SStr (py "-"); k_last_msg := SInt 70 ]})
    as [Hshow _].
  - by vm_compute.
  - destruct Hshow as (body & rest & _ & Ht & _).
    + intros k Hk. unfold ReportBot.required in Hk.
      repeat (apply elem_of_cons in Hk as [->|Hk];
              [vm_compute; by eexists|]).
      by apply elem_of_nil in Hk.
    + exists body, rest. exact Ht.
Defined.

Lemma buttons_store_and_advance_witness :
  kept sample_config 7 k_station (Some (SStr (py "Автово"))) (VInt 5)
    (db (snd (ReportBot._select_station sample_config (press_7 (py "station_Автово"))
                (world_of station_db [failed 5; failed 5; failed 5])))).
Proof.
  refine (proj1 (proj2 (proj2
            (buttons_store_and_advance sample_config
               (press_7 (py "station_Автово"))
               (from_7 (py "5️⃣ Время обнаружения:"))
               (world_of station_db [failed 5; failed 5; failed 5])
               (py "Автово")
               {[ k_line := SStr (py "1");
                  k_train := SStr (py "Ретросостав");
                  k_last_msg := SInt 70 ]} _ _ _))) _);
    vm_compute; reflexivity.
Defined.

Lemma start_report_begins_afresh_witness :
  StateManager.get_state sample_config 7
    (db (snd (ReportBot._start_report sample_config (from_7 ReportBot.report_button)
                (world_of confirm_db [delivered 5]))))
  = VInt 1.
Proof.
  refine (proj1 (start_report_begins_afresh sample_config
                   (from_7 ReportBot.report_button)
                   (world_of confirm_db [delivered 5]) _)).
  vm_compute. reflexivity.
Defined.

Lemma time_out_of_range_stores_nothing_witness :
  ∃ w',
    ReportBot._select_time sample_config
      (press_7 (py "time_2000000000 минут назад"))
      (world_of time_db [delivered 5])
    = (Ok tt, w')
    ∧ db w' = time_db.
Proof.
  destruct (time_out_of_range_stores_nothing sample_config
              (press_7 (py "time_2000000000 минут назад"))
              (from_7 (py "5️⃣ Время обнаружения:"))
              (world_of time_db [delivered 5])
              (py "2000000000 минут назад") 2000000000)
    as (w' & Hrun & Hd & _).
  - reflexivity.
  - vm_compute. reflexivity.
  - vm_compute. reflexivity.
  - vm_compute. reflexivity.
  - vm_compute. intros [H _]. apply H. reflexivity.
  - exists w'. split; [exact Hrun|exact Hd].
Defined.

(* --------------------------------------------------------------------- *)
(** ** Printing and reading integers, splitting and joining *)
(* --------------------------------------------------------------------- *)

Section Strings.

Lemma bytes_of_String c s :
  bytes_of (String c s) = Z.of_N (N_of_ascii c) :: bytes_of s.
Proof. done. Qed.

Lemma pretty_N_char_code d :
  (d < 10)%N →
  let c := Z.of_N (N_of_ascii (pretty_N_char d)) in
  c = 48 + Z.of_N d ∧ (c =? 95) = false
  ∧ decimal_value c = Some (Z.of_N d).
Proof.
  intros Hd.
  assert (d = 0 ∨ d = 1 ∨ d = 2 ∨ d = 3 ∨ d = 4 ∨ d = 5 ∨ d = 6 ∨ d = 7
          ∨ d = 8 ∨ d = 9)%N as H by lia.
  repeat destruct H as [->|H]; try subst d; by vm_compute.
Qed.

Lemma pretty_N_char_range d :
  (d < 10)%N → 48 ≤ Z.of_N (N_of_ascii (pretty_N_char d)) ≤ 57.
Proof.
  intros Hd. destruct (pretty_N_char_code d Hd) as (Hc & _).
  rewrite Hc. lia.
Qed.

Lemma pretty_N_go_digits x :
  ∀ s, Forall digit_or_minus (bytes_of s) →
       Forall digit_or_minus (bytes_of (pretty_N_go x s)).
Proof.
  induction (N.lt_wf_0 x) as [x _ IH]. intros s Hs.
  destruct (decide (x = 0)%N) as [->|Hx]; [by rewrite pretty_N_go_0|].
  rewrite pretty_N_go_step by lia. apply IH; [apply N.div_lt; lia|].
  rewrite bytes_of_String. constructor; [|done].
  left. apply pretty_N_char_range, N.mod_lt. lia.
Qed.

Lemma str_of_int_chars n : Forall digit_or_minus (str_of_int n).
Proof.
  unfold str_of_int, pretty, pretty_Z.
  destruct n as [|p|p].
  - change (Forall digit_or_minus [48]).
    constructor; [left; lia|constructor].
  - unfold pretty, pretty_positive, pretty, pretty_N.
    destruct (decide _); [done|]. apply pretty_N_go_digits. constructor.
  - change (bytes_of ("-" +:+ pretty p)) with (45 :: bytes_of (pretty p)).
    constructor; [by right|].
    unfold pretty, pretty_positive, pretty, pretty_N.
    destruct (decide _); [done|]. apply pretty_N_go_digits. constructor.
Qed.

Lemma parse_pretty_N_go x :
  (0 < x)%N →
  ∀ s acc b,
    ∃ k, parse_digits acc b (bytes_of (pretty_N_go x s))
         = parse_digits (acc * k + Z.of_N x) true (bytes_of s).
Proof.
  induction (N.lt_wf_0 x) as [x _ IH]. intros Hx s acc b.
  rewrite pretty_N_go_step by done.
  assert (x `mod` 10 < 10)%N as Hd by (apply N.mod_lt; lia).
  destruct (pretty_N_char_code _ Hd) as (_ & H95 & Hval).
  pose proof (N.div_mod x 10 ltac:(lia)) as Hdm.
  destruct (decide (x `div` 10 = 0)%N) as [H0|Hpos].
  - rewrite H0, pretty_N_go_0, bytes_of_String. exists 10.
    cbn [parse_digits]. rewrite H95, Hval. f_equal. lia.
  - destruct (IH (x `div` 10)%N) with
      (s := String (pretty_N_char (x `mod` 10)) s) (acc := acc) (b := b)
      as [k Hk]; [apply N.div_lt; lia|lia|].
    exists (k * 10). rewrite Hk, bytes_of_String.
    cbn [parse_digits]. rewrite H95, Hval. f_equal. lia.
Qed.

Lemma digit_not_space c : digit_or_minus c → isspace_char c = false.
Proof.
  intros [H| ->]; [|by vm_compute].
  assert (c = 48 ∨ c = 49 ∨ c = 50 ∨ c = 51 ∨ c = 52 ∨ c = 53 ∨ c = 54
          ∨ c = 55 ∨ c = 56 ∨ c = 57) as Hc by lia.
  repeat destruct Hc as [->|Hc]; try subst c; by vm_compute.
Qed.

Lemma lstrip_id c t : isspace_char c = false → lstrip (c :: t) = c :: t.
Proof. intros H. simpl. by rewrite H. Qed.

Lemma strip_id s :
  Forall (fun c => isspace_char c = false) s → strip s = s.
Proof.
  intros Hs. unfold strip, rstrip.
  assert (∀ l, Forall (fun c => isspace_char c = false) l → lstrip l = l)
    as Hl.
  { intros [|c t] H; [done|]. apply lstrip_id. by inversion H. }
  rewrite (Hl s Hs), Hl, rev_involutive; [done|].
  by apply Forall_rev.
Qed.

Lemma digit_not_int_space c : digit_or_minus c → int_space c = false.
Proof.
  intros [H| ->]; [|by vm_compute].
  assert (c = 48 ∨ c = 49 ∨ c = 50 ∨ c = 51 ∨ c = 52 ∨ c = 53 ∨ c = 54
          ∨ c = 55 ∨ c = 56 ∨ c = 57) as Hc by lia.
  repeat destruct Hc as [->|Hc]; try subst c; by vm_compute.
Qed.

Lemma numeral_of_id s :
  Forall (fun c => int_space c = false) s → numeral_of s = s.
Proof.
  intros Hs. unfold numeral_of.
  assert (∀ l, Forall (fun c => int_space c = false) l → skip_spaces l = l)
    as Hl.
  { intros [|c t] H; [done|]. simpl. inversion H as [|? ? Hc _]; subst.
    by rewrite Hc. }
  rewrite (Hl s Hs), Hl, rev_involutive; [done|].
  by apply Forall_rev.
Qed.

Lemma int_of_str_unsigned s :
  match numeral_of s with
  | c :: _ => c ≠ 43 ∧ c ≠ 45
  | [] => True
  end →
  int_of_str s = digits_value (numeral_of s).
Proof.
  unfold int_of_str. destruct (numeral_of s) as [|c t]; [done|].
  intros [H43 H45]. repeat case_match; subst; done.
Qed.

(** A number below [10 ^ k] is printed with at most [k] digits. *)
Lemma pretty_N_go_length (k : nat) :
  ∀ x s, (x < 10 ^ N.of_nat k)%N →
         (length (bytes_of (pretty_N_go x s)) ≤ k + length (bytes_of s))%nat.
Proof.
  induction k as [|k IH]; intros x s Hx.
  - assert (x = 0%N) as -> by (simpl in Hx; lia).
    rewrite pretty_N_go_0. lia.
  - destruct (decide (x = 0)%N) as [->|Hpos].
    + rewrite pretty_N_go_0. lia.
    + rewrite pretty_N_go_step by lia.
      etrans; [apply IH|].
      * rewrite Nat2N.inj_succ, N.pow_succ_r' in Hx.
        apply N.Div0.div_lt_upper_bound. lia.
      * rewrite bytes_of_String. simpl. lia.
Qed.

Lemma count_digits_le s : count_digits s ≤ Z.of_nat (length s).
Proof.
  unfold count_digits. apply inj_le, length_filter.
Qed.

Lemma digits_value_parsed s n :
  parse_digits 0 false s = Some n →
  digits_value s = if max_str_digits <? count_digits s then None else Some n.
Proof. intros Hp. unfold digits_value. by rewrite Hp. Qed.

(** Reading back a printed integer: the digits printed decide, and a
    number below [10 ^ k] has at most [k] of them. *)
Lemma int_of_str_of_int_digits n :
  ∃ body : pystr,
    int_of_str (str_of_int n)
    = (if max_str_digits <? count_digits body then None else Some n)
    ∧ ∀ k : nat, Z.abs n < 10 ^ Z.of_nat k →
                 (length body ≤ Nat.max 1 k)%nat.
Proof.
  pose proof (str_of_int_chars n) as Hchars.
  assert (numeral_of (str_of_int n) = str_of_int n) as Hstrip.
  { apply numeral_of_id. eapply Forall_impl; [exact Hchars|].
    intros c. apply digit_not_int_space. }
  assert (∀ p (k : nat), Z.pos p < 10 ^ Z.of_nat k →
            (length (bytes_of (pretty_N_go (N.pos p) "")) ≤ Nat.max 1 k)%nat)
    as Hshort.
  { intros p k Hp.
    pose proof (pretty_N_go_length k (N.pos p) "") as Hlen.
    cbn [bytes_of list_ascii_of_string map length] in Hlen.
    assert (N.pos p < 10 ^ N.of_nat k)%N as Hlt.
    { apply N2Z.inj_lt. rewrite N2Z.inj_pow, nat_N_Z. exact Hp. }
    specialize (Hlen Hlt). lia. }
  unfold str_of_int, pretty, pretty_Z in *.
  destruct n as [|p|p].
  - exists [48]. split; [by vm_compute|]. intros k _. simpl. lia.
  - unfold pretty, pretty_positive, pretty, pretty_N in *.
    destruct (decide _); [done|].
    destruct (parse_pretty_N_go (N.pos p) ltac:(lia) "" 0 false) as [k' Hk'].
    assert (∀ x s, (0 < x)%N →
              match bytes_of (pretty_N_go x s) with
              | c :: _ => 48 ≤ c ≤ 57
              | [] => False
              end) as Hfirst.
    { clear. intros x. induction (N.lt_wf_0 x) as [x _ IH]. intros s Hx.
      rewrite pretty_N_go_step by done.
      destruct (decide (x `div` 10 = 0)%N) as [H0|Hpos].
      - rewrite H0, pretty_N_go_0, bytes_of_String.
        apply pretty_N_char_range, N.mod_lt. lia.
      - apply IH; [apply N.div_lt; lia|by apply N.neq_0_lt_0]. }
    exists (bytes_of (pretty_N_go (N.pos p) "")). split.
    + rewrite int_of_str_unsigned.
      * rewrite Hstrip. apply digits_value_parsed.
        rewrite Hk'. simpl. done.
      * rewrite Hstrip. specialize (Hfirst (N.pos p) "" ltac:(lia)).
        destruct (bytes_of _); [done|]. lia.
    + intros k Hk. apply Hshort. lia.
  - change (bytes_of ("-" +:+ pretty p)) with (45 :: bytes_of (pretty p))
      in *.
    unfold pretty, pretty_positive, pretty, pretty_N in *.
    destruct (decide _); [done|].
    destruct (parse_pretty_N_go (N.pos p) ltac:(lia) "" 0 false) as [k' Hk'].
    exists (bytes_of (pretty_N_go (N.pos p) "")). split.
    + unfold int_of_str. rewrite Hstrip.
      rewrite (digits_value_parsed _ (Z.pos p)) by (rewrite Hk'; done).
      by destruct (_ <? _).
    + intros k Hk. apply Hshort. lia.
Qed.

Lemma int_of_str_of_int n (k : nat) :
  Z.abs n < 10 ^ Z.of_nat k → Z.of_nat k ≤ max_str_digits →
  int_of_str (str_of_int n) = Some n.
Proof.
  intros Hn Hk. destruct (int_of_str_of_int_digits n) as (body & -> & Hlen).
  specialize (Hlen k Hn). pose proof (count_digits_le body).
  unfold max_str_digits in *.
  by rewrite (proj2 (Z.ltb_ge _ _)) by lia.
Qed.

Lemma int_of_str_of_int_inv n m :
  int_of_str (str_of_int n) = Some m → m = n.
Proof.
  destruct (int_of_str_of_int_digits n) as (body & -> & _).
  destruct (_ <? _); [done|]. by intros [= ->].
Qed.

(** An id that SQLite can hold is read back from its print. *)
Lemma int_of_str_int64 n :
  Database.int64 n = true → int_of_str (str_of_int n) = Some n.
Proof.
  intros H. apply (int_of_str_of_int n 19); [|by vm_compute].
  unfold Database.int64 in H. apply andb_true_iff in H as [Hlo Hhi].
  apply Z.leb_le in Hlo. apply Z.ltb_lt in Hhi.
  change (Z.of_nat 19) with 19. lia.
Qed.

Lemma split_sep_plain sep cur s :
  sep ∉ s → split_sep sep None cur s = [rev cur ++ s].
Proof.
  revert cur. induction s as [|c t IH]; intros cur Hs.
  - simpl. by rewrite app_nil_r.
  - apply not_elem_of_cons in Hs as [Hc Ht]. simpl.
    rewrite (proj2 (Z.eqb_neq c sep)) by done. simpl.
    rewrite IH by done. simpl. by rewrite <- app_assoc.
Qed.

Lemma split_sep_nonempty sep cur s : split_sep sep None cur s ≠ [].
Proof.
  revert cur. induction s as [|c t IH]; intros cur; simpl; [done|].
  destruct (_ && _); [done|apply IH].
Qed.

Lemma split_sep_cons sep cur s r :
  split_sep sep None cur (s ++ sep :: r)
  = split_sep sep None cur s ++ split_sep sep None [] r.
Proof.
  revert cur. induction s as [|c t IH]; intros cur.
  - simpl. rewrite Z.eqb_refl. done.
  - simpl. destruct (c =? sep); simpl; [f_equal|]; apply IH.
Qed.

Lemma join_split_sep sep cur s :
  join [sep] (split_sep sep None cur s) = rev cur ++ s.
Proof.
  revert cur. induction s as [|c t IH]; intros cur.
  - simpl. by rewrite app_nil_r.
  - simpl. destruct (Z.eqb_spec c sep) as [->|Hne]; simpl.
    + destruct (split_sep sep None [] t) as [|x l] eqn:E;
        [by destruct (split_sep_nonempty sep [] t)|].
      rewrite <- E, IH. done.
    + rewrite IH. simpl. by rewrite <- app_assoc.
Qed.

End Strings.

(* --------------------------------------------------------------------- *)
(** ** admin/gong.py and admin/ban.py: texts and payloads read back *)
(* --------------------------------------------------------------------- *)

Section Payloads.
Context (cfg : config).
Import BanManager GongManager.

Lemma str_of_int_no c n : ¬ digit_or_minus c → c ∉ str_of_int n.
Proof.
  intros Hc Hin. pose proof (str_of_int_chars n) as H.
  rewrite Forall_forall in H. by apply Hc, H.
Qed.

Lemma fallback_shape (hdr text tail : pystr) :
  10 ∉ hdr → 10 ∉ tail →
  fallback_text (hdr ++ nl ++ nl ++ text ++ nl ++ nl ++ tail)
  = Some (nl ++ text).
Proof.
  intros Hhdr Htail. unfold fallback_text, split_on, nl.
  change (hdr ++ [10] ++ [10] ++ text ++ [10] ++ [10] ++ tail)
    with (hdr ++ 10 :: ([] ++ 10 :: (text ++ 10 :: ([] ++ 10 :: tail)))).
  rewrite split_sep_cons, (split_sep_plain 10 [] hdr) by done.
  rewrite split_sep_cons, (split_sep_plain 10 [] []) by apply not_elem_of_nil.
  rewrite split_sep_cons.
  rewrite split_sep_cons, (split_sep_plain 10 [] []) by apply not_elem_of_nil.
  rewrite (split_sep_plain 10 [] tail) by done.
  simpl rev. rewrite !app_nil_l.
  pose proof (join_split_sep 10 [] text) as Hjoin.
  pose proof (split_sep_nonempty 10 [] text) as Hne.
  destruct (split_sep 10 None [] text) as [|x l]; [done|].
  unfold pystr in *. cbn [app length].
  cbn [Nat.leb Nat.sub drop].
  rewrite (app_comm_cons l _ x), (app_comm_cons (x :: l) _ []).
  replace (length (l ++ [[]; tail]) - 0)%nat
    with (length ([] :: x :: l))
    by (rewrite length_app, Nat.sub_0_r, Nat.add_comm; reflexivity).
  rewrite take_app_length.
  simpl in Hjoin. cbn [join app]. by rewrite Hjoin.
Qed.

(** X20. The fallback of the broadcast reads the text back from the
    confirmation that [_handle_gong_text] sent, with a line break in
    front of it: whatever the text and the number of recipients, the
    lines between the first and the last two of the confirmation are an
    empty line and the text.  So the fallback never comes back empty. *)
Theorem fallback_recovers_text_after_newline
  (recipients : Z) (text : pystr) :
  fallback_text (confirm_text recipients text) = Some (nl ++ text)
  ∧ no_text (fallback_text (confirm_text recipients text)) = false.
Proof.
  assert (fallback_text (confirm_text recipients text) = Some (nl ++ text))
    as Hfb.
  { assert (10 ∉ py "📢 Рассылка для ") as Ha
      by (apply (bool_decide_unpack _); by vm_compute).
    assert (10 ∉ py " пользователей:") as Hb
      by (apply (bool_decide_unpack _); by vm_compute).
    assert (10 ∉ py "❓ Подтвердите рассылку:") as Htail
      by (apply (bool_decide_unpack _); by vm_compute).
    unfold confirm_text. rewrite 2!(app_assoc _ _ (nl ++ _)).
    apply fallback_shape; [|exact Htail].
    rewrite !elem_of_app. intros [H|[H|H]].
    - by apply Ha.
    - revert H. apply str_of_int_no. unfold digit_or_minus. lia.
    - by apply Hb. }
  split; [exact Hfb|]. rewrite Hfb. reflexivity.
Qed.

Lemma button_payload (prefix1 prefix2 : pystr) (n : Z) :
  95 ∉ prefix1 → 95 ∉ prefix2 →
  index (split_on 95 (prefix1 ++ 95 :: prefix2 ++ 95 :: str_of_int n)) 2
  = Ok (str_of_int n).
Proof.
  intros H1 H2. unfold split_on.
  rewrite split_sep_cons, (split_sep_plain 95 [] prefix1) by done.
  rewrite split_sep_cons, (split_sep_plain 95 [] prefix2) by done.
  rewrite (split_sep_plain 95 [] (str_of_int n)).
  - done.
  - apply str_of_int_no. unfold digit_or_minus. lia.
Qed.

Lemma button_user_id_reads call prefix1 prefix2 n :
  95 ∉ prefix1 → 95 ∉ prefix2 →
  c_data call = prefix1 ++ 95 :: prefix2 ++ 95 :: str_of_int n →
  (Database.int64 n = true → button_user_id call = Ok n)
  ∧ (∀ m, button_user_id call = Ok m → m = n).
Proof.
  intros H1 H2 Hdata. unfold button_user_id.
  rewrite Hdata, button_payload by done. split.
  - intros Hn. by rewrite int_of_str_int64.
  - intros m. destruct (int_of_str (str_of_int n)) as [m'|] eqn:E; [|done].
    intros [= <-]. by apply int_of_str_of_int_inv.
Qed.

Lemma is_admin_true user_id :
  user_id ∈ ADMINS cfg → negb (is_admin cfg user_id) = false.
Proof. intros H. unfold is_admin. by rewrite bool_decide_eq_true_2. Qed.

Lemma ban_user_effect now user_id why d d' :
  Database.ban_user now user_id why d = Ok d' →
  Database.is_banned user_id d' = true
  ∧ (∀ other, other ≠ user_id →
       Database.is_banned other d' = Database.is_banned other d)
  ∧ users d' = users d ∧ user_states d' = user_states d.
Proof.
  unfold Database.ban_user. destruct (Database.int64 user_id); [|done].
  intros [= <-].
  unfold Database.is_banned, Database.with_banned. simpl.
  split_and!; try done.
  - apply bool_decide_eq_true_2. rewrite lookup_insert_eq. by eexists.
  - intros other Hne. apply bool_decide_ext. by rewrite lookup_insert_ne.
Qed.

Lemma unban_user_effect user_id d d' :
  Database.unban_user user_id d = Ok d' →
  Database.is_banned user_id d' = false
  ∧ (∀ other, other ≠ user_id →
       Database.is_banned other d' = Database.is_banned other d)
  ∧ users d' = users d ∧ user_states d' = user_states d.
Proof.
  unfold Database.unban_user. destruct (Database.int64 user_id); [|done].
  intros [= <-].
  unfold Database.is_banned, Database.with_banned. simpl.
  split_and!; try done.
  - apply bool_decide_eq_false_2. rewrite lookup_delete_eq. by intros [? ?].
  - intros other Hne. apply bool_decide_ext. by rewrite lookup_delete_ne.
Qed.

Lemma ban_user_returns now user_id why d :
  Database.int64 user_id = true →
  ∃ d', Database.ban_user now user_id why d = Ok d'.
Proof. intros H. unfold Database.ban_user. rewrite H. by eexists. Qed.

Lemma unban_user_returns user_id d :
  Database.int64 user_id = true →
  ∃ d', Database.unban_user user_id d = Ok d'.
Proof. intros H. unfold Database.unban_user. rewrite H. by eexists. Qed.

Lemma ban_user_overflow now user_id why d :
  Database.int64 user_id = false →
  Database.ban_user now user_id why d = Raise OverflowError.
Proof. intros H. unfold Database.ban_user. by rewrite H. Qed.

Lemma unban_user_overflow user_id d :
  Database.int64 user_id = false →
  Database.unban_user user_id d = Raise OverflowError.
Proof. intros H. unfold Database.unban_user. by rewrite H. Qed.

(** A write that raises leaves the world as it is. *)
Lemma db_try_raises f w e :
  f (current_timestamp w) (db w) = Raise e → db_try f w = (Raise e, w).
Proof. intros H. unfold db_try. by rewrite H. Qed.

Lemma db_try_returns f w d' :
  f (current_timestamp w) (db w) = Ok d' →
  db_try f w = (Ok tt, set_db d' w).
Proof. intros H. unfold db_try. by rewrite H. Qed.

(** A button whose id is not taken: whatever is read from the payload,
    the press is answered with the error text and nothing else happens. *)
Lemma button_fails_early (call : callback_query) (user_id : Z)
  (write : Z → Z → database → result database) (k : Z → M unit) (w : world) :
  (∀ m, button_user_id call = Ok m → m = user_id) →
  (∀ now d, ∃ e, write user_id now d = Raise e) →
  let w' := snd (try_except
                   (user_id <- lift (button_user_id call) ;;
                    db_try (write user_id) ;;; k user_id)
                   (fun _ => Bot.answer_callback_query (c_id call)
                               (Some (py "❌ Ошибка"))) w) in
  db w' = db w
  ∧ trace w'
    = trace w
      ++ [Call (AnswerCallbackQuery (c_id call) (Some (py "❌ Ошибка")))
            (next_ok w)].
Proof.
  intros Hread Hwrite w'. subst w'.
  destruct (answer_outcome (c_id call) (Some (py "❌ Ошибка")) w)
    as (w1 & Hrun & Hdb & _ & _ & Htr).
  destruct (button_user_id call) as [m|e] eqn:Hid.
  - rewrite (Hread m eq_refl).
    rewrite (try_bind_ok _ _ _ w user_id w) by done.
    destruct (Hwrite (current_timestamp w) (db w)) as [e He].
    rewrite (try_bind_raise _ _ _ w e w) by (by apply db_try_raises).
    rewrite Hrun. done.
  - rewrite (try_bind_raise _ _ _ w e w) by done.
    rewrite Hrun. done.
Qed.

(** X21. The buttons of the list of recent users act on the user they
    name.  Pressed by an administrator, the button with the payload
    [ban_user_<id>] leaves that user banned and the button
    [unban_user_<id>] leaves that user not banned, for every id that fits
    the 64 bits of SQLite and whatever the transport does with the
    answers; nobody else's ban changes, and neither do the users and the
    conversations.  For any other id the press is answered with the error
    text and the store is left as it is. *)
Theorem buttons_act_on_the_user_they_name
  (call : callback_query) (user_id : Z) (w : world) :
  u_id (c_from_user call) ∈ ADMINS cfg →
  (c_data call = py "ban" ++ 95 :: py "user" ++ 95 :: str_of_int user_id →
   let w' := snd (_callback_ban_user cfg call w) in
   (Database.int64 user_id = true →
    Database.is_banned user_id (db w') = true
    ∧ (∀ other, other ≠ user_id →
         Database.is_banned other (db w') = Database.is_banned other (db w))
    ∧ users (db w') = users (db w)
    ∧ user_states (db w') = user_states (db w))
   ∧ (Database.int64 user_id = false →
      db w' = db w
      ∧ trace w'
        = trace w
          ++ [Call (AnswerCallbackQuery (c_id call) (Some (py "❌ Ошибка")))
                (next_ok w)]))
  ∧ (c_data call = py "unban" ++ 95 :: py "user" ++ 95 :: str_of_int user_id →
     let w' := snd (_callback_unban_user cfg call w) in
     (Database.int64 user_id = true →
      Database.is_banned user_id (db w') = false
      ∧ (∀ other, other ≠ user_id →
           Database.is_banned other (db w')
           = Database.is_banned other (db w))
      ∧ users (db w') = users (db w)
      ∧ user_states (db w') = user_states (db w))
     ∧ (Database.int64 user_id = false →
        db w' = db w
        ∧ trace w'
          = trace w
            ++ [Call (AnswerCallbackQuery (c_id call)
                        (Some (py "❌ Ошибка")))
                  (next_ok w)])).
Proof.
  intros Hadmin. apply is_admin_true in Hadmin.
  assert (95 ∉ py "user") as Huser
    by (apply (bool_decide_unpack _); by vm_compute).
  assert (95 ∉ py "ban") as Hban
    by (apply (bool_decide_unpack _); by vm_compute).
  assert (95 ∉ py "unban") as Hunban
    by (apply (bool_decide_unpack _); by vm_compute).
  split.
  - intros Hdata w'. subst w'.
    destruct (button_user_id_reads call (py "ban") (py "user") user_id
                Hban Huser Hdata) as [Hid Hinv].
    split.
    + intros H64. specialize (Hid H64).
      destruct (ban_user_returns (current_timestamp w) user_id
                  button_reason (db w) H64) as [d1 Hd1].
      set (P := fun d : database =>
                  Database.is_banned user_id d = true
                  ∧ (∀ other, other ≠ user_id →
                       Database.is_banned other d
                       = Database.is_banned other (db w))
                  ∧ users d = users (db w)
                  ∧ user_states d = user_states (db w)).
      change (P (db (snd (_callback_ban_user cfg call w)))).
      unfold _callback_ban_user. rewrite Hadmin.
      apply try_except_post; [|intros; apply db_inv_answer].
      unfold bind at 1, lift at 1. rewrite Hid.
      unfold bind at 1. rewrite (db_try_returns _ w d1) by done.
      apply db_inv_bind; [apply db_inv_read|intros info|].
      * apply db_inv_bind; [apply db_inv_answer|intros _].
        apply db_inv_bind; [apply db_inv_the_message|intros m].
        apply db_inv_edit.
      * unfold set_db. cbn [db snd]. by eapply ban_user_effect.
    + intros H64. unfold _callback_ban_user. rewrite Hadmin.
      apply (button_fails_early call user_id
               (fun user_id now => Database.ban_user now user_id
                                     button_reason)); [done|].
      intros now d. eexists. by apply ban_user_overflow.
  - intros Hdata w'. subst w'.
    destruct (button_user_id_reads call (py "unban") (py "user") user_id
                Hunban Huser Hdata) as [Hid Hinv].
    split.
    + intros H64. specialize (Hid H64).
      destruct (unban_user_returns user_id (db w) H64) as [d1 Hd1].
      set (P := fun d : database =>
                  Database.is_banned user_id d = false
                  ∧ (∀ other, other ≠ user_id →
                       Database.is_banned other d
                       = Database.is_banned other (db w))
                  ∧ users d = users (db w)
                  ∧ user_states d = user_states (db w)).
      change (P (db (snd (_callback_unban_user cfg call w)))).
      unfold _callback_unban_user. rewrite Hadmin.
      apply try_except_post; [|intros; apply db_inv_answer].
      unfold bind at 1, lift at 1. rewrite Hid.
      unfold bind at 1. rewrite (db_try_returns _ w d1) by done.
      apply db_inv_bind; [apply db_inv_read|intros info|].
      * apply db_inv_bind; [apply db_inv_answer|intros _].
        apply db_inv_bind; [apply db_inv_the_message|intros m].
        apply db_inv_edit.
      * unfold set_db. cbn [db snd]. by eapply unban_user_effect.
    + intros H64. unfold _callback_unban_user. rewrite Hadmin.
      apply (button_fails_early call user_id
               (fun user_id _ => Database.unban_user user_id)); [done|].
      intros now d. eexists. by apply unban_user_overflow.
Qed.

(** X22. [/unban].  Sent by an administrator with a second word that
    reads as an integer, the command leaves the user with that id not
    banned; with a handle [@name] that the table of users knows, the user
    of that handle; what follows the second word is ignored.  With a
    handle that is unknown, a word that is neither, or an id that does
    not fit the 64 bits of SQLite, the store is left as it is (and in a
    table that SQLite can hold such an id is not banned).  In each case
    nobody else's ban changes, whatever becomes of the replies. *)
Theorem unban_command_lifts_the_ban
  (message : message) (cmd ident : pystr) (rest : list pystr) (w : world) :
  let d' := db (snd (_handle_unban cfg message w)) in
  let lifted user_id :=
    (Database.int64 user_id = true
     ∨ (∀ u, Database.is_banned u (db w) = true → Database.int64 u = true) →
     Database.is_banned user_id d' = false)
    ∧ (∀ other, other ≠ user_id →
         Database.is_banned other d' = Database.is_banned other (db w))
    ∧ users d' = users (db w) ∧ user_states d' = user_states (db w)
    ∧ (Database.int64 user_id = false → d' = db w) in
  u_id (m_from_user message) ∈ ADMINS cfg →
  split (m_text message) = cmd :: ident :: rest →
  (∀ user_id,
     startswith (py "@") ident = false → int_of_str ident = Some user_id →
     lifted user_id)
  ∧ (∀ user_id,
       startswith (py "@") ident = true →
       Database.get_user_id_by_username (drop 1 ident) (db w)
       = Some user_id →
       user_id ≠ 0 → lifted user_id)
  ∧ (startswith (py "@") ident = true →
     Database.get_user_id_by_username (drop 1 ident) (db w) = None →
     d' = db w)
  ∧ (startswith (py "@") ident = false → int_of_str ident = None →
     d' = db w).
Proof.
  intros d' lifted Hadmin Hsplit. subst d' lifted. cbv beta.
  apply is_admin_true in Hadmin.
  set (P := fun (user_id : Z) (d : database) =>
              (Database.int64 user_id = true
               ∨ (∀ u, Database.is_banned u (db w) = true →
                       Database.int64 u = true) →
               Database.is_banned user_id d = false)
              ∧ (∀ other, other ≠ user_id →
                   Database.is_banned other d
                   = Database.is_banned other (db w))
              ∧ users d = users (db w)
              ∧ user_states d = user_states (db w)
              ∧ (Database.int64 user_id = false → d = db w)).
  assert (∀ user_id (k : M unit),
            db_inv (P user_id) k →
            P user_id
              (db (snd (try_except
                          (db_try (fun _ => Database.unban_user user_id)
                           ;;; k)
                          (fun _ => reply message
                                      (py "❌ Ошибка при разбане")) w))))
    as Hstep.
  { intros user_id k Hk.
    destruct (Database.int64 user_id) eqn:H64.
    - destruct (unban_user_returns user_id (db w) H64) as [d1 Hd1].
      apply try_except_post; [|intros; apply db_inv_ban_reply].
      unfold bind at 1. rewrite (db_try_returns _ w d1) by done.
      apply Hk. unfold set_db. cbn [db snd].
      destruct (unban_user_effect user_id (db w) d1 Hd1)
        as (Hno & Hother & Hu & Hs).
      unfold P. rewrite H64. by split_and!.
    - rewrite (try_bind_raise _ _ _ w OverflowError w)
        by (by apply db_try_raises, unban_user_overflow).
      apply db_inv_ban_reply. unfold P. rewrite H64. split_and!; try done.
      intros [?|Hwf]; [done|].
      destruct (Database.is_banned user_id (db w)) eqn:Hb; [|done].
      specialize (Hwf user_id Hb). congruence. }
  split_and!.
  - intros user_id Hat Hint.
    change (P user_id (db (snd (_handle_unban cfg message w)))).
    unfold _handle_unban. rewrite Hadmin, Hsplit, Hat, Hint.
    apply Hstep, db_inv_ban_reply.
  - intros user_id Hat Hfound Hne.
    change (P user_id (db (snd (_handle_unban cfg message w)))).
    unfold _handle_unban. rewrite Hadmin, Hsplit, Hat.
    rewrite (try_bind_ok _ _ _ w (Some user_id) w)
      by (unfold db_read; by rewrite Hfound).
    rewrite (proj2 (Z.eqb_neq user_id 0)) by done. cbn [negb].
    apply Hstep, db_inv_ban_reply.
  - intros Hat Hnone.
    change ((fun d => d = db w) (db (snd (_handle_unban cfg message w)))).
    unfold _handle_unban. rewrite Hadmin, Hsplit, Hat.
    apply try_except_post; [|intros; apply db_inv_ban_reply].
    unfold bind at 1, db_read at 1. rewrite Hnone.
    by apply db_inv_ban_reply.
  - intros Hat Hnone.
    change ((fun d => d = db w) (db (snd (_handle_unban cfg message w)))).
    unfold _handle_unban. rewrite Hadmin, Hsplit, Hat, Hnone.
    apply try_except_post; [|intros; apply db_inv_ban_reply].
    by apply db_inv_ban_reply.
Qed.

End Payloads.

Lemma unban_command_lifts_the_ban_witness :
  Database.is_banned 7
    (db (snd (BanManager._handle_unban sample_config
                (from_1 (py "/unban 7 please"))
                (world_of banned_db [failed 5; failed 5]))))
  = false.
Proof.
  refine (proj1 (proj1 (unban_command_lifts_the_ban sample_config
                          (from_1 (py "/unban 7 please"))
                          (py "/unban") (py "7") [py "please"]
                          (world_of banned_db [failed 5; failed 5])
                          _ _)
                   7 _ _)
            (or_introl eq_refl)).
  - apply (bool_decide_unpack _). by vm_compute.
  - by vm_compute.
  - by vm_compute.
  - by vm_compute.
Defined.

Lemma buttons_act_on_the_user_they_name_witness :
  Database.is_banned 7
    (db (snd (BanManager._callback_ban_user sample_config
                (press_1 (py "ban" ++ 95 :: py "user" ++ 95 :: str_of_int 7))
                (world_of empty_db [failed 5; failed 5]))))
  = true.
Proof.
  refine (proj1 (proj1 (proj1 (buttons_act_on_the_user_they_name
                                 sample_config
                                 (press_1 (py "ban" ++ 95 :: py "user" ++ 95
                                           :: str_of_int 7))
                                 7 (world_of empty_db [failed 5; failed 5])
                                 _)
                          eq_refl)
                   eq_refl)).
  apply (bool_decide_unpack _). by vm_compute.
Defined.

(* --------------------------------------------------------------------- *)
(** ** admin/trains.py and admin/gong.py: the modes of an administrator *)
(* --------------------------------------------------------------------- *)

Section WorldInvariants.
Context (allowed : api_call → Prop) (Q : world → Prop).
Hypothesis Q_api : ∀ c w, allowed c → Q w → Q (snd (api c w)).

Lemma w_inv_ret {A} (a : A) : w_inv Q (ret a).
Proof. by intros w. Qed.

Lemma w_inv_bind {A B} (m : M A) (k : A → M B) :
  w_inv Q m → (∀ a, w_inv Q (k a)) → w_inv Q (bind m k).
Proof.
  intros Hm Hk w Hw. unfold bind. specialize (Hm w Hw).
  destruct (m w) as [[a|e] w1]; simpl in *; [by apply Hk|done].
Qed.

Lemma w_inv_try {A} (m : M A) (h : exn → M A) :
  w_inv Q m → (∀ e, w_inv Q (h e)) → w_inv Q (try_except m h).
Proof.
  intros Hm Hh w Hw. unfold try_except. specialize (Hm w Hw).
  destruct (m w) as [[a|e] w1]; simpl in *; [done|by apply Hh].
Qed.

Lemma w_inv_read {A} (f : database → A) : w_inv Q (db_read f).
Proof. by intros w. Qed.

Lemma w_inv_api c : allowed c → w_inv Q (api c).
Proof. intros Hc w. by apply Q_api. Qed.

Lemma w_inv_reply_to chat mid text mk :
  allowed (ReplyTo chat mid text mk) →
  w_inv Q (Bot.reply_to chat mid text mk).
Proof.
  intros Hc. unfold Bot.reply_to.
  apply w_inv_bind; [by apply w_inv_api|intros; apply w_inv_ret].
Qed.

Lemma w_inv_send chat text mk pm :
  allowed (SendMessage chat text mk pm) →
  w_inv Q (Bot.send_message chat text mk pm).
Proof.
  intros Hc. unfold Bot.send_message.
  apply w_inv_bind; [by apply w_inv_api|intros; apply w_inv_ret].
Qed.

Lemma w_try_post {A} (m : M A) h w :
  Q (snd (m w)) → (∀ e, w_inv Q (h e)) → Q (snd (try_except m h w)).
Proof.
  intros Hm Hh. unfold try_except.
  destruct (m w) as [[a|e] w1]; simpl in *; [done|by apply Hh].
Qed.

End WorldInvariants.

Section Modes.
Context (cfg : config).
Import TrainsManager GongManager.

Lemma aside_api user_id w0 c w :
  to_sender user_id c → aside user_id w0 w → aside user_id w0 (snd (api c w)).
Proof.
  intros Hc (Hd & Hm & evs & Ht & Ho). unfold aside.
  rewrite api_db, api_trace. split; [done|]. split.
  { unfold api. by destruct (r_ok _). }
  exists (evs ++ [Call c (r_ok (hd default_reply (net w)))]).
  rewrite Ht, <- app_assoc. split; [done|].
  unfold only_to, sends in *. rewrite omap_app. apply Forall_app.
  split; [done|]. destruct c; simpl; try constructor; [done|constructor].
Qed.

Lemma aside_refl user_id w : aside user_id w w.
Proof.
  split; [done|]. split; [done|]. exists []. rewrite app_nil_r.
  split; [done|]. constructor.
Qed.

(** X23. The two modes of an administrator.  [/edittrains] puts the
    sender into the editing mode and [/gong] into the mode that waits for
    the text of a broadcast; the next message handled in the mode
    ([_handle_edit] or [_cancel_edit], [_handle_gong_text]) ends it,
    whatever the message says and whether or not any reply is delivered.
    Entering a mode, cancelling the edit and handing in the text of a
    broadcast change nothing in the store and nobody else's mode, and send
    no message to anybody but the sender: nothing is broadcast before the
    confirmation. *)
Theorem modes_begin_and_end (message : message) (w : world) :
  let user_id := u_id (m_from_user message) in
  user_id ∈ ADMINS cfg →
  (user_id ∈ editing_users (snd (_start_edit cfg message w))
   ∧ aside user_id w (snd (_start_edit cfg message w)))
  ∧ ((user_id ∉ editing_users (snd (_cancel_edit cfg message w)))
     ∧ aside user_id w (snd (_cancel_edit cfg message w)))
  ∧ (user_id ∉ editing_users (snd (_handle_edit cfg message w)))
  ∧ (user_id ∈ waiting_for_text (snd (_start_gong cfg message w))
     ∧ aside user_id w (snd (_start_gong cfg message w)))
  ∧ ((user_id ∉ waiting_for_text (snd (_handle_gong_text cfg message w)))
     ∧ aside user_id w (snd (_handle_gong_text cfg message w))).
Proof.
  intros user_id Hadmin.
  assert (negb (is_admin cfg user_id) = false) as Hna
    by (unfold is_admin; by rewrite bool_decide_eq_true_2).
  set (inE := fun w' : world =>
                user_id ∈ editing_users w' ∧ aside user_id w w').
  set (outE := fun w' : world =>
                 (user_id ∉ editing_users w') ∧ aside user_id w w').
  set (inW := fun w' : world =>
                user_id ∈ waiting_for_text w' ∧ aside user_id w w').
  set (outW := fun w' : world =>
                 (user_id ∉ waiting_for_text w') ∧ aside user_id w w').
  assert (∀ c w1, to_sender user_id c → inE w1 → inE (snd (api c w1)))
    as HinE.
  { intros c w1 Hc [Hin Ha]. split; [|by apply aside_api].
    unfold api. by destruct (r_ok _). }
  assert (∀ c w1, to_sender user_id c → outE w1 → outE (snd (api c w1)))
    as HoutE.
  { intros c w1 Hc [Hin Ha]. split; [|by apply aside_api].
    unfold api. by destruct (r_ok _). }
  assert (∀ c w1, to_sender user_id c → inW w1 → inW (snd (api c w1)))
    as HinW.
  { intros c w1 Hc [Hin Ha]. split; [|by apply aside_api].
    unfold api. by destruct (r_ok _). }
  assert (∀ c w1, to_sender user_id c → outW w1 → outW (snd (api c w1)))
    as HoutW.
  { intros c w1 Hc [Hin Ha]. split; [|by apply aside_api].
    unfold api. by destruct (r_ok _). }
  assert (∀ w1, aside user_id w w1 →
            ∀ E W, (∀ other, other ≠ user_id →
                      (other ∈ E ↔ other ∈ editing_users w1)
                      ∧ (other ∈ W ↔ other ∈ waiting_for_text w1)) →
            aside user_id w
              {| db := db w1; clock := clock w1; utc_offset := utc_offset w1;
                 net := net w1; trace := trace w1;
                 rate_limiter := rate_limiter w1;
                 waiting_for_text := W; editing_users := E |}) as Hmode.
  { intros w1 (Hd & Hm & Ht) E W HEW. split; [done|]. split; [|done].
    intros other Hne. cbn [editing_users waiting_for_text].
    destruct (HEW other Hne) as [-> ->]. by apply Hm. }
  split; [|split; [|split; [|split]]].
  - change (inE (snd (_start_edit cfg message w))).
    unfold _start_edit. fold user_id. rewrite Hna.
    apply w_try_post;
      [|intros; by apply (w_inv_reply_to (to_sender user_id))].
    unfold bind at 1, db_read at 1. unfold bind at 1, add_editing at 1.
    apply (w_inv_reply_to (to_sender user_id)); [done..|]. split.
    + cbn [editing_users]. set_solver.
    + apply Hmode; [apply aside_refl|]. intros other Hne. split; set_solver.
  - change (outE (snd (_cancel_edit cfg message w))).
    unfold _cancel_edit. fold user_id. cbv zeta. rewrite Hna.
    apply w_try_post; [|intros; by apply w_inv_ret].
    unfold bind at 1, discard_editing at 1.
    apply (w_inv_reply_to (to_sender user_id)); [done..|]. split.
    + cbn [editing_users]. set_solver.
    + apply Hmode; [apply aside_refl|]. intros other Hne. split; set_solver.
  - change ((fun w' => user_id ∉ editing_users w')
              (snd (_handle_edit cfg message w))).
    unfold _handle_edit. fold user_id. cbv zeta. rewrite Hna.
    assert (∀ c w1, True → user_id ∉ editing_users w1 →
              user_id ∉ editing_users (snd (api c w1))) as Hout.
    { intros c w1 _ Hin. unfold api. by destruct (r_ok _). }
    apply w_try_post;
      [|intros; by apply (w_inv_reply_to (fun _ => True))].
    unfold bind at 1, discard_editing at 1.
    destruct (bool_decide _).
    + apply (w_inv_reply_to (fun _ => True)); [done..|].
      cbn [editing_users]. set_solver.
    + unfold bind at 1, db_write at 1.
      apply (w_inv_reply_to (fun _ => True)); [done..|].
      unfold set_db. cbn [editing_users]. set_solver.
  - change (inW (snd (_start_gong cfg message w))).
    unfold _start_gong. fold user_id. rewrite Hna.
    apply w_try_post;
      [|intros; by apply (w_inv_reply_to (to_sender user_id))].
    unfold bind at 1, add_waiting at 1.
    apply (w_inv_reply_to (to_sender user_id)); [done..|]. split.
    + cbn [waiting_for_text]. set_solver.
    + apply Hmode; [apply aside_refl|]. intros other Hne. split; set_solver.
  - change (outW (snd (_handle_gong_text cfg message w))).
    unfold _handle_gong_text. fold user_id. cbv zeta. rewrite Hna.
    apply w_try_post;
      [|intros; by apply (w_inv_reply_to (to_sender user_id))].
    unfold bind at 1, discard_waiting at 1.
    match goal with
    | |- outW (snd (?m ?w1)) =>
        enough (w_inv outW m) as Hm;
          [apply Hm; split;
             [cbn [waiting_for_text]; set_solver
             |apply Hmode; [apply aside_refl|];
                intros other Hne; split; set_solver]|]
    end.
    destruct (Utils.validate_text_length _ _ _) as [[|] error].
    + apply w_inv_bind; [apply w_inv_read|intros all_users].
      destruct (bool_decide _).
      * by apply (w_inv_reply_to (to_sender user_id)).
      * apply w_inv_bind;
          [by apply (w_inv_reply_to (to_sender user_id))|intros _].
        apply w_inv_bind;
          [by apply (w_inv_send (to_sender user_id))|intros _].
        apply w_inv_ret.
    + by apply (w_inv_reply_to (to_sender user_id)).
Qed.

End Modes.

Lemma modes_begin_and_end_witness :
  1 ∈ editing_users
        (snd (TrainsManager._start_edit sample_config
                (from_1 (py "/edittrains")) (world_of empty_db [failed 5])))
  ∧ (1 ∉ waiting_for_text
           (snd (GongManager._handle_gong_text sample_config
                   (from_1 (py "/edittrains"))
                   (world_of empty_db [failed 5])))).
Proof.
  pose proof (modes_begin_and_end sample_config (from_1 (py "/edittrains"))
                (world_of empty_db [failed 5])
                ltac:(apply (bool_decide_unpack _); by vm_compute)) as H.
  split; [exact (proj1 (proj1 H))|].
  exact (proj1 (proj2 (proj2 (proj2 (proj2 H))))).
Defined.

(* --------------------------------------------------------------------- *)
(** ** main.py: restarting the polling *)
(* --------------------------------------------------------------------- *)

Section Restarts.
Import MetroBot.

Lemma wait_time_range k : 1 ≤ k → 5 ≤ wait_time k ≤ 60.
Proof.
  intros Hk. unfold wait_time.
  assert (0 < 2 ^ (k - 1)) by (apply Z.pow_pos_nonneg; lia). lia.
Qed.

Lemma restart_waits_S from n :
  restart_waits from (S n)
  = Sleep (wait_time (from + 1) * 1000) :: restart_waits (from + 1) n.
Proof.
  unfold restart_waits. simpl. rewrite Z.add_0_r. f_equal.
  rewrite <- seq_shift, map_map. apply map_ext. intros i.
  do 3 f_equal. lia.
Qed.

Lemma run_loop_spec outcomes :
  ∀ retry_count w,
    0 ≤ retry_count ≤ 10 →
    ∃ rest w',
      run_loop outcomes retry_count w
      = (Ok (Z.min (retry_count + failures outcomes) 10, rest), w')
      ∧ trace w'
        = trace w
          ++ restart_waits retry_count
               (Z.to_nat (Z.min (retry_count + failures outcomes) 9
                          - retry_count))
      ∧ db w' = db w
      ∧ failures rest = Z.max 0 (retry_count + failures outcomes - 10).
Proof.
  induction outcomes as [|o outcomes IH]; intros rc w Hrc.
  - exists [], w. change (failures []) with 0.
    replace (Z.to_nat (Z.min (rc + 0) 9 - rc)) with 0%nat by lia.
    unfold restart_waits. simpl. unfold ret. rewrite app_nil_r.
    split_and!; try done; [|lia]. do 3 f_equal. lia.
  - assert (failures (o :: outcomes)
            = (if decide (o = Failed) then 1 else 0) + failures outcomes)
      as Hf.
    { unfold failures. rewrite filter_cons. destruct (decide _); simpl; lia. }
    pose proof (Zle_0_nat (length (filter (fun o => o = Failed) outcomes)))
      as Hpos. fold (failures outcomes) in Hpos.
    cbn [run_loop]. unfold max_retries.
    destruct (Z.ltb_spec rc 10) as [Hlt|Hge]; cbn [negb].
    + destruct o.
      * rewrite Hf. rewrite decide_False by done.
        destruct (IH rc w Hrc) as (rest & w' & Hrun & Ht & Hd & Hrest).
        exists rest, w'. rewrite Z.add_0_l. done.
      * rewrite Hf. rewrite decide_True by done. cbv zeta.
        destruct (Z.ltb_spec (rc + 1) 10) as [Hlt'|Hge'].
        -- assert (0 ≤ wait_time (rc + 1) * 1000) as Hw
             by (pose proof (wait_time_range (rc + 1)); lia).
           destruct (IH (rc + 1)
                       {| db := db w;
                          clock := clock w + wait_time (rc + 1) * 1000;
                          utc_offset := utc_offset w; net := net w;
                          trace := trace w
                                   ++ [Sleep (wait_time (rc + 1) * 1000)];
                          rate_limiter := rate_limiter w;
                          waiting_for_text := waiting_for_text w;
                          editing_users := editing_users w |})
             as (rest & w' & Hrun & Ht & Hd & Hrest); [lia|].
           exists rest, w'. unfold bind at 1, time_sleep at 1.
           rewrite (proj2 (Z.ltb_ge _ 0)) by done.
           rewrite Hrun. cbn [trace db] in Ht, Hd.
           split_and!.
           ++ do 3 f_equal. lia.
           ++ rewrite Ht, <- app_assoc. f_equal.
              replace (Z.to_nat (Z.min (rc + (1 + failures outcomes)) 9 - rc))
                with (S (Z.to_nat (Z.min (rc + 1 + failures outcomes) 9
                                   - (rc + 1)))) by lia.
              by rewrite restart_waits_S.
           ++ done.
           ++ rewrite Hrest. lia.
        -- exists outcomes, w. unfold ret.
           replace (Z.to_nat (Z.min (rc + (1 + failures outcomes)) 9 - rc))
             with 0%nat by lia.
           unfold restart_waits. simpl. rewrite app_nil_r.
           split_and!; try done; [|lia]. do 3 f_equal. lia.
    + exists (o :: outcomes), w. unfold ret. rewrite Hf.
      replace (Z.to_nat
                 (Z.min (rc + ((if decide (o = Failed) then 1 else 0)
                               + failures outcomes)) 9 - rc))
        with 0%nat by (destruct (decide _); lia).
      unfold restart_waits. simpl. rewrite app_nil_r.
      split_and!; try done; [do 3 f_equal|]; destruct (decide _); lia.
Qed.

(** X24. The restarts of the polling.  A failed call of
    [infinity_polling] is followed by a wait of 5, 10, 20, 40 and then 60
    seconds and a restart; the failures are counted over the whole run (a
    call that comes back in between does not reset the count), the tenth
    failure ends the loop at once, and what would come after it is never
    polled.  So the loop waits nine times at most, 375 seconds in all. *)
Theorem polling_gives_up_after_ten_failures
  (outcomes : list polling) (w : world) :
  ∃ rest w',
    run_loop outcomes 0 w = (Ok (Z.min (failures outcomes) 10, rest), w')
    ∧ trace w'
      = trace w
        ++ restart_waits 0 (Z.to_nat (Z.min (failures outcomes) 9))
    ∧ slept (restart_waits 0 (Z.to_nat (Z.min (failures outcomes) 9)))
      ≤ 375000
    ∧ take 5 (restart_waits 0 9)
      = [Sleep 5000; Sleep 10000; Sleep 20000; Sleep 40000; Sleep 60000]
    ∧ failures rest = Z.max 0 (failures outcomes - 10)
    ∧ db w' = db w.
Proof.
  destruct (run_loop_spec outcomes 0 w ltac:(lia))
    as (rest & w' & Hrun & Ht & Hd & Hrest).
  rewrite Z.add_0_l, Z.sub_0_r in *.
  exists rest, w'. split_and!; try done.
  - assert (Z.to_nat (Z.min (failures outcomes) 9) ≤ 9)%nat as Hn by lia.
    revert Hn. generalize (Z.to_nat (Z.min (failures outcomes) 9)).
    intros n Hn.
    do 10 (destruct n as [|n]; [by vm_compute|]). lia.
Qed.

End Restarts.

(* --------------------------------------------------------------------- *)
(** ** admin/trains.py: the list shown is the list accepted *)
(* --------------------------------------------------------------------- *)

Section EditRoundTrip.
Context (cfg : config).
Import Database TrainsManager.

Lemma filter_ne_id (x : pystr) (t : list pystr) :
  x ∉ t → filter (fun y => y ≠ x) t = t.
Proof.
  induction t as [|y t IHt]; [done|]. intros Hx.
  apply not_elem_of_cons in Hx as [Hne Hx].
  rewrite filter_cons_True by congruence. f_equal. by apply IHt.
Qed.

Lemma first_occurrences_NoDup l : NoDup l → first_occurrences l = l.
Proof.
  induction 1 as [|x t Hx _ IH]; [done|]. simpl. rewrite IH. f_equal.
  by apply filter_ne_id.
Qed.

Lemma strip_clean x : clean_name x → strip x = x.
Proof.
  intros ([c (Hc & Hsp & _)] & [c' (Hc' & Hsp')] & _).
  unfold strip, rstrip. destruct x as [|c0 t]; [done|].
  injection Hc as ->. rewrite lstrip_id by done.
  apply last_Some in Hc' as [l Hl]. rewrite Hl, rev_app_distr. simpl.
  rewrite Hsp'. simpl. by rewrite rev_involutive.
Qed.

Lemma parse_lines_clean names :
  Forall clean_name names → parse_lines names = names.
Proof.
  induction 1 as [|x names Hx _ IH]; [done|]. cbn [parse_lines]. cbv zeta.
  rewrite (strip_clean x Hx), IH.
  destruct Hx as ([c (Hc & _ & H47)] & _).
  destruct x as [|c0 t]; [done|]. injection Hc as ->.
  rewrite bool_decide_eq_false_2 by done.
  change (py "/") with [47].
  change (startswith [47] (c :: t)) with ((47 =? c) && true).
  by rewrite (proj2 (Z.eqb_neq 47 c)) by done.
Qed.

Lemma split_join names :
  names ≠ [] → Forall (fun x => 10 ∉ x) names →
  split_on 10 (join nl names) = names.
Proof.
  intros Hne Hall. unfold split_on, nl.
  induction Hall as [|x names Hx Hall IH]; [done|].
  destruct names as [|y names].
  - simpl. by rewrite split_sep_plain.
  - change (join [10] (x :: y :: names))
      with (x ++ 10 :: join [10] (y :: names)).
    rewrite split_sep_cons, split_sep_plain by done.
    by rewrite IH.
Qed.

Lemma join_clean names :
  names ≠ [] → Forall clean_name names →
  strip (join nl names) = join nl names.
Proof.
  intros Hne Hall.
  assert (∃ c, head (join nl names) = Some c ∧ isspace_char c = false)
    as (c & Hc & Hsp).
  { destruct Hall as [|x names (Hx & _) _]; [done|].
    destruct Hx as (c & Hc & Hsp & _). exists c. split; [|done].
    destruct x as [|c0 t]; [done|]. by destruct names. }
  assert (∃ c, last (join nl names) = Some c ∧ isspace_char c = false)
    as (c' & Hc' & Hsp').
  { clear c Hc Hsp. induction Hall as [|x names Hx Hall IH]; [done|].
    destruct names as [|y names].
    - destruct Hx as (_ & Hlast & _). exact Hlast.
    - destruct IH as (c & Hc & Hsp); [done|]. exists c. split; [|done].
      change (join nl (x :: y :: names))
        with (x ++ nl ++ join nl (y :: names)).
      by rewrite !last_app, Hc. }
  unfold strip, rstrip. destruct (join nl names) as [|c0 t]; [done|].
  injection Hc as ->. rewrite lstrip_id by done.
  apply last_Some in Hc' as [l Hl]. rewrite Hl, rev_app_distr. simpl.
  rewrite Hsp'. simpl. by rewrite rev_involutive.
Qed.

(** X30. The list shown by [/edittrains] is accepted as it is.  When the
    names of the table are clean (not empty, no white space at the ends,
    no line break, no leading slash) and distinct, and an administrator
    sends back the current list, one name to a line, as [_start_edit]
    prints it, [_handle_edit] leaves the list of [get_trains] and the
    other tables as they were. *)
Theorem edit_round_trip (message : message) (w : world) :
  let names := get_trains (db w) in
  let d' := db (snd (_handle_edit cfg message w)) in
  u_id (m_from_user message) ∈ ADMINS cfg →
  names ≠ [] → Forall clean_name names → NoDup names →
  m_text message = join nl names →
  get_trains d' = names
  ∧ users d' = users (db w) ∧ banned_users d' = banned_users (db w)
  ∧ user_states d' = user_states (db w).
Proof.
  intros names d' Hadmin Hne Hclean Hnd Htext. subst d'.
  assert (parse_lines (split_on 10 (strip (m_text message))) = names)
    as Hparse.
  { rewrite Htext, join_clean, split_join, parse_lines_clean; try done.
    eapply Forall_impl; [exact Hclean|]. by intros x (_ & _ & H10). }
  destruct (handle_edit_store cfg message w) as [Hdb _].
  { unfold is_admin. by rewrite bool_decide_eq_true_2. }
  { by rewrite Hparse. }
  rewrite Hdb, Hparse, unique_loop_first_occurrences,
    first_occurrences_NoDup by done.
  split.
  - unfold get_trains at 1. rewrite set_trains_names by done.
    apply (Sorted_unique str_le (Transitive0:=str_le_trans)
             (AntiSymm0:=str_le_antisym)).
    + apply (Sorted_merge_sort str_le (Total0:=str_le_total)).
    + unfold names, get_trains.
      apply (Sorted_merge_sort str_le (Total0:=str_le_total)).
    + apply merge_sort_Permutation.
  - unfold set_trains.
    match goal with
    | |- context [fold_left insert_train names ?d0] =>
        destruct (insert_all_rows names d0) as (_ & _ & _ & Hu & Hb & Hs)
    end.
    done.
Qed.

End EditRoundTrip.

Lemma edit_round_trip_witness :
  Database.get_trains
    (db (snd (TrainsManager._handle_edit sample_config
                (from_1 (py "A" ++ nl ++ py "B 1"))
                (world_of trains_db [failed 5]))))
  = [py "A"; py "B 1"].
Proof.
  refine (proj1 (edit_round_trip sample_config
                   (from_1 (py "A" ++ nl ++ py "B 1"))
                   (world_of trains_db [failed 5]) _ _ _ _ _)).
  - apply (bool_decide_unpack _). by vm_compute.
  - by vm_compute.
  - change (Forall clean_name [py "A"; py "B 1"]).
    repeat constructor; try (eexists; split; [reflexivity|]);
      try (by vm_compute); try (split; [by vm_compute|by vm_compute]);
      apply (bool_decide_unpack _); by vm_compute.
  - change (NoDup [py "A"; py "B 1"]).
    apply (bool_decide_unpack _). by vm_compute.
  - by vm_compute.
Defined.
